(** * Authentication and role-based access control of finally-project

    A shallow embedding of the backend user model (models/User.js), the
    authentication routes (routes/auth.js) and the client session state
    machine (context/AuthContext.jsx, the route guard of App.jsx and the
    registration page), followed by the properties established about them.

    Conventions.
    - A JavaScript string is a Rocq [string]; one character is one code
      unit below 256, so [String.length] is the JavaScript [length].
    - [undefined], [null] and a missing field of a request body are [None].
    - Time is an integer number of seconds: one reading of the clock per
      request, which [new Date()], the timestamps of the schema and the
      [iat] of a token share. *)

From Stdlib Require Import ZArith String Ascii List Bool Lia.
From stdpp Require Import base option gmap strings list.

Local Open Scope string_scope.
Local Open Scope Z_scope.

(** ** JavaScript string primitives *)

Module JS.

(** Truthiness of a string value: only the empty string is falsy. *)
Definition truthy (s : string) : bool :=
  match s with EmptyString => false | _ => true end.

(** Truthiness of a possibly-undefined string ([!x] is its negation). *)
Definition truthy_opt (x : option string) : bool :=
  match x with Some s => truthy s | None => false end.

(** [x || d] on a possibly-undefined string. *)
Definition or_else (x : option string) (d : string) : string :=
  match x with
  | Some s => if truthy s then s else d
  | None => d
  end.

(** [s.length] as an integer. *)
Definition strlen (s : string) : Z := Z.of_nat (String.length s).

Definition code (c : ascii) : N := N_of_ascii c.

(** The class [\s] restricted to code units below 256:
    TAB, LF, VT, FF, CR, SPACE and NBSP. *)
Definition is_space (c : ascii) : bool :=
  let n := code c in
  ((9 <=? n) && (n <=? 13) || (n =? 32) || (n =? 160))%N.

Definition is_digit (c : ascii) : bool :=
  let n := code c in ((48 <=? n) && (n <=? 57))%N.

(** [String.prototype.toLowerCase] on code units below 256. *)
Definition lower_char (c : ascii) : ascii :=
  let n := code c in
  if ((65 <=? n) && (n <=? 90)
      || (192 <=? n) && (n <=? 222) && negb (n =? 215))%N
  then ascii_of_N (n + 32) else c.

Fixpoint toLowerCase (s : string) : string :=
  match s with
  | EmptyString => EmptyString
  | String c s' => String (lower_char c) (toLowerCase s')
  end.

Fixpoint trimStart (s : string) : string :=
  match s with
  | EmptyString => EmptyString
  | String c s' => if is_space c then trimStart s' else s
  end.

(** Drops the trailing white space: a character is kept when it is not
    white space or when something is kept after it. *)
Fixpoint trimEnd (s : string) : string :=
  match s with
  | EmptyString => EmptyString
  | String c s' =>
      match trimEnd s' with
      | EmptyString => if is_space c then EmptyString else String c EmptyString
      | t => String c t
      end
  end.

Definition trim (s : string) : string := trimEnd (trimStart s).

(** *** Regular expressions, matched by derivatives

    Enough of the regular-expression language for the patterns of the
    source, all of which are anchored at both ends ([^...$]), so that
    [RegExp.prototype.test] is a match of the whole string. *)

Inductive regex : Type :=
| Never
| Eps
| Class (p : ascii -> bool)
| Seq (r1 r2 : regex)
| Alt (r1 r2 : regex)
| Star (r : regex).

Definition Plus (r : regex) : regex := Seq r (Star r).
Definition Opt (r : regex) : regex := Alt r Eps.

(** [r{n,}] *)
Fixpoint AtLeast (n : nat) (r : regex) : regex :=
  match n with
  | O => Star r
  | S n' => Seq r (AtLeast n' r)
  end.

Fixpoint nullable (r : regex) : bool :=
  match r with
  | Never => false
  | Eps => true
  | Class _ => false
  | Seq r1 r2 => nullable r1 && nullable r2
  | Alt r1 r2 => nullable r1 || nullable r2
  | Star _ => true
  end.

Fixpoint deriv (c : ascii) (r : regex) : regex :=
  match r with
  | Never => Never
  | Eps => Never
  | Class p => if p c then Eps else Never
  | Seq r1 r2 =>
      if nullable r1
      then Alt (Seq (deriv c r1) r2) (deriv c r2)
      else Seq (deriv c r1) r2
  | Alt r1 r2 => Alt (deriv c r1) (deriv c r2)
  | Star r1 => Seq (deriv c r1) (Star r1)
  end.

Fixpoint test (r : regex) (s : string) : bool :=
  match s with
  | EmptyString => nullable r
  | String c s' => test (deriv c r) s'
  end.

Definition chr (a : ascii) : regex := Class (Ascii.eqb a).

(** *** Property access on an object literal

    [o[k]] on an object written as a literal finds the own properties
    and, failing that, what the object inherits from [Object.prototype]. *)

Definition Object_prototype : list string :=
  ["constructor"; "__proto__"; "hasOwnProperty"; "isPrototypeOf";
   "propertyIsEnumerable"; "toLocaleString"; "toString"; "valueOf";
   "__defineGetter__"; "__defineSetter__"; "__lookupGetter__";
   "__lookupSetter__"].

Inductive property (V : Type) : Type :=
| Own (v : V)
| Inherited
| Undefined.
Arguments Own {V} v.
Arguments Inherited {V}.
Arguments Undefined {V}.

Definition get {V} (o : gmap string V) (k : string) : property V :=
  match o !! k with
  | Some v => Own v
  | None => if existsb (String.eqb k) Object_prototype then Inherited else Undefined
  end.

(** Truthiness of [o[k]] when the own properties hold objects: inherited
    functions and objects are truthy as well. *)
Definition has_truthy {V} (o : gmap string V) (k : string) : bool :=
  match get o k with
  | Undefined => false
  | _ => true
  end.

(** *** Relational comparison of what a property access gives

    What [o[k]] evaluates to when the own properties of [o] hold numbers:
    a number, something inherited from [Object.prototype], or
    [undefined]. An inherited property is kept as the text [ToPrimitive]
    makes of it, which is all a comparison reads. *)

Inductive value : Type :=
| VNumber (n : Z)
| VObject (text : string)
| VUndefined.

(** The inherited properties are functions, whose text names them, but
    for [__proto__], which is [Object.prototype] itself; [constructor] is
    the function [Object]. *)
Definition inherited_text (k : string) : string :=
  if String.eqb k "__proto__" then "[object Object]"
  else "function " ++ (if String.eqb k "constructor" then "Object" else k)
       ++ "() { [native code] }".

(** [a >= b]: two texts are compared as strings, by code units; in every
    other case both sides are turned into numbers, and a text that is no
    numeral, like [undefined], gives [NaN], for which every comparison is
    false. *)
Definition ge (a b : value) : bool :=
  match a, b with
  | VNumber x, VNumber y => y <=? x
  | VObject s, VObject t => String.leb t s
  | _, _ => false
  end.

End JS.

(** ** The user model (models/User.js) *)

Module User.

Import JS.

(** *** bcryptjs

    The hashing library is outside the repository: it is an interface.
    [genSalt] draws a random salt; the entropy it draws is an input. *)

Record salt : Type := { rounds : Z; entropy : string }.

Definition genSalt (r : Z) (rnd : string) : salt :=
  {| rounds := r; entropy := rnd |}.

Class Bcrypt : Type := {
  hash : string -> salt -> string;
  compare : string -> string -> bool
}.

(** The contract of the library: [compare] accepts the plaintext a hash
    was made from. Nothing is assumed of the candidates it refuses. *)
Class BcryptSound (B : Bcrypt) : Prop := {
  compare_hash : forall p s, compare p (hash p s) = true
}.

(** The UTF-8 encoding of a string of code units below 256, as a string
    of bytes: one byte below 128, two bytes from 128 on. *)
Fixpoint utf8 (s : string) : string :=
  match s with
  | EmptyString => EmptyString
  | String c s' =>
      let n := code c in
      if (n <? 128)%N then String c (utf8 s')
      else String (ascii_of_N (192 + n / 64))
             (String (ascii_of_N (128 + n mod 64)) (utf8 s'))
  end.

(** bcryptjs reads the first 72 bytes of the encoded password. *)
Definition key72 (p : string) : string := String.substring 0 72 (utf8 p).

(** The limit of the library: two passwords of 72 bytes or more that agree
    on their first 72 bytes have the same hash under the same salt. *)
Class BcryptTruncates (B : Bcrypt) : Prop := {
  hash_key72 : forall p q s,
    72 <= strlen (utf8 p) -> 72 <= strlen (utf8 q) -> key72 p = key72 q ->
    hash p s = hash q s
}.

(** *** Errors raised by the model layer *)

Inductive error : Type :=
| ValidationError (errors : list string)
| MongoServerError (code : Z)
| MongoNetworkError
| DocumentNotFoundError
| TypeError
| Error (message : string).

(** *** The schema *)

Record user : Type := {
  _id : N;
  name : option string;
  email : option string;
  password : option string;
  role : option string;
  department : option string;
  position : option string;
  phoneNumber : option string;
  isActive : bool;
  lastLogin : option Z;
  emailVerified : bool;
  profilePicture : option string;
  timezone : string;
  language : string;
  createdAt : option Z;
  updatedAt : option Z
}.

(** A document in memory: its fields and Mongoose's bookkeeping. *)
Record document : Type := {
  data : user;
  isNew : bool;
  modifiedPaths : list string
}.

Definition isModified (path : string) (d : document) : bool :=
  existsb (String.eqb path) (modifiedPaths d).

(** [/^[^\s@]+@[^\s@]+\.[^\s@]+$/] *)
Definition emailRegex : regex :=
  let atom := Class (fun c => negb (is_space c || Ascii.eqb c "@")) in
  Seq (Plus atom) (Seq (chr "@") (Seq (Plus atom) (Seq (chr ".") (Plus atom)))).

(** [/^[+]?[\d\s\-()]{10,}$/] *)
Definition phoneRegex : regex :=
  let sym := Class (fun c => is_digit c || is_space c || Ascii.eqb c "-"
                             || Ascii.eqb c "(" || Ascii.eqb c ")") in
  Seq (Opt (chr "+")) (AtLeast 10 sym).

Definition roleValues : list string := ["admin"; "manager"; "support"; "user"].
Definition languageValues : list string := ["fr"; "en"; "es"].

Definition member (s : string) (l : list string) : bool :=
  existsb (String.eqb s) l.

(** A validator gives the message of the failure, if any. *)
Definition validator : Type := option string -> option string.

Definition required (msg : string) : validator := fun v =>
  if truthy_opt v then None else Some msg.

Definition minlength (n : Z) (msg : string) : validator := fun v =>
  match v with
  | Some s => if strlen s <? n then Some msg else None
  | None => None
  end.

Definition maxlength (n : Z) (msg : string) : validator := fun v =>
  match v with
  | Some s => if n <? strlen s then Some msg else None
  | None => None
  end.

(** The message of an [enum] may quote the value it refuses. *)
Definition enum (values : list string) (msg : string -> string) : validator :=
  fun v =>
    match v with
    | Some s => if member s values then None else Some (msg s)
    | None => None
    end.

Definition custom (f : string -> bool) (msg : string) : validator := fun v =>
  match v with
  | Some s => if f s then None else Some msg
  | None => None
  end.

(** The first failing validator of a path reports. *)
Fixpoint run (vs : list validator) (v : option string) : list string :=
  match vs with
  | [] => []
  | f :: vs' => match f v with Some msg => [msg] | None => run vs' v end
  end.

(** Validation of a document; [with_password] is off for a document that
    was loaded without its password. *)
Definition validate (with_password : bool) (u : user) : list string :=
  run [required "Name is required";
       minlength 2 "Name must be at least 2 characters long";
       maxlength 50 "Name cannot exceed 50 characters"] (name u)
  ++ run [required "Email is required";
          custom (test emailRegex) "Please provide a valid email address"] (email u)
  ++ (if with_password
      then run [required "Password is required";
                minlength 6 "Password must be at least 6 characters long"] (password u)
      else [])
  ++ run [enum roleValues
            (fun _ => "Role must be one of: admin, manager, support, user")] (role u)
  ++ run [maxlength 50 "Department cannot exceed 50 characters"] (department u)
  ++ run [maxlength 50 "Position cannot exceed 50 characters"] (position u)
  ++ run [custom (fun phone => negb (truthy phone) || test phoneRegex phone)
                 "Please provide a valid phone number"] (phoneNumber u)
  ++ run [enum languageValues
            (fun v => "`" ++ v ++ "` is not a valid enum value for path `language`.")]
         (Some (language u)).

(** *** Construction and assignment *)

(** The object literal handed to [new User(...)] by the routes. *)
Record fields : Type := {
  f_name : option string;
  f_email : option string;
  f_password : option string;
  f_role : option string;
  f_department : option string;
  f_position : option string
}.

Definition defined (path : string) (v : option string) : list string :=
  match v with Some _ => [path] | None => [] end.

(** [new User(o)]: the setters ([trim], [lowercase]) run on assignment and
    the defaults of the schema fill what is left undefined. *)
Definition new_User (id : N) (o : fields) : document :=
  {| data := {| _id := id;
                name := trim <$> f_name o;
                email := (fun s => trim (toLowerCase s)) <$> f_email o;
                password := f_password o;
                role := Some (default "user" (f_role o));
                department := trim <$> f_department o;
                position := trim <$> f_position o;
                phoneNumber := None;
                isActive := true;
                lastLogin := None;
                emailVerified := false;
                profilePicture := None;
                timezone := "UTC";
                language := "fr";
                createdAt := None;
                updatedAt := None |};
     isNew := true;
     modifiedPaths := defined "name" (f_name o) ++ defined "email" (f_email o)
                      ++ defined "password" (f_password o) ++ defined "role" (f_role o)
                      ++ defined "department" (f_department o)
                      ++ defined "position" (f_position o) |}.

Definition with_password (p : option string) (u : user) : user :=
  {| _id := _id u; name := name u; email := email u; password := p;
     role := role u; department := department u; position := position u;
     phoneNumber := phoneNumber u; isActive := isActive u;
     lastLogin := lastLogin u; emailVerified := emailVerified u;
     profilePicture := profilePicture u; timezone := timezone u;
     language := language u;
     createdAt := createdAt u; updatedAt := updatedAt u |}.

Definition with_lastLogin (t : option Z) (u : user) : user :=
  {| _id := _id u; name := name u; email := email u; password := password u;
     role := role u; department := department u; position := position u;
     phoneNumber := phoneNumber u; isActive := isActive u;
     lastLogin := t; emailVerified := emailVerified u;
     profilePicture := profilePicture u; timezone := timezone u;
     language := language u;
     createdAt := createdAt u; updatedAt := updatedAt u |}.

Definition with_createdAt (t : option Z) (u : user) : user :=
  {| _id := _id u; name := name u; email := email u; password := password u;
     role := role u; department := department u; position := position u;
     phoneNumber := phoneNumber u; isActive := isActive u;
     lastLogin := lastLogin u; emailVerified := emailVerified u;
     profilePicture := profilePicture u; timezone := timezone u;
     language := language u;
     createdAt := t; updatedAt := updatedAt u |}.

Definition with_updatedAt (t : option Z) (u : user) : user :=
  {| _id := _id u; name := name u; email := email u; password := password u;
     role := role u; department := department u; position := position u;
     phoneNumber := phoneNumber u; isActive := isActive u;
     lastLogin := lastLogin u; emailVerified := emailVerified u;
     profilePicture := profilePicture u; timezone := timezone u;
     language := language u;
     createdAt := createdAt u; updatedAt := t |}.

Definition markModified (path : string) (d : document) : list string :=
  if isModified path d then modifiedPaths d else modifiedPaths d ++ [path].

(** [doc.password = v]: assigning the value a path already has leaves it
    unmodified. *)
Definition set_password (v : string) (d : document) : document :=
  if bool_decide (password (data d) = Some v) then d
  else {| data := with_password (Some v) (data d); isNew := isNew d;
          modifiedPaths := markModified "password" d |}.

(** [doc.lastLogin = new Date()] at time [t]. *)
Definition set_lastLogin (t : Z) (d : document) : document :=
  if bool_decide (lastLogin (data d) = Some t) then d
  else {| data := with_lastLogin (Some t) (data d); isNew := isNew d;
          modifiedPaths := markModified "lastLogin" d |}.

(** [toObject()] with the transform of the schema, which deletes the
    password. *)
Definition toObject (d : document) : user := with_password None (data d).

(** [timestamps: true]: the pre-save hook Mongoose registers for the
    option, at time [now]. A new document gets [createdAt], unless it has
    one, and an [updatedAt] equal to it; a stored document gets a new
    [updatedAt] when one of its paths is modified. *)
Definition timestamps (now : Z) (d : document) : document :=
  if isNew d then
    let created := Some (default now (createdAt (data d))) in
    let d1 := {| data := with_createdAt created (data d); isNew := true;
                 modifiedPaths := markModified "createdAt" d |} in
    {| data := with_updatedAt created (data d1); isNew := true;
       modifiedPaths := markModified "updatedAt" d1 |}
  else
    match modifiedPaths d with
    | [] => d
    | _ :: _ =>
        {| data := with_updatedAt (Some now) (data d); isNew := false;
           modifiedPaths := markModified "updatedAt" d |}
    end.

(** *** Middleware and methods *)

(** The update object of a [findOneAndUpdate]: fields given directly and
    fields given under the [$set] operator. *)
Record update : Type := {
  direct : gmap string string;
  dollar_set : gmap string string
}.

Section Methods.

Context `{Bcrypt}.

(** [userSchema.pre('save')]: the result is the argument of the one call
    of [next]. Reading [length] of an undefined password throws inside
    the [try]. *)
Definition pre_save (rnd : string) (d : document) : error + document :=
  if negb (isModified "password" d) then inr d
  else
    match password (data d) with
    | None => inl TypeError
    | Some p =>
        if strlen p <? 6
        then inl (Error "Password must be at least 6 characters long")
        else
          let salt := genSalt 12 rnd in
          inr {| data := with_password (Some (hash p salt)) (data d);
                 isNew := isNew d;
                 modifiedPaths := modifiedPaths d |}
    end.

(** [userSchema.pre('findOneAndUpdate')]: the update object as the hook
    leaves it, and the calls of [next] in order ([None] is [next()],
    [Some e] is [next(e)]). *)
Definition pre_findOneAndUpdate (rnd : string) (u : update)
  : update * list (option error) :=
  match direct u !! "password" with
  | Some p =>
      if truthy p then
        if strlen p <? 6
        then (u, [Some (Error "Password must be at least 6 characters long"); None])
        else
          let salt := genSalt 12 rnd in
          ({| direct := <["password" := hash p salt]> (direct u);
              dollar_set := dollar_set u |}, [None])
      else (u, [None])
  | None => (u, [None])
  end.

(** [userSchema.methods.comparePassword]: any failure of the comparison
    is rethrown as a plain error. *)
Definition comparePassword (d : document) (candidatePassword : string)
  : error + bool :=
  match password (data d) with
  | Some h => inr (compare candidatePassword h)
  | None => inl (Error "Error comparing passwords")
  end.

End Methods.

(** Mongoose's hook runner lets the first call of [next] decide. *)
Definition first_next (calls : list (option error)) : option error :=
  match calls with
  | c :: _ => c
  | [] => None
  end.

Definition roleHierarchy : list (string * Z) :=
  [("user", 1); ("support", 2); ("manager", 3); ("admin", 4)].

(** The own property [r] of [roleHierarchy], if there is one. *)
Fixpoint lookup_rank (table : list (string * Z)) (r : string) : option Z :=
  match table with
  | [] => None
  | (k, n) :: table' => if String.eqb k r then Some n else lookup_rank table' r
  end.

(** [roleHierarchy[r]]: the object is a literal, so a name that is none
    of its four keys finds what [Object.prototype] holds under it, if
    anything. A role that is [undefined] or [null] is looked up under its
    name, which finds nothing. *)
Definition roleHierarchy_at (r : option string) : value :=
  match r with
  | None => VUndefined
  | Some k =>
      match lookup_rank roleHierarchy k with
      | Some n => VNumber n
      | None =>
          if existsb (String.eqb k) Object_prototype
          then VObject (inherited_text k) else VUndefined
      end
  end.

(** [userSchema.methods.hasRole] *)
Definition hasRole (d : document) (requiredRole : string) : bool :=
  ge (roleHierarchy_at (role (data d))) (roleHierarchy_at (Some requiredRole)).

End User.

(** ** The collection behind the model (Mongoose over MongoDB) *)

Module Model.

Import JS User.

(** The [users] collection in insertion order, and whether the server can
    be reached. *)
Record db : Type := {
  users : list user;
  connected : bool
}.

Definition with_users (l : list user) (w : db) : db :=
  {| users := l; connected := connected w |}.

(** An awaited operation: it throws or yields a value, and leaves a
    collection. *)
Definition op (A : Type) : Type := db -> (error + A) * db.

(** A query filter is cast with the setters of the schema. *)
Definition cast_email (e : string) : string := trim (toLowerCase e).

(** The password has [select: false]: it is loaded only on demand. *)
Definition hydrate (select_password : bool) (u : user) : document :=
  {| data := if select_password then u else with_password None u;
     isNew := false;
     modifiedPaths := [] |}.

Definition has_email (e : option string) (u : user) : bool :=
  bool_decide (email u = e).

Definition has_id (i : N) (u : user) : bool := (_id u =? i)%N.

(** [User.findOne({ email })], with or without [.select('+password')]. *)
Definition findOne (e : string) (select_password : bool) : op (option document) :=
  fun w =>
    if connected w
    then (inr (hydrate select_password
                 <$> List.find (has_email (Some (cast_email e))) (users w)), w)
    else (inl MongoNetworkError, w).

(** [User.findById(id)], with or without [.select('+password')]. *)
Definition findById (i : N) (select_password : bool) : op (option document) :=
  fun w =>
    if connected w
    then (inr (hydrate select_password <$> List.find (has_id i) (users w)), w)
    else (inl MongoNetworkError, w).

Fixpoint replace_first (f : user -> bool) (g : user -> user) (l : list user)
  : list user :=
  match l with
  | [] => []
  | u :: l' => if f u then g u :: l' else u :: replace_first f g l'
  end.

(** Validation before a save. The password is [select: false]: a stored
    document loaded without it is not validated on that path. *)
Definition validate_document (d : document) : list string :=
  validate (isNew d || isModified "password" d
            || bool_decide (is_Some (password (data d)))) (data d).

(** What an update of a stored document writes: the modified paths. *)
Definition patch (d : document) (u : user) : user :=
  let u1 := if isModified "password" d
            then with_password (password (data d)) u else u in
  let u2 := if isModified "lastLogin" d
            then with_lastLogin (lastLogin (data d)) u1 else u1 in
  if isModified "updatedAt" d then with_updatedAt (updatedAt (data d)) u2 else u2.

Definition saved (d : document) : document :=
  {| data := data d; isNew := false; modifiedPaths := [] |}.

(** [doc.save()] at time [now]: validation, then the pre-save middleware
    (the timestamps of the schema, then the hook of the model), then the
    write. An insert is refused by the unique indexes ([_id], [email])
    with code 11000. *)
Definition save `{Bcrypt} (now : Z) (rnd : string) (d : document) : op document :=
  fun w =>
    match validate_document d with
    | (_ :: _) as errors => (inl (ValidationError errors), w)
    | [] =>
        match pre_save rnd (timestamps now d) with
        | inl e => (inl e, w)
        | inr d' =>
            if negb (connected w) then (inl MongoNetworkError, w)
            else if isNew d' then
              if existsb (fun u => has_id (_id (data d')) u
                                   || has_email (email (data d')) u) (users w)
              then (inl (MongoServerError 11000), w)
              else (inr (saved d'), with_users (users w ++ [data d']) w)
            else
              match modifiedPaths d' with
              | [] => (inr d', w)
              | _ :: _ =>
                  if existsb (has_id (_id (data d'))) (users w)
                  then (inr (saved d'),
                        with_users (replace_first (has_id (_id (data d')))
                                      (patch d') (users w)) w)
                  else (inl DocumentNotFoundError, w)
              end
        end
    end.

(** The fields an update sets: a field given directly overrides the same
    field under [$set]. *)
Definition effective (u : update) : gmap string string :=
  direct u ∪ dollar_set u.

Definition assign (m : gmap string string) (path : string)
  (setter : string -> string) (old : option string) : option string :=
  match m !! path with
  | Some v => Some (setter v)
  | None => old
  end.

Definition apply_update (m : gmap string string) (u : user) : user :=
  {| _id := _id u;
     name := assign m "name" trim (name u);
     email := assign m "email" cast_email (email u);
     password := assign m "password" id (password u);
     role := assign m "role" id (role u);
     department := assign m "department" trim (department u);
     position := assign m "position" trim (position u);
     phoneNumber := assign m "phoneNumber" trim (phoneNumber u);
     isActive := isActive u;
     lastLogin := lastLogin u;
     emailVerified := emailVerified u;
     profilePicture := assign m "profilePicture" id (profilePicture u);
     timezone := default (timezone u) (m !! "timezone");
     language := default (language u) (m !! "language");
     createdAt := createdAt u;
     updatedAt := updatedAt u |}.

(** [User.findOneAndUpdate(filter, update)] at time [now]: the middleware,
    then the write of the first match, to which the timestamps of the
    schema add [updatedAt]; no validator runs on an update. The document
    is returned as it was found. *)
Definition findOneAndUpdate `{Bcrypt} (filter : user -> bool) (u : update)
  (now : Z) (rnd : string) : op (option document) :=
  fun w =>
    let '(u', calls) := pre_findOneAndUpdate rnd u in
    match first_next calls with
    | Some e => (inl e, w)
    | None =>
        if negb (connected w) then (inl MongoNetworkError, w)
        else
          match List.find filter (users w) with
          | None => (inr None, w)
          | Some found =>
              let written :=
                with_updatedAt (Some now) (apply_update (effective u') found) in
              if existsb (fun o => negb (has_id (_id found) o)
                                   && has_email (email written) o) (users w)
              then (inl (MongoServerError 11000), w)
              else (inr (Some (hydrate false found)),
                    with_users (replace_first filter (fun _ => written) (users w)) w)
          end
    end.

End Model.

(** ** The authentication routes (routes/auth.js) *)

Module Auth.

Import JS.

(** *** Tokens (jsonwebtoken), kept symbolic *)

(** What jsonwebtoken makes of the text of an [expiresIn] option: a
    timespan, kept as the whole seconds it adds to [iat], or nothing it
    can read. *)
Inductive expiry : Type :=
| Span (seconds : Z)
| NoSpan.

(** [process.env]; a variable that is unset or empty is [None]. *)
Record env : Type := {
  JWT_SECRET : option string;
  JWT_EXPIRES_IN : option expiry
}.

Record payload : Type := {
  id : N;
  role : option string;
  email : option string
}.

Record jwt : Type := {
  claims : payload;
  iat : Z;
  exp : Z;
  signed_with : string
}.

(** [process.env.JWT_SECRET || 'your-secret-key'] *)
Definition secret (e : env) : string := or_else (JWT_SECRET e) "your-secret-key".

(** [process.env.JWT_EXPIRES_IN || '1d'] *)
Definition expiresIn (e : env) : expiry := default (Span 86400) (JWT_EXPIRES_IN e).

(** The token signed at time [now] that expires [ttl] seconds later. *)
Definition signed (p : payload) (key : string) (ttl now : Z) : jwt :=
  {| claims := p; iat := now; exp := now + ttl; signed_with := key |}.

Definition quote : string := String (ascii_of_N 34) EmptyString.

(** [jwt.sign(payload, secret, { expiresIn })]: it throws when the option
    is no timespan. *)
Definition sign (p : payload) (key : string) (expiresIn : expiry) (now : Z)
  : User.error + jwt :=
  match expiresIn with
  | Span ttl => inr (signed p key ttl now)
  | NoSpan =>
      inl (User.Error
             (quote ++ "expiresIn" ++ quote
              ++ " should be a number of seconds or string representing a timespan eg: "
              ++ quote ++ "1d" ++ quote ++ ", " ++ quote ++ "20h" ++ quote ++ ", 60"))
  end.

Definition sign_user (e : env) (now : Z) (u : User.document) : User.error + jwt :=
  sign {| id := User._id (User.data u);
          role := User.role (User.data u);
          email := User.email (User.data u) |}
       (secret e) (expiresIn e) now.

(** *** Requests and responses *)

(** The parsed JSON body, with string-valued fields. *)
Definition body : Type := gmap string string.

Record response : Type := {
  status : Z;
  success : bool;
  message : string;
  token : option jwt;
  user : option User.user;
  errors : list string
}.

(** [res.status(code).json({ success: false, message })] *)
Definition failure (code : Z) (msg : string) : response :=
  {| status := code; success := false; message := msg;
     token := None; user := None; errors := [] |}.

Definition validateEmail (e : string) : bool := test User.emailRegex e.

Definition validatePassword (p : string) : bool :=
  truthy p && (6 <=? strlen p).

(** *** Handlers: state, exceptions and early return *)

Inductive outcome (A : Type) : Type :=
| Respond (r : response)
| Throw (e : User.error)
| Value (a : A).
Arguments Respond {A} r.
Arguments Throw {A} e.
Arguments Value {A} a.

Definition handler (A : Type) : Type := Model.db -> outcome A * Model.db.

Definition ret {A} (a : A) : handler A := fun w => (Value a, w).

Definition bind {A B} (c : handler A) (k : A -> handler B) : handler B :=
  fun w =>
    match c w with
    | (Value a, w') => k a w'
    | (Respond r, w') => (Respond r, w')
    | (Throw e, w') => (Throw e, w')
    end.

Notation "x <- c ;; k" := (bind c (fun x => k))
  (at level 100, c at next level, right associativity).
Notation "c ;; k" := (bind c (fun _ => k))
  (at level 100, right associativity).

(** [return res.status(...).json(...)] *)
Definition respond {A} (r : response) : handler A := fun w => (Respond r, w).

(** [if (cond) return res...] *)
Definition guard (cond : bool) (r : response) : handler unit :=
  if cond then respond r else ret tt.

(** [await] of a model operation. *)
Definition await {A} (o : Model.op A) : handler A :=
  fun w =>
    match o w with
    | (inl e, w') => (Throw e, w')
    | (inr a, w') => (Value a, w')
    end.

(** [try { body } catch (error) { ... }] around a whole handler. *)
Definition try_catch (body : handler response) (catch : User.error -> response)
  : Model.db -> response * Model.db :=
  fun w =>
    match body w with
    | (Value r, w') => (r, w')
    | (Respond r, w') => (r, w')
    | (Throw e, w') => (catch e, w')
    end.

(** A synchronous or awaited call that may throw. *)
Definition lift {A} (r : User.error + A) : handler A :=
  fun w =>
    match r with
    | inl e => (Throw e, w)
    | inr a => (Value a, w)
    end.

(** [x || null] *)
Definition or_null (x : option string) : option string :=
  match x with
  | Some s => if truthy s then Some s else None
  | None => None
  end.

(** *** The routes *)

Section Routes.

Context `{User.Bcrypt}.

(** [process.env], the clock and the entropy the request draws. *)
Variable e : env.
Variable now : Z.
Variable rnd : string.

(** [router.post('/login')] *)
Definition login (b : body) : Model.db -> response * Model.db :=
  try_catch
    (let email := b !! "email" in
     let password := b !! "password" in
     guard (negb (truthy_opt email) || negb (truthy_opt password))
           (failure 400 "Email and password are required") ;;
     let email := default "" email in
     let password := default "" password in
     guard (negb (validateEmail email))
           (failure 400 "Invalid email format") ;;
     guard (negb (validatePassword password))
           (failure 400 "Password must be at least 6 characters long") ;;
     found <- await (Model.findOne email true) ;;
     match found with
     | None => respond (failure 401 "Invalid email or password")
     | Some user =>
         isMatch <- lift (User.comparePassword user password) ;;
         guard (negb isMatch) (failure 401 "Invalid email or password") ;;
         user <- await (Model.save now rnd (User.set_lastLogin now user)) ;;
         token <- lift (sign_user e now user) ;;
         respond {| status := 200; success := true;
                    message := "Login successful";
                    token := Some token;
                    user := Some (User.toObject user);
                    errors := [] |}
     end)
    (fun _ => failure 500 "Server error during authentication").

(** The [catch] shared by the two routes that create a user. *)
Definition creation_failed (fallback : string) (error : User.error) : response :=
  match error with
  | User.ValidationError errors =>
      {| status := 400; success := false; message := "Validation error";
         token := None; user := None; errors := errors |}
  | User.MongoServerError 11000 =>
      failure 409 "User already exists with this email"
  | _ => failure 500 fallback
  end.

(** [router.post('/register')]; [oid] is the identifier the new document
    is given. *)
Definition register (oid : N) (b : body) : Model.db -> response * Model.db :=
  try_catch
    (let name := b !! "name" in
     let email := b !! "email" in
     let password := b !! "password" in
     let role := b !! "role" in
     let department := b !! "department" in
     let position := b !! "position" in
     guard (negb (truthy_opt name) || negb (truthy_opt email)
            || negb (truthy_opt password))
           (failure 400 "Name, email and password are required") ;;
     guard (negb (validateEmail (default "" email)))
           (failure 400 "Invalid email format") ;;
     guard (negb (validatePassword (default "" password)))
           (failure 400 "Password must be at least 6 characters long") ;;
     existingUser <- await (Model.findOne (default "" email) false) ;;
     guard (bool_decide (is_Some existingUser))
           (failure 409 "User already exists with this email") ;;
     let user := User.new_User oid
                   {| User.f_name := name;
                      User.f_email := email;
                      User.f_password := password;
                      User.f_role := Some (or_else role "user");
                      User.f_department := or_null department;
                      User.f_position := or_null position |} in
     user <- await (Model.save now rnd user) ;;
     token <- lift (sign_user e now user) ;;
     respond {| status := 201; success := true;
                message := "User registered successfully";
                token := Some token;
                user := Some (User.toObject user);
                errors := [] |})
    (creation_failed "Server error during registration").

(** [router.post('/admin/create-user')], after the middleware has put the
    identity of the caller in [req.user]. *)
Definition create_user (req_user : payload) (oid : N) (b : body)
  : Model.db -> response * Model.db :=
  try_catch
    (guard (negb (bool_decide (role req_user = Some "admin")))
           (failure 403 "Access denied. Admin only.") ;;
     let name := b !! "name" in
     let email := b !! "email" in
     let password := b !! "password" in
     let role := b !! "role" in
     let department := b !! "department" in
     let position := b !! "position" in
     guard (negb (truthy_opt name) || negb (truthy_opt email)
            || negb (truthy_opt password) || negb (truthy_opt role))
           (failure 400 "All fields are required") ;;
     guard (negb (validateEmail (default "" email)))
           (failure 400 "Invalid email format") ;;
     guard (negb (validatePassword (default "" password)))
           (failure 400 "Password must be at least 6 characters long") ;;
     existingUser <- await (Model.findOne (default "" email) false) ;;
     guard (bool_decide (is_Some existingUser))
           (failure 409 "User already exists with this email") ;;
     let user := User.new_User oid
                   {| User.f_name := name;
                      User.f_email := email;
                      User.f_password := password;
                      User.f_role := role;
                      User.f_department := department;
                      User.f_position := position |} in
     user <- await (Model.save now rnd user) ;;
     respond {| status := 201; success := true;
                message := "User created successfully";
                token := None;
                user := Some (User.toObject user);
                errors := [] |})
    (creation_failed "Server error while creating user").

(** [router.post('/change-password')], after the middleware. *)
Definition change_password (req_user : payload) (b : body)
  : Model.db -> response * Model.db :=
  try_catch
    (let currentPassword := b !! "currentPassword" in
     let newPassword := b !! "newPassword" in
     guard (negb (truthy_opt currentPassword) || negb (truthy_opt newPassword))
           (failure 400 "Current password and new password are required") ;;
     let currentPassword := default "" currentPassword in
     let newPassword := default "" newPassword in
     guard (negb (validatePassword newPassword))
           (failure 400 "New password must be at least 6 characters long") ;;
     found <- await (Model.findById (id req_user) true) ;;
     match found with
     | None => respond (failure 404 "User not found")
     | Some user =>
         isMatch <- lift (User.comparePassword user currentPassword) ;;
         guard (negb isMatch) (failure 401 "Current password is incorrect") ;;
         await (Model.save now rnd (User.set_password newPassword user)) ;;
         respond {| status := 200; success := true;
                    message := "Password updated successfully";
                    token := None; user := None; errors := [] |}
     end)
    (fun _ => failure 500 "Server error while changing password").

(** *** The bearer-token middleware *)

(** Modelled from the spec: middlewares/authMiddleware.js is not among
    the sources. The [Authorization] header, when present, holds a token
    or something that is none. *)
Inductive credentials : Type :=
| Bearer (t : jwt)
| Malformed (raw : string).

(** Modelled from the spec: the token verification of the missing
    middleware. A token is valid when it was signed with the secret of the
    server and has not expired; nothing is looked up in the collection. *)
Definition verify (t : jwt) : bool :=
  String.eqb (signed_with t) (secret e) && (now <? exp t).

(** Modelled from the spec: middlewares/authMiddleware.js is not among
    the sources. A request with a valid token reaches the handler with
    the identity the token encodes; any failure answers 401 and the
    handler is not invoked. *)
Definition authMiddleware (authorization : option credentials)
  (next : payload -> Model.db -> response * Model.db)
  : Model.db -> response * Model.db :=
  fun w =>
    match authorization with
    | None => (failure 401 "No token provided", w)
    | Some (Malformed _) => (failure 401 "Invalid token", w)
    | Some (Bearer t) =>
        if verify t then next (claims t) w
        else (failure 401 "Invalid token", w)
    end.

(** [POST /auth/admin/create-user] and [POST /auth/change-password] as
    mounted: middleware, then handler. *)
Definition post_admin_create_user (authorization : option credentials)
  (oid : N) (b : body) : Model.db -> response * Model.db :=
  authMiddleware authorization (fun req_user => create_user req_user oid b).

Definition post_change_password (authorization : option credentials)
  (b : body) : Model.db -> response * Model.db :=
  authMiddleware authorization (fun req_user => change_password req_user b).

End Routes.

End Auth.

(** ** The client (context/AuthContext.jsx, App.jsx, pages/Register.jsx) *)

Module Client.

Import JS.

(** What [login] and [register] keep of a user. *)
Record userData : Type := { email : string; uid : string }.

(** An entry of [simulatedUsers]. *)
Record simulatedUser : Type := {
  sim_password : string;
  sim_role : string;
  sim_id : string;
  sim_email : string
}.

(** The text kept under the key [currentUser], by what [JSON.parse] makes
    of it: a text that does not parse, or the text [JSON.stringify] gives
    for a [userData]. *)
Inductive item : Type :=
| Text (s : string)
| Json (u : userData).

Definition item_truthy (i : option item) : bool :=
  match i with
  | Some (Text s) => truthy s
  | Some (Json _) => true
  | None => false
  end.

(** The three keys of [localStorage] the provider reads and writes;
    [None] is what [getItem] gives for a key that is not set. *)
Module Storage.
Record t : Type := {
  currentUser : option item;
  userRole : option string;
  userId : option string
}.
Definition empty : t :=
  {| currentUser := None; userRole := None; userId := None |}.
End Storage.

(** The state of the provider and the storage of the browser. *)
Record client : Type := {
  currentUser : option userData;
  userRole : string;
  userId : option string;
  loading : bool;
  localStorage : Storage.t
}.

(** The state a provider is mounted with. *)
Definition mount (storage : Storage.t) : client :=
  {| currentUser := None; userRole := "guest"; userId := None;
     loading := true; localStorage := storage |}.

(** The object literal every render of the provider builds anew. *)
Definition simulatedUsers : gmap string simulatedUser :=
  {[ "admin@example.com" :=
       {| sim_password := "password"; sim_role := "admin";
          sim_id := "admin-123"; sim_email := "admin@example.com" |};
     "user@example.com" :=
       {| sim_password := "password"; sim_role := "user";
          sim_id := "user-456"; sim_email := "user@example.com" |} ]}.

Definition clearAuthStorage (c : client) : client :=
  {| currentUser := None; userRole := "guest"; userId := None;
     loading := loading c;
     localStorage := Storage.empty |}.

Definition setLoading (b : bool) (c : client) : client :=
  {| currentUser := currentUser c; userRole := userRole c; userId := userId c;
     loading := b; localStorage := localStorage c |}.

(** [checkAuthStatus] of the mount effect, over the object [users] of the
    render it closes over. *)
Definition checkAuthStatus (users : gmap string simulatedUser) (c : client)
  : client :=
  let storedUser := Storage.currentUser (localStorage c) in
  let storedRole := Storage.userRole (localStorage c) in
  let storedUserId := Storage.userId (localStorage c) in
  setLoading false
    (if item_truthy storedUser && truthy_opt storedRole
        && truthy_opt storedUserId
     then
       match storedUser with
       | Some (Json parsedUser) =>
           if has_truthy users (email parsedUser)
           then {| currentUser := Some parsedUser;
                   userRole := default "" storedRole;
                   userId := storedUserId;
                   loading := loading c;
                   localStorage := localStorage c |}
           else clearAuthStorage c
       | _ => clearAuthStorage c
       end
     else c).

(** The provider on start-up: the effect runs once, over the literal. *)
Definition startup (storage : Storage.t) : client :=
  checkAuthStatus simulatedUsers (mount storage).

Definition validateEmail (e : string) : bool := test User.emailRegex e.

Definition validatePassword (p : string) : bool :=
  truthy p && (6 <=? strlen p).

(** What a settled promise of [login] or [register] carries: the code of
    the rejection, or the user. *)
Definition settled : Type := string + userData.

Definition signed_in (u : userData) (r : string) (i : string) (c : client)
  : client :=
  {| currentUser := Some u; userRole := r; userId := Some i;
     loading := loading c;
     localStorage := {| Storage.currentUser := Some (Json u);
                        Storage.userRole := Some r;
                        Storage.userId := Some i |} |}.

(** [register(email, password, role = 'user')]; [stamp] is the text of
    [Date.now()]. The object of the render is returned as the call leaves
    it. *)
Definition register (users : gmap string simulatedUser) (stamp : string)
  (e p : string) (r : option string) (c : client)
  : settled * gmap string simulatedUser * client :=
  let r := default "user" r in
  if negb (validateEmail e) then (inl "auth/invalid-email", users, c)
  else if negb (validatePassword p) then (inl "auth/weak-password", users, c)
  else if has_truthy users e then (inl "auth/email-already-in-use", users, c)
  else
    let newUserId := "user-" ++ stamp in
    let newUser := {| sim_email := e; sim_password := p; sim_role := r;
                      sim_id := newUserId |} in
    let userData := {| email := e; uid := newUserId |} in
    (inr userData, <[e := newUser]> users, signed_in userData r newUserId c).

(** [login(email, password)]. An inherited property is truthy but has no
    [password]. *)
Definition login (users : gmap string simulatedUser) (e p : string)
  (c : client) : settled * client :=
  if negb (validateEmail e) then (inl "auth/invalid-email", c)
  else if negb (validatePassword p) then (inl "auth/invalid-credential", c)
  else
    match get users e with
    | Own user =>
        if String.eqb (sim_password user) p
        then let userData := {| email := e; uid := sim_id user |} in
             (inr userData, signed_in userData (sim_role user) (sim_id user) c)
        else (inl "auth/invalid-credential", c)
    | _ => (inl "auth/invalid-credential", c)
    end.

Definition logout (c : client) : client := clearAuthStorage c.

Definition isAuthenticated (c : client) : bool :=
  bool_decide (is_Some (currentUser c)) && bool_decide (is_Some (userId c)).

Definition hasRole (c : client) (requiredRole : string) : bool :=
  String.eqb (userRole c) requiredRole.

(** *** The route guard of App.jsx *)

Inductive element (C : Type) : Type :=
| LoadingSpinner
| Navigate (to : string) (from : string)
| AccessDenied (allowedRoles : list string)
| Children (children : C).
Arguments LoadingSpinner {C}.
Arguments Navigate {C} to from.
Arguments AccessDenied {C} allowedRoles.
Arguments Children {C} children.

(** [allowedRoles.includes(r)] *)
Definition includes (r : string) (allowedRoles : list string) : bool :=
  existsb (String.eqb r) allowedRoles.

(** [ProtectedRoute]; [location] is what [useLocation()] gives and
    [allowedRoles] defaults to the empty array. *)
Definition ProtectedRoute {C} (c : client) (location : string)
  (allowedRoles : list string) (children : C) : element C :=
  if loading c then LoadingSpinner
  else
    match currentUser c with
    | None => Navigate "/login" location
    | Some _ =>
        if (0 <? Z.of_nat (length allowedRoles))
           && negb (includes (userRole c) allowedRoles)
        then AccessDenied allowedRoles
        else Children children
    end.

(** *** The registration page *)


End Client.

(** ** An instance of the hashing interface

    The theorems below hold for every implementation of [User.Bcrypt].
    To run the routes on concrete requests one instance is fixed here: the
    hash is the text of the 72 bytes the library reads, under its prefix.
    It meets [User.BcryptSound] and [User.BcryptTruncates], and nothing
    else is claimed of it. *)

Module Stub.

Definition bcrypt : User.Bcrypt :=
  {| User.hash := fun p _ => "$2b$12$" ++ User.key72 p;
     User.compare := fun q h => String.eqb h ("$2b$12$" ++ User.key72 q) |}.

Definition env : Auth.env :=
  {| Auth.JWT_SECRET := None; Auth.JWT_EXPIRES_IN := None |}.

Definition empty_db : Model.db :=
  {| Model.users := []; Model.connected := true |}.

(** [register("Alice", "a@x.com", "secret1")] on an empty collection. *)
Definition alice_body : Auth.body :=
  {[ "name" := "Alice"; "email" := "a@x.com"; "password" := "secret1" ]}.

Definition alice_db : Model.db :=
  snd (Auth.register (H := bcrypt) env 1000 "salt" 1%N alice_body empty_db).

(** A token of Alice, as her registration at time 1000 issues it, and a
    token of the same server for an account that is not stored. *)
Definition alice_token : Auth.jwt :=
  Auth.signed {| Auth.id := 1%N; Auth.role := Some "user";
               Auth.email := Some "a@x.com" |} "your-secret-key" 86400 1000.

Definition stale_token : Auth.jwt :=
  Auth.signed {| Auth.id := 99%N; Auth.role := Some "user";
               Auth.email := Some "gone@x.com" |} "your-secret-key" 86400 1000.

(** Alice's document as [new User(...)] builds it, before it is saved. *)
Definition alice_new : User.document :=
  User.new_User 1%N
    {| User.f_name := Some "Alice"; User.f_email := Some "a@x.com";
       User.f_password := Some "secret1"; User.f_role := Some "user";
       User.f_department := None; User.f_position := None |}.

(** The document that registration stores for Alice. *)
Definition alice : User.user :=
  {| User._id := 1; User.name := Some "Alice"; User.email := Some "a@x.com";
     User.password := Some (User.hash (Bcrypt := bcrypt) "secret1" (User.genSalt 12 "salt"));
     User.role := Some "user"; User.department := None; User.position := None;
     User.phoneNumber := None; User.isActive := true; User.lastLogin := None;
     User.emailVerified := false; User.profilePicture := None;
     User.timezone := "UTC"; User.language := "fr";
     User.createdAt := Some 1000; User.updatedAt := Some 1000 |}.





(** A signed-in user of role [r], once the session check is over. *)
Definition signed_in_as (r : string) : Client.client :=
  {| Client.currentUser := Some {| Client.email := "s@x.com"; Client.uid := "u2" |};
     Client.userRole := r; Client.userId := Some "u2";
     Client.loading := false; Client.localStorage := Client.Storage.empty |}.

End Stub.

(** ** The role order as the specification words it

    "The fixed order {user=1, support=2, manager=3, admin=4}": the roles
    as an enumeration and their ranks, to compare with what the code
    computes on role names. *)

Module Spec.

Inductive Role : Type := user | support | manager | admin.

Definition rank (r : Role) : Z :=
  match r with
  | user => 1
  | support => 2
  | manager => 3
  | admin => 4
  end.

Definition role_name (r : Role) : string :=
  match r with
  | user => "user"
  | support => "support"
  | manager => "manager"
  | admin => "admin"
  end.

(** A document of the collection whose role is [r]. *)
Definition with_role (r : Role) (d : User.document) : Prop :=
  User.role (User.data d) = Some (role_name r).

End Spec.

(** ** Requests with a password that does not verify *)

Module Scenario.

Section Mismatch.

Context `{User.Bcrypt}.


(** The account of the caller is stored as [u], and the current password
    the request gives does not verify against its hash. *)
Definition current_password_mismatch (req_user : Auth.payload) (b : Auth.body)
  (w : Model.db) : Prop :=
  exists u h cur,
    List.find (Model.has_id (Auth.id req_user)) (Model.users w) = Some u
    /\ User.password u = Some h
    /\ b !! "currentPassword" = Some cur
    /\ User.compare cur h = false.

End Mismatch.

End Scenario.

(** ** Running a handler *)

(** Unfolds the plumbing of a handler and follows every branch. *)
Ltac unfold_handler :=
  unfold Auth.try_catch, Auth.bind, Auth.guard, Auth.respond, Auth.ret,
    Auth.await, Auth.lift, Auth.creation_failed, Auth.failure in *.

Ltac follow_branches :=
  repeat (case_match; simplify_eq/=; try done).

(** ** The language of a regular expression

    What [JS.test] is meant to decide: the strings a pattern denotes. *)

Module Lang.

Inductive matches : JS.regex -> string -> Prop :=
| MEps : matches JS.Eps ""
| MClass (p : ascii -> bool) (c : ascii) :
    p c = true -> matches (JS.Class p) (String c "")
| MSeq (r1 r2 : JS.regex) (s1 s2 : string) :
    matches r1 s1 -> matches r2 s2 -> matches (JS.Seq r1 r2) (s1 ++ s2)
| MAltL (r1 r2 : JS.regex) (s : string) :
    matches r1 s -> matches (JS.Alt r1 r2) s
| MAltR (r1 r2 : JS.regex) (s : string) :
    matches r2 s -> matches (JS.Alt r1 r2) s
| MStarNil (r : JS.regex) : matches (JS.Star r) ""
| MStarApp (r : JS.regex) (s1 s2 : string) :
    matches r s1 -> matches (JS.Star r) s2 -> matches (JS.Star r) (s1 ++ s2).

(** The characters of [[^\s@]]. *)
Definition atom (c : ascii) : bool := negb (JS.is_space c || Ascii.eqb c "@").

Fixpoint all (p : ascii -> bool) (s : string) : bool :=
  match s with
  | EmptyString => true
  | String c s' => p c && all p s'
  end.

(** A non-empty run of [[^\s@]]. *)
Definition atoms (s : string) : Prop := s <> "" /\ all atom s = true.

Definition digits (s : string) : Prop := all JS.is_digit s = true.

End Lang.

(** ** What the collection is expected to satisfy *)

Module Store.

Section Hashed.

Context `{User.Bcrypt}.

(** The stored password is the cost-12 hash of a password of at least 6
    characters. *)
Definition hashed (u : User.user) : Prop :=
  exists p rnd,
    6 <= JS.strlen p
    /\ User.password u = Some (User.hash p (User.genSalt 12 rnd)).

Definition all_hashed (w : Model.db) : Prop := Forall hashed (Model.users w).

End Hashed.

(** No two documents share an identifier or an e-mail address. *)
Definition unique (w : Model.db) : Prop :=
  NoDup (User._id <$> Model.users w) /\ NoDup (User.email <$> Model.users w).

(** What a change of password at time [now] makes of the stored document,
    [h] being the new hash. *)
Definition rehashed (now : Z) (h : string) (u : User.user) : User.user :=
  User.with_updatedAt (Some now) (User.with_password (Some h) u).

(** What a login at time [now] makes of the stored document. *)
Definition logged_in (now : Z) (u : User.user) : User.user :=
  User.with_updatedAt (Some now) (User.with_lastLogin (Some now) u).


End Store.

(** ** The token-protected read routes (routes/auth.js) *)

Module Session.

Import JS Auth.

Section Routes.

Variable e : env.
Variable now : Z.

(** [router.get('/me')], after the middleware. The body has no [message];
    the user goes through the [toJSON] transform of the schema. *)
Definition me (req_user : payload) : Model.db -> response * Model.db :=
  try_catch
    (found <- await (Model.findById (id req_user) false) ;;
     match found with
     | None => respond (failure 404 "User not found")
     | Some user =>
         respond {| status := 200; success := true; message := "";
                    token := None;
                    user := Some (User.toObject user);
                    errors := [] |}
     end)
    (fun _ => failure 500 "Server error while fetching user data").

(** [router.post('/refresh-token')], after the middleware. *)
Definition refresh_token (req_user : payload) : Model.db -> response * Model.db :=
  try_catch
    (found <- await (Model.findById (id req_user) false) ;;
     match found with
     | None => respond (failure 404 "User not found")
     | Some user =>
         token <- lift (sign_user e now user) ;;
         respond {| status := 200; success := true;
                    message := "Token refreshed successfully";
                    token := Some token;
                    user := None;
                    errors := [] |}
     end)
    (fun _ => failure 500 "Server error while refreshing token").

End Routes.

End Session.

(** ** The pages of the client (App.jsx, pages/Login.jsx, pages/Register.jsx) *)

Module Pages.

Import JS.

(** What [useLocation()] gives: the path, and [state?.from?.pathname]. *)
Record location : Type := {
  pathname : string;
  from : option string
}.

(** Where a [<Navigate to state={{ from }}>] of the guard leads. *)
Definition follow (to requested : string) : location :=
  {| pathname := to; from := Some requested |}.

Inductive public_element (C : Type) : Type :=
| Spinner
| Redirect (to : string)
| Page (children : C).
Arguments Spinner {C}.
Arguments Redirect {C} to.
Arguments Page {C} children.

(** [PublicRoute]: a signed-in user is sent to the page asked for before,
    or to the dashboard. *)
Definition PublicRoute {C} (c : Client.client) (loc : location) (children : C)
  : public_element C :=
  if Client.loading c then Spinner
  else
    match Client.currentUser c with
    | Some _ => Redirect (or_else (from loc) "/")
    | None => Page children
    end.

(** The target of the button of [NotFound]. *)
Definition NotFound_target (c : Client.client) : string :=
  match Client.currentUser c with
  | Some _ => "/"
  | None => "/login"
  end.

(** The pages behind the routes of [AppContent]. *)
Inductive page : Type :=
| Login
| Register
| Dashboard
| UserManagement
| MaterialManagement
| CategoryManagement
| RoleManagement
| NotFound.

(** The protected routes, in order: path, allowed roles, page. *)
Definition protectedRoutes : list (string * (list string * page)) :=
  [("/", (["user"; "admin"; "manager"; "support"], Dashboard));
   ("/users", (["admin"], UserManagement));
   ("/materials", (["user"; "admin"; "manager"; "support"], MaterialManagement));
   ("/categories", (["user"; "admin"; "manager"; "support"], CategoryManagement));
   ("/roles", (["admin"], RoleManagement))].

(** The first route whose path is the one asked for. A path is compared as
    the table writes it: the matcher of react-router also takes a path in
    another case or with a slash at its end for the same route, and such
    paths are left to [NotFound] here. *)
Fixpoint route (table : list (string * (list string * page))) (path : string)
  : option (list string * page) :=
  match table with
  | [] => None
  | (p, r) :: table' => if String.eqb p path then Some r else route table' path
  end.

(** What [AppContent] shows at a location. *)
Inductive screen : Type :=
| Loading
| Show (p : page)
| GoTo (loc : location)
| Denied (allowedRoles : list string).

Definition of_public (x : public_element page) : screen :=
  match x with
  | Spinner => Loading
  | Redirect to => GoTo {| pathname := to; from := None |}
  | Page p => Show p
  end.

Definition of_protected (x : Client.element page) : screen :=
  match x with
  | Client.LoadingSpinner => Loading
  | Client.Navigate to requested => GoTo (follow to requested)
  | Client.AccessDenied allowedRoles => Denied allowedRoles
  | Client.Children p => Show p
  end.

(** [AppContent]: the spinner while the session is checked, then the first
    route that matches the path. *)
Definition AppContent (c : Client.client) (loc : location) : screen :=
  if Client.loading c then Loading
  else if String.eqb (pathname loc) "/login" then of_public (PublicRoute c loc Login)
  else if String.eqb (pathname loc) "/register" then of_public (PublicRoute c loc Register)
  else
    match route protectedRoutes (pathname loc) with
    | Some (allowedRoles, p) =>
        of_protected (Client.ProtectedRoute c (pathname loc) allowedRoles p)
    | None => Show NotFound
    end.

(** The messages a form shows, by what they say. *)
Inductive notice : Type :=
| FillAllFields        (* Veuillez remplir tous les champs. *)
| NameTooShort         (* Le nom doit contenir au moins 2 caracteres. *)
| InvalidEmailFormat   (* Format d'e-mail invalide. *)
| PasswordTooShort     (* Le mot de passe doit contenir au moins 6 caracteres. *)
| PasswordsDiffer      (* Les mots de passe ne correspondent pas. *)
| EmailAlreadyUsed     (* Cet e-mail est deja utilise. *)
| InvalidCredential    (* E-mail ou mot de passe invalide. *)
| NoSuchAccount        (* Aucun compte trouve avec cet e-mail. *)
| TooManyRequests      (* Trop de tentatives de connexion. ... *)
| NetworkFailed        (* Erreur de reseau. ... *)
| Unexpected.          (* err.message, or the generic failure message *)

(** The outcome of a submission: a message under the form, or a
    navigation. *)
Inductive submitted : Type :=
| Shown (error : notice)
| Went (loc : location).

Module RegisterPage.

Record form : Type := {
  name : string;
  email : string;
  password : string;
  confirmPassword : string;
  role : string
}.

(** The [switch (err.code)] of the page. *)
Definition notice_of (code : string) : notice :=
  if String.eqb code "auth/email-already-in-use" then EmailAlreadyUsed
  else if String.eqb code "auth/invalid-email" then InvalidEmailFormat
  else if String.eqb code "auth/weak-password" then PasswordTooShort
  else Unexpected.

(** [handleSubmit] over the object [users] of the render; a successful
    registration navigates to [/login]. *)
Definition handleSubmit (users : gmap string Client.simulatedUser)
  (stamp : string) (f : form) (c : Client.client) : submitted * Client.client :=
  if negb (truthy (name f)) || negb (truthy (email f))
     || negb (truthy (password f)) || negb (truthy (confirmPassword f))
  then (Shown FillAllFields, c)
  else if strlen (name f) <? 2 then (Shown NameTooShort, c)
  else if negb (test User.emailRegex (email f)) then (Shown InvalidEmailFormat, c)
  else if strlen (password f) <? 6 then (Shown PasswordTooShort, c)
  else if negb (String.eqb (password f) (confirmPassword f))
  then (Shown PasswordsDiffer, c)
  else
    match Client.register users stamp (email f) (password f) (Some (role f)) c with
    | (inr _, _, c') => (Went {| pathname := "/login"; from := None |}, c')
    | (inl code, _, c') => (Shown (notice_of code), c')
    end.

(** [fillDemoData(userType)]; [stamp] is the text of [Date.now()]. *)
Definition fillDemoData (userType : string) (stamp : string) : form :=
  let admin := String.eqb userType "admin" in
  {| name := if admin then "Administrateur Demo" else "Utilisateur Demo";
     email := if admin then "admin-demo-" ++ stamp ++ "@example.com"
              else "user-demo-" ++ stamp ++ "@example.com";
     password := "password";
     confirmPassword := "password";
     role := userType |}.

End RegisterPage.

Module LoginPage.

Record form : Type := {
  email : string;
  password : string
}.

(** The [switch (err.code)] of the page. *)
Definition notice_of (code : string) : notice :=
  if String.eqb code "auth/invalid-credential" then InvalidCredential
  else if String.eqb code "auth/invalid-email" then InvalidEmailFormat
  else if String.eqb code "auth/user-not-found" then NoSuchAccount
  else if String.eqb code "auth/too-many-requests" then TooManyRequests
  else if String.eqb code "auth/network-request-failed" then NetworkFailed
  else Unexpected.

(** [handleSubmit] at location [loc]; a successful login navigates to the
    page asked for before, or to the dashboard. *)
Definition handleSubmit (users : gmap string Client.simulatedUser)
  (loc : location) (f : form) (c : Client.client) : submitted * Client.client :=
  if negb (truthy (email f)) || negb (truthy (password f))
  then (Shown FillAllFields, c)
  else if negb (test User.emailRegex (email f)) then (Shown InvalidEmailFormat, c)
  else if strlen (password f) <? 6 then (Shown PasswordTooShort, c)
  else
    match Client.login users (email f) (password f) c with
    | (inr _, c') => (Went {| pathname := or_else (from loc) "/"; from := None |}, c')
    | (inl code, c') => (Shown (notice_of code), c')
    end.

(** [fillDemoCredentials(role)] *)
Definition fillDemoCredentials (role : string) : form :=
  if String.eqb role "admin"
  then {| email := "admin@example.com"; password := "password" |}
  else {| email := "user@example.com"; password := "password" |}.

End LoginPage.

End Pages.

(** * Properties *)

(** ** The route guard *)

Lemma includes_In (r : string) (l : list string) :
  Client.includes r l = true <-> In r l.
Proof.
  unfold Client.includes. rewrite existsb_exists. split.
  - intros (x & Hx & Heq). apply String.eqb_eq in Heq. now subst.
  - intros Hin. exists r. split; [assumption | apply String.eqb_refl].
Qed.

Lemma includes_not_In (r : string) (l : list string) :
  Client.includes r l = false <-> ~ In r l.
Proof.
  rewrite <- includes_In. destruct (Client.includes r l); split; congruence.
Qed.

(** What the guard renders once the session check is over and a user is
    signed in. *)
Lemma ProtectedRoute_signed_in {C} (c : Client.client) (location : string)
  (allowedRoles : list string) (children : C) :
  Client.loading c = false ->
  is_Some (Client.currentUser c) ->
  Client.ProtectedRoute c location allowedRoles children =
    if bool_decide (allowedRoles = []) || Client.includes (Client.userRole c) allowedRoles
    then Client.Children children
    else Client.AccessDenied allowedRoles.
Proof.
  intros Hload [u Hu]. unfold Client.ProtectedRoute. rewrite Hload, Hu.
  destruct allowedRoles as [|a l]; [reflexivity|].
  replace (0 <? Z.of_nat (length (a :: l))) with true
    by (symmetry; apply Z.ltb_lt; cbn [length]; lia).
  rewrite bool_decide_eq_false_2 by discriminate.
  destruct (Client.includes (Client.userRole c) (a :: l)); reflexivity.
Qed.

(** C8. The route guard renders the loading indicator while the session
    check is running; with no signed-in user it redirects to [/login] and
    keeps the requested location; with a signed-in user whose role is not
    in a non-empty list of allowed roles it renders the access-denied
    view; in every other case it renders the protected content. *)
Theorem ProtectedRoute_cases {C} (c : Client.client) (location : string)
  (allowedRoles : list string) (children : C) :
  (Client.loading c = true ->
     Client.ProtectedRoute c location allowedRoles children = Client.LoadingSpinner)
  /\ (Client.loading c = false -> Client.currentUser c = None ->
        Client.ProtectedRoute c location allowedRoles children
        = Client.Navigate "/login" location)
  /\ (Client.loading c = false -> is_Some (Client.currentUser c) ->
        allowedRoles <> [] -> ~ In (Client.userRole c) allowedRoles ->
        Client.ProtectedRoute c location allowedRoles children
        = Client.AccessDenied allowedRoles)
  /\ (Client.loading c = false -> is_Some (Client.currentUser c) ->
        allowedRoles = [] \/ In (Client.userRole c) allowedRoles ->
        Client.ProtectedRoute c location allowedRoles children
        = Client.Children children).
Proof.
  repeat split.
  - intros Hload. unfold Client.ProtectedRoute. now rewrite Hload.
  - intros Hload Hnone. unfold Client.ProtectedRoute. now rewrite Hload, Hnone.
  - intros Hload Huser Hne Hnot.
    rewrite ProtectedRoute_signed_in by assumption.
    rewrite bool_decide_eq_false_2 by assumption.
    apply includes_not_In in Hnot. now rewrite Hnot.
  - intros Hload Huser Hok.
    rewrite ProtectedRoute_signed_in by assumption.
    destruct Hok as [-> | Hin]; [reflexivity|].
    apply includes_In in Hin. rewrite Hin. now rewrite orb_true_r.
Qed.

(** A signed-in manager asks for the page of the administrators. *)
Lemma ProtectedRoute_cases_witness :
  Client.ProtectedRoute
    {| Client.currentUser := Some {| Client.email := "m@x.com"; Client.uid := "u1" |};
       Client.userRole := "manager"; Client.userId := Some "u1";
       Client.loading := false; Client.localStorage := Client.Storage.empty |}
    "/users" ["admin"] tt
  = Client.AccessDenied ["admin"].
Proof.
  apply (proj1 (proj2 (proj2 (ProtectedRoute_cases _ "/users" ["admin"] tt)))).
  - reflexivity.
  - simpl. eauto.
  - discriminate.
  - simpl. intros [Heq | []]. discriminate.
Defined.

(** ** The administrator gate *)

Section AdminGate.

Context `{User.Bcrypt}.

(** The handler answers 403 exactly when the role of the caller is not
    [admin], and then nothing else happens. *)
Lemma create_user_not_admin now rnd (req_user : Auth.payload) oid b w :
  Auth.role req_user <> Some "admin" ->
  Auth.create_user now rnd req_user oid b w
  = (Auth.failure 403 "Access denied. Admin only.", w).
Proof.
  intros Hrole. unfold Auth.create_user. unfold_handler.
  now rewrite bool_decide_eq_false_2.
Qed.

Lemma create_user_admin now rnd (req_user : Auth.payload) oid b w :
  Auth.role req_user = Some "admin" ->
  Auth.status (fst (Auth.create_user now rnd req_user oid b w)) <> 403.
Proof.
  intros Hrole. unfold Auth.create_user. unfold_handler.
  rewrite bool_decide_eq_true_2 by assumption. cbn [negb].
  follow_branches.
Qed.

End AdminGate.

(** C7. A request to [POST /auth/admin/create-user] that carries a valid
    token whose role is not [admin] is answered 403 whatever its body, and
    the collection is left as it was: the role is checked before the body
    is read. *)
Theorem create_user_forbidden_for_non_admin `{User.Bcrypt}
  (e : Auth.env) (now : Z) (rnd : string) (t : Auth.jwt) (oid : N)
  (b : Auth.body) (w : Model.db) :
  Auth.verify e now t = true ->
  Auth.role (Auth.claims t) <> Some "admin" ->
  Auth.status
    (fst (Auth.post_admin_create_user e now rnd (Some (Auth.Bearer t)) oid b w)) = 403
  /\ snd (Auth.post_admin_create_user e now rnd (Some (Auth.Bearer t)) oid b w) = w.
Proof.
  intros Hvalid Hrole.
  unfold Auth.post_admin_create_user, Auth.authMiddleware.
  rewrite Hvalid, create_user_not_admin by assumption. now split.
Qed.

(** A manager sends an empty body. *)
Lemma create_user_forbidden_for_non_admin_witness :
  Auth.status
    (fst (Auth.post_admin_create_user (H := Stub.bcrypt) Stub.env 50 "salt"
            (Some (Auth.Bearer
                     (Auth.signed {| Auth.id := 1%N; Auth.role := Some "manager";
                                   Auth.email := Some "a@x.com" |}
                                "your-secret-key" 86400 0)))
            7%N ∅ Stub.alice_db))
  = 403.
Proof.
  apply (create_user_forbidden_for_non_admin (H := Stub.bcrypt)).
  - reflexivity.
  - discriminate.
Defined.

(** ** Authorization by rank and by membership *)

Lemma lookup_rank_role (r : Spec.Role) :
  User.lookup_rank User.roleHierarchy (Spec.role_name r) = Some (Spec.rank r).
Proof. now destruct r. Qed.

Lemma hasRole_rank (a b : Spec.Role) (d : User.document) :
  Spec.with_role a d ->
  User.hasRole d (Spec.role_name b) = true <-> Spec.rank b <= Spec.rank a.
Proof.
  unfold Spec.with_role, User.hasRole, User.roleHierarchy_at. intros ->.
  rewrite !lookup_rank_role. apply Z.leb_le.
Qed.

Lemma role_name_admin (a : Spec.Role) :
  Spec.role_name a = "admin" <-> Spec.rank Spec.admin <= Spec.rank a.
Proof. destruct a; cbn; split; (discriminate || lia || reflexivity). Qed.

(** C2, at an explicit input: the guard of a page with an empty list of
    allowed roles lets a signed-in user through, although the role is not
    a member of the list. *)
Lemma empty_allowed_roles_grant_access :
  Client.ProtectedRoute (Stub.signed_in_as "user") "/" [] tt = Client.Children tt
  /\ ~ In "user" ([] : list string).
Proof. split; [reflexivity | intros []]. Qed.

(** C2, as amended. [hasRole] grants exactly when the rank of the caller
    is at least the required rank under user=1, support=2, manager=3,
    admin=4, and the administrator gate of the server agrees with rank 4;
    the guard of a page grants exactly when its list of allowed roles is
    empty or holds the role of the caller. A support user is refused when
    rank 3 is required and let into a page that allows user and support. *)
Theorem authorize_by_rank_or_membership :
  (forall (a b : Spec.Role) (d : User.document),
      Spec.with_role a d ->
      User.hasRole d (Spec.role_name b) = true <-> Spec.rank b <= Spec.rank a)
  /\ (forall (B : User.Bcrypt) now rnd (a : Spec.Role) (req_user : Auth.payload) oid b w,
        Auth.role req_user = Some (Spec.role_name a) ->
        Auth.status (fst (Auth.create_user now rnd req_user oid b w)) <> 403
        <-> Spec.rank Spec.admin <= Spec.rank a)
  /\ (forall (c : Client.client) (location : string) (allowedRoles : list string),
        Client.loading c = false -> is_Some (Client.currentUser c) ->
        Client.ProtectedRoute c location allowedRoles tt = Client.Children tt
        <-> allowedRoles = [] \/ In (Client.userRole c) allowedRoles)
  /\ (forall d : User.document,
        Spec.with_role Spec.support d -> User.hasRole d "manager" = false)
  /\ Client.ProtectedRoute (Stub.signed_in_as "support") "/" ["user"; "support"] tt
     = Client.Children tt.
Proof.
  split; [exact hasRole_rank|]. split; [|split; [|split]].
  - intros B now rnd a req_user oid b w Hrole. rewrite <- role_name_admin. split.
    + intros Hstatus. destruct (decide (Auth.role req_user = Some "admin")) as [Heq|Hne].
      * congruence.
      * rewrite create_user_not_admin in Hstatus by assumption. now elim Hstatus.
    + intros Hname. apply create_user_admin. now rewrite Hrole, Hname.
  - intros c location allowedRoles Hload Huser.
    rewrite ProtectedRoute_signed_in by assumption.
    destruct allowedRoles as [|r l].
    + cbn. split; [now left | reflexivity].
    + rewrite bool_decide_eq_false_2 by discriminate. cbn [orb].
      rewrite <- includes_In.
      destruct (Client.includes (Client.userRole c) (r :: l)); split;
        try discriminate; try tauto.
      intros [Hnil | Hfalse]; discriminate.
  - intros d Hd. unfold Spec.with_role in Hd. unfold User.hasRole. now rewrite Hd.
  - reflexivity.
Qed.

(** A support user against the rank of a manager. *)
Lemma authorize_by_rank_or_membership_witness :
  User.hasRole
    (User.new_User 3%N
       {| User.f_name := Some "Sam"; User.f_email := Some "s@x.com";
          User.f_password := Some "secret1"; User.f_role := Some "support";
          User.f_department := None; User.f_position := None |})
    "manager" = true
  <-> Spec.rank Spec.manager <= Spec.rank Spec.support.
Proof.
  apply (proj1 authorize_by_rank_or_membership Spec.support Spec.manager).
  unfold Spec.with_role. reflexivity.
Defined.

(** ** Login *)

Lemma validatePassword_length (p : string) :
  Auth.validatePassword p = true <-> 6 <= JS.strlen p.
Proof.
  unfold Auth.validatePassword, JS.strlen. rewrite andb_true_iff, Z.leb_le.
  destruct p as [|c p]; cbn [JS.truthy String.length].
  - split; [intros [? ?]; discriminate | lia].
  - tauto.
Qed.

Lemma validatePassword_short (p : string) :
  Auth.validatePassword p = false <-> JS.strlen p < 6.
Proof.
  pose proof (validatePassword_length p) as Hlen.
  destruct (Auth.validatePassword p); split; intros Hx.
  - discriminate.
  - assert (6 <= JS.strlen p) by now apply Hlen. lia.
  - destruct (Z.lt_ge_cases (JS.strlen p) 6) as [Hlt|Hge]; [assumption|].
    assert (false = true) by (apply Hlen; lia). discriminate.
  - reflexivity.
Qed.

Section Login.

Context `{User.Bcrypt}.
Variables (e : Auth.env) (now : Z) (rnd : string).




End Login.




(** ** Change of password *)

Section ChangePassword.

Context `{User.Bcrypt}.
Variables (now : Z) (rnd : string).

Lemma change_password_statuses (req_user : Auth.payload) (b : Auth.body)
  (w : Model.db) :
  let s := Auth.status (fst (Auth.change_password now rnd req_user b w)) in
  s = 200 \/ s = 400 \/ s = 401 \/ s = 404 \/ s = 500.
Proof.
  unfold Auth.change_password. unfold_handler. follow_branches; tauto.
Qed.

(** Only a request that is answered 200 writes. *)
Lemma change_password_atomic (req_user : Auth.payload) (b : Auth.body)
  (w : Model.db) :
  Auth.status (fst (Auth.change_password now rnd req_user b w)) <> 200 ->
  snd (Auth.change_password now rnd req_user b w) = w.
Proof.
  unfold Auth.change_password, Model.findById, Model.save. unfold_handler.
  follow_branches.
Qed.

Lemma change_password_mismatch (req_user : Auth.payload) (b : Auth.body)
  (w : Model.db) :
  Scenario.current_password_mismatch req_user b w ->
  let r := Auth.change_password now rnd req_user b w in
  snd r = w
  /\ (Auth.status (fst r) = 401 \/ Auth.status (fst r) = 400
      \/ Auth.status (fst r) = 500)
  /\ (Model.connected w = true ->
      JS.truthy_opt (b !! "currentPassword") = true ->
      (exists new, b !! "newPassword" = Some new /\ 6 <= JS.strlen new) ->
      fst r = Auth.failure 401 "Current password is incorrect").
Proof.
  intros (u & h & cur & Hfind & Hh & Hcur & Hcmp).
  unfold Auth.change_password, Model.findById, User.comparePassword, Model.hydrate.
  unfold_handler. rewrite Hcur. split; [|split].
  - follow_branches; rewrite Hfind in *; simplify_eq/=;
      rewrite Hcmp in *; discriminate.
  - follow_branches; try tauto; rewrite Hfind in *; simplify_eq/=;
      rewrite Hcmp in *; discriminate.
  - intros Hup Htcur (new & Hnew & Hlen).
    apply validatePassword_length in Hlen.
    assert (JS.truthy new = true) as Htnew
      by (unfold Auth.validatePassword in Hlen; now apply andb_true_iff in Hlen).
    rewrite Hnew. cbn [JS.truthy_opt from_option id] in *.
    rewrite Htcur, Htnew, Hlen. cbn [negb orb].
    rewrite Hup, Hfind. cbn [fmap option_fmap option_map User.data].
    now rewrite Hh, Hcmp.
Qed.

(** The two input checks come first: they answer 400 whatever is stored,
    whatever the current password is and whether or not the database can
    be reached. *)
Lemma change_password_invalid_input (req_user : Auth.payload) (b : Auth.body)
  (w : Model.db) :
  (JS.truthy_opt (b !! "currentPassword") = false
   \/ JS.truthy_opt (b !! "newPassword") = false ->
   Auth.change_password now rnd req_user b w
   = (Auth.failure 400 "Current password and new password are required", w))
  /\ (forall new,
        JS.truthy_opt (b !! "currentPassword") = true ->
        b !! "newPassword" = Some new -> JS.truthy new = true ->
        JS.strlen new < 6 ->
        Auth.change_password now rnd req_user b w
        = (Auth.failure 400 "New password must be at least 6 characters long", w)).
Proof.
  unfold Auth.change_password. unfold_handler. split.
  - intros [Hcur | Hnew].
    + now rewrite Hcur.
    + rewrite Hnew. now rewrite orb_true_r.
  - intros new Hcur Hnew Htnew Hlen.
    apply validatePassword_short in Hlen.
    rewrite Hcur, Hnew. cbn [JS.truthy_opt from_option id negb orb].
    now rewrite Htnew, Hlen.
Qed.

(** A request that passes the input checks while the database cannot be
    reached is answered 500. *)
Lemma change_password_outage (req_user : Auth.payload) (b : Auth.body)
  (w : Model.db) :
  Model.connected w = false ->
  JS.truthy_opt (b !! "currentPassword") = true ->
  (exists new, b !! "newPassword" = Some new /\ 6 <= JS.strlen new) ->
  Auth.change_password now rnd req_user b w
  = (Auth.failure 500 "Server error while changing password", w).
Proof.
  intros Hdown Hcur (new & Hnew & Hlen).
  apply validatePassword_length in Hlen.
  assert (JS.truthy new = true) as Htnew
    by (unfold Auth.validatePassword in Hlen; now apply andb_true_iff in Hlen).
  unfold Auth.change_password, Model.findById. unfold_handler.
  rewrite Hcur, Hnew. cbn [JS.truthy_opt from_option id negb orb].
  rewrite Htnew, Hlen. cbn [negb orb]. now rewrite Hdown.
Qed.

(** A valid request for an account that is not in the collection. *)
Lemma change_password_unknown_user (req_user : Auth.payload) (b : Auth.body)
  (w : Model.db) (cur new : string) :
  b !! "currentPassword" = Some cur -> JS.truthy cur = true ->
  b !! "newPassword" = Some new -> 6 <= JS.strlen new ->
  Model.connected w = true ->
  List.find (Model.has_id (Auth.id req_user)) (Model.users w) = None ->
  Auth.change_password now rnd req_user b w = (Auth.failure 404 "User not found", w).
Proof.
  intros Hcur Htcur Hnew Hlen Hup Hfind.
  apply validatePassword_length in Hlen.
  assert (JS.truthy new = true) as Htnew
    by (unfold Auth.validatePassword in Hlen; now apply andb_true_iff in Hlen).
  unfold Auth.change_password, Model.findById. unfold_handler.
  rewrite Hcur, Hnew. cbn [JS.truthy_opt from_option id].
  rewrite Htcur, Htnew, Hlen. cbn [negb orb].
  now rewrite Hup, Hfind.
Qed.

End ChangePassword.

(** C5, at an explicit input: Alice's token, a current password that does
    not verify and a new password of three characters; the answer is 400,
    not 401. *)
Lemma change_password_mismatch_short_new_is_400 :
  User.compare (Bcrypt := Stub.bcrypt) "not-secret1" "$2b$12$secret1" = false
  /\ Auth.status
       (fst (Auth.post_change_password (H := Stub.bcrypt) Stub.env 2000 "salt"
               (Some (Auth.Bearer Stub.alice_token))
               {[ "currentPassword" := "not-secret1"; "newPassword" := "abc" ]}
               Stub.alice_db)) = 400.
Proof. split; vm_compute; reflexivity. Qed.

(** C5, as amended. For every change-password request with a valid token
    whose current password does not verify against the stored hash, the
    collection is left as it was, and the answer is settled by the checks
    in the order of the handler: 400 when the current or the new password
    is missing or empty, 400 when the new password is shorter than 6
    characters, both before anything is read or compared; then 500 when
    the database cannot be reached; and 401 in every other case. *)
Theorem change_password_wrong_current `{User.Bcrypt} (e : Auth.env) (now : Z)
  (rnd : string) (t : Auth.jwt) (b : Auth.body) (w : Model.db) :
  Auth.verify e now t = true ->
  Scenario.current_password_mismatch (Auth.claims t) b w ->
  let r := Auth.post_change_password e now rnd (Some (Auth.Bearer t)) b w in
  snd r = w
  /\ (Auth.status (fst r) = 401 \/ Auth.status (fst r) = 400
      \/ Auth.status (fst r) = 500)
  /\ (Model.connected w = true ->
      JS.truthy_opt (b !! "currentPassword") = true ->
      (exists new, b !! "newPassword" = Some new /\ 6 <= JS.strlen new) ->
      fst r = Auth.failure 401 "Current password is incorrect")
  /\ (JS.truthy_opt (b !! "currentPassword") = false
      \/ JS.truthy_opt (b !! "newPassword") = false ->
      fst r = Auth.failure 400 "Current password and new password are required")
  /\ (forall new,
        JS.truthy_opt (b !! "currentPassword") = true ->
        b !! "newPassword" = Some new -> JS.truthy new = true ->
        JS.strlen new < 6 ->
        fst r = Auth.failure 400 "New password must be at least 6 characters long")
  /\ (Model.connected w = false ->
      JS.truthy_opt (b !! "currentPassword") = true ->
      (exists new, b !! "newPassword" = Some new /\ 6 <= JS.strlen new) ->
      fst r = Auth.failure 500 "Server error while changing password").
Proof.
  intros Hvalid Hmismatch.
  unfold Auth.post_change_password, Auth.authMiddleware. rewrite Hvalid.
  destruct (change_password_mismatch now rnd _ _ _ Hmismatch) as (Hw & Hset & H401).
  pose proof (change_password_invalid_input now rnd (Auth.claims t) b w)
    as [Hmissing Hshort].
  cbv zeta. do 3 (split; [assumption|]). split; [|split].
  - intros Hbad. now rewrite Hmissing.
  - intros new Hcur Hnew Htnew Hlen. now rewrite (Hshort new).
  - intros Hdown Hcur Hnew. now rewrite change_password_outage.
Qed.

(** Alice gives a wrong current password and a valid new one. *)
Lemma change_password_wrong_current_witness :
  fst (Auth.post_change_password (H := Stub.bcrypt) Stub.env 2000 "salt"
         (Some (Auth.Bearer Stub.alice_token))
         {[ "currentPassword" := "not-secret1"; "newPassword" := "secret2" ]}
         Stub.alice_db)
  = Auth.failure 401 "Current password is incorrect".
Proof.
  refine (proj1 (proj2 (proj2 (change_password_wrong_current (H := Stub.bcrypt)
                                 Stub.env 2000 "salt" Stub.alice_token _
                                 Stub.alice_db _ _)))
            _ _ _).
  - reflexivity.
  - exists Stub.alice, "$2b$12$secret1", "not-secret1".
    repeat split; vm_compute; reflexivity.
  - reflexivity.
  - reflexivity.
  - exists "secret2". split; [reflexivity | vm_compute; discriminate].
Defined.

(** C6, at explicit inputs: a valid token whose account is not in the
    collection is answered 404, and with the database out of reach the
    answer is 500. *)
Lemma change_password_answers_404_and_500 :
  Auth.verify Stub.env 2000 Stub.stale_token = true
  /\ Auth.status
       (fst (Auth.post_change_password (H := Stub.bcrypt) Stub.env 2000 "salt"
               (Some (Auth.Bearer Stub.stale_token))
               {[ "currentPassword" := "secret1"; "newPassword" := "secret2" ]}
               Stub.alice_db)) = 404
  /\ Auth.status
       (fst (Auth.post_change_password (H := Stub.bcrypt) Stub.env 2000 "salt"
               (Some (Auth.Bearer Stub.alice_token))
               {[ "currentPassword" := "secret1"; "newPassword" := "secret2" ]}
               {| Model.users := Model.users Stub.alice_db;
                  Model.connected := false |})) = 500.
Proof. repeat split; vm_compute; reflexivity. Qed.

(** C6, as amended. A request to [POST /auth/change-password] that
    carries a valid token is answered 200, 400, 401, 404 or 500, and 404
    is the answer to a well-formed request when the account of the token
    is not in the collection. *)
Theorem change_password_status_set `{User.Bcrypt} (e : Auth.env) (now : Z)
  (rnd : string) (t : Auth.jwt) (b : Auth.body) (w : Model.db) :
  Auth.verify e now t = true ->
  let r := Auth.post_change_password e now rnd (Some (Auth.Bearer t)) b w in
  (Auth.status (fst r) = 200 \/ Auth.status (fst r) = 400
   \/ Auth.status (fst r) = 401 \/ Auth.status (fst r) = 404
   \/ Auth.status (fst r) = 500)
  /\ (forall cur new,
        b !! "currentPassword" = Some cur -> JS.truthy cur = true ->
        b !! "newPassword" = Some new -> 6 <= JS.strlen new ->
        Model.connected w = true ->
        List.find (Model.has_id (Auth.id (Auth.claims t))) (Model.users w) = None ->
        r = (Auth.failure 404 "User not found", w)).
Proof.
  intros Hvalid.
  unfold Auth.post_change_password, Auth.authMiddleware. rewrite Hvalid.
  split.
  - apply change_password_statuses.
  - intros cur new. apply change_password_unknown_user.
Qed.

(** The token of an account that is gone. *)
Lemma change_password_status_set_witness :
  Auth.post_change_password (H := Stub.bcrypt) Stub.env 2000 "salt"
    (Some (Auth.Bearer Stub.stale_token))
    {[ "currentPassword" := "secret1"; "newPassword" := "secret2" ]}
    Stub.alice_db
  = (Auth.failure 404 "User not found", Stub.alice_db).
Proof.
  refine (proj2 (change_password_status_set (H := Stub.bcrypt) Stub.env 2000 "salt"
                   Stub.stale_token _ Stub.alice_db _) "secret1" "secret2" _ _ _ _ _ _).
  - reflexivity.
  - reflexivity.
  - reflexivity.
  - reflexivity.
  - vm_compute. discriminate.
  - reflexivity.
  - reflexivity.
Defined.

(** ** Registration *)



Lemma isModified_new_User (oid : N) (o : User.fields) (p : string) :
  User.f_password o = Some p ->
  User.isModified "password" (User.new_User oid o) = true.
Proof.
  intros Hp. unfold User.isModified, User.new_User. cbn [User.modifiedPaths].
  rewrite Hp.
  destruct (User.f_name o), (User.f_email o), (User.f_role o),
    (User.f_department o), (User.f_position o); reflexivity.
Qed.

(** The hook of the timestamps touches no path but its own two. *)
Lemma isModified_markModified (path other : string) (d : User.document) :
  path <> other ->
  existsb (String.eqb path) (User.markModified other d) = User.isModified path d.
Proof.
  intros Hne. unfold User.markModified, User.isModified.
  destruct (existsb (String.eqb other) (User.modifiedPaths d)); [reflexivity|].
  rewrite existsb_app. cbn [existsb].
  rewrite (proj2 (String.eqb_neq path other) Hne). now rewrite !orb_false_r.
Qed.

Lemma timestamps_isModified (now : Z) (path : string) (d : User.document) :
  path <> "createdAt" -> path <> "updatedAt" ->
  User.isModified path (User.timestamps now d) = User.isModified path d.
Proof.
  intros Hc Hu. unfold User.timestamps.
  destruct (User.isNew d).
  - unfold User.isModified at 1. cbn [User.modifiedPaths].
    rewrite isModified_markModified by assumption.
    unfold User.isModified at 1. cbn [User.modifiedPaths].
    now rewrite isModified_markModified.
  - destruct (User.modifiedPaths d) eqn:Hpaths; [reflexivity|].
    unfold User.isModified at 1. cbn [User.modifiedPaths].
    now rewrite isModified_markModified.
Qed.

Lemma timestamps_isNew (now : Z) (d : User.document) :
  User.isNew (User.timestamps now d) = User.isNew d.
Proof.
  unfold User.timestamps. destruct (User.isNew d) eqn:Hnew; [reflexivity|].
  now destruct (User.modifiedPaths d).
Qed.

(** The fields of a document that the timestamps leave alone. *)
Lemma timestamps_data (now : Z) (d : User.document) :
  let u := User.data (User.timestamps now d) in
  User._id u = User._id (User.data d)
  /\ User.name u = User.name (User.data d)
  /\ User.email u = User.email (User.data d)
  /\ User.password u = User.password (User.data d)
  /\ User.role u = User.role (User.data d)
  /\ User.lastLogin u = User.lastLogin (User.data d).
Proof.
  unfold User.timestamps.
  destruct (User.isNew d); [cbn; tauto|].
  destruct (User.modifiedPaths d); cbn; tauto.
Qed.

Section Register.

Context `{User.Bcrypt}.
Variables (e : Auth.env) (now : Z) (rnd : string).



End Register.





(** ** Lists of documents *)

Lemma find_none_existsb {A} (f : A -> bool) (l : list A) :
  List.find f l = None <-> existsb f l = false.
Proof.
  induction l as [|x l IH]; cbn; [tauto|].
  destruct (f x); cbn; [split; discriminate | exact IH].
Qed.

Lemma find_snoc {A} (f : A -> bool) (l : list A) (x : A) :
  List.find f l = None -> f x = true -> List.find f (l ++ [x]) = Some x.
Proof.
  induction l as [|y l IH]; cbn; intros Hnone Hx; [now rewrite Hx|].
  destruct (f y); [discriminate | auto].
Qed.

Lemma find_app_some {A} (f : A -> bool) (l l' : list A) (x : A) :
  List.find f l = Some x -> List.find f (l ++ l') = Some x.
Proof.
  induction l as [|y l IH]; cbn; [discriminate|].
  destruct (f y); auto.
Qed.

Lemma existsb_orb_false {A} (f g : A -> bool) (l : list A) :
  existsb (fun x => f x || g x) l = false ->
  existsb f l = false /\ existsb g l = false.
Proof.
  induction l as [|x l IH]; cbn; [tauto|].
  rewrite !orb_false_iff. intros [[Hf Hg] Hl]. destruct (IH Hl). tauto.
Qed.

Lemma find_replace_first (f : User.user -> bool) (g : User.user -> User.user)
  (l : list User.user) :
  (forall u, f u = true -> f (g u) = true) ->
  List.find f (Model.replace_first f g l) = g <$> List.find f l.
Proof.
  intros Hfg. induction l as [|u l IH]; cbn; [reflexivity|].
  destruct (f u) eqn:Hu; cbn.
  - now rewrite (Hfg u Hu).
  - now rewrite Hu.
Qed.

Lemma Forall_replace_first (P : User.user -> Prop) (f : User.user -> bool)
  (g : User.user -> User.user) (l : list User.user) :
  (forall u, P u -> P (g u)) -> Forall P l -> Forall P (Model.replace_first f g l).
Proof.
  intros HP Hl. induction Hl as [|u l Hu Hl IH]; cbn; [constructor|].
  destruct (f u); constructor; auto.
Qed.

Lemma fmap_replace_first {B} (h : User.user -> B) (f : User.user -> bool)
  (g : User.user -> User.user) (l : list User.user) :
  (forall u, h (g u) = h u) -> h <$> Model.replace_first f g l = h <$> l.
Proof.
  intros Hh. induction l as [|u l IH]; cbn; [reflexivity|].
  destruct (f u); cbn; [now rewrite Hh | now rewrite IH].
Qed.

Lemma with_lastLogin_same (u : User.user) :
  User.with_lastLogin (User.lastLogin u) u = u.
Proof. now destruct u. Qed.

(** ** Hashing on write and verification *)

Section Hashing.

Context `{User.Bcrypt}.

(** The pre-save middleware on a document whose password was assigned. *)
Lemma pre_save_modified (rnd : string) (d : User.document) (p : string) :
  User.isModified "password" d = true ->
  User.password (User.data d) = Some p ->
  User.pre_save rnd d =
    if JS.strlen p <? 6
    then inl (User.Error "Password must be at least 6 characters long")
    else inr {| User.data := User.with_password
                               (Some (User.hash p (User.genSalt 12 rnd)))
                               (User.data d);
                User.isNew := User.isNew d;
                User.modifiedPaths := User.modifiedPaths d |}.
Proof.
  intros Hmod Hp. unfold User.pre_save. now rewrite Hmod, Hp.
Qed.

(** The pre-update middleware on an update that names a non-empty
    password directly. *)
Lemma pre_findOneAndUpdate_direct (rnd : string) (u : User.update) (p : string) :
  User.direct u !! "password" = Some p -> JS.truthy p = true ->
  (6 <= JS.strlen p ->
     User.pre_findOneAndUpdate rnd u
     = ({| User.direct := <["password" := User.hash p (User.genSalt 12 rnd)]>
                            (User.direct u);
           User.dollar_set := User.dollar_set u |}, [None]))
  /\ (JS.strlen p < 6 ->
        User.first_next (snd (User.pre_findOneAndUpdate rnd u))
        = Some (User.Error "Password must be at least 6 characters long")).
Proof.
  intros Hp Ht. unfold User.pre_findOneAndUpdate. rewrite Hp, Ht. split; intros Hlen.
  - now rewrite (proj2 (Z.ltb_ge _ _) Hlen).
  - now rewrite (proj2 (Z.ltb_lt _ _) Hlen).
Qed.





Context {sound : User.BcryptSound H}.

(** [comparePassword] accepts the password the stored hash was made
    from. *)
Lemma comparePassword_own (d : User.document) (p : string) (s : User.salt) :
  User.password (User.data d) = Some (User.hash p s) ->
  User.comparePassword d p = inr true.
Proof.
  intros Hd. unfold User.comparePassword. rewrite Hd. f_equal.
  apply User.compare_hash.
Qed.

Context {limit : User.BcryptTruncates H}.

(** It accepts as well every candidate that agrees with that password on
    the 72 bytes the library reads. *)
Lemma comparePassword_key72 (d : User.document) (p q : string) (s : User.salt) :
  User.password (User.data d) = Some (User.hash p s) ->
  72 <= JS.strlen (User.utf8 p) -> 72 <= JS.strlen (User.utf8 q) ->
  User.key72 q = User.key72 p ->
  User.comparePassword d q = inr true.
Proof.
  intros Hd Hp Hq Hkey.
  rewrite <- (User.hash_key72 q p s Hq Hp Hkey) in Hd.
  now apply (comparePassword_own d q s).
Qed.

End Hashing.




Lemma stub_sound : User.BcryptSound Stub.bcrypt.
Proof. split. intros p s. cbn. apply String.eqb_refl. Qed.

Lemma stub_truncates : User.BcryptTruncates Stub.bcrypt.
Proof. split. intros p q s _ _ Hkey. cbn. now rewrite Hkey. Qed.


(** ** The partial-update path *)

(** C1, at the failing inputs. An update that sets the password to the
    empty string passes the pre-update middleware untouched and without an
    error, and an update that gives the password under [$set] is not seen
    by it: in both cases [findOneAndUpdate] writes the password as it was
    given, although it is shorter than 6 characters in the first case and
    is a plaintext in both. *)
Theorem findOneAndUpdate_persists_plaintext `{User.Bcrypt} (now : Z)
  (rnd : string) (u : User.user) :
  let w := {| Model.users := [u]; Model.connected := true |} in
  let empty_password :=
    {| User.direct := {[ "password" := "" ]}; User.dollar_set := ∅ |} in
  let under_set :=
    {| User.direct := ∅; User.dollar_set := {[ "password" := "plaintext-password" ]} |} in
  User.pre_findOneAndUpdate rnd empty_password = (empty_password, [None])
  /\ User.pre_findOneAndUpdate rnd under_set = (under_set, [None])
  /\ (User.password <$>
        Model.users (snd (Model.findOneAndUpdate (fun _ => true) empty_password
                            now rnd w)))
     = [Some ""]
  /\ (User.password <$>
        Model.users (snd (Model.findOneAndUpdate (fun _ => true) under_set
                            now rnd w)))
     = [Some "plaintext-password"].
Proof.
  cbv zeta. split; [reflexivity|]. split; [reflexivity|].
  unfold Model.findOneAndUpdate, Model.has_id.
  split.
  - (* [update.password] is the empty string: falsy *)
    replace (User.pre_findOneAndUpdate rnd
               {| User.direct := {[ "password" := "" ]}; User.dollar_set := ∅ |})
      with ({| User.direct := {[ "password" := "" ]}; User.dollar_set := ∅ |},
            [@None User.error]) by reflexivity.
    cbn [User.first_next Model.connected negb Model.users List.find existsb].
    rewrite N.eqb_refl. reflexivity.
  - (* [update.password] is undefined *)
    replace (User.pre_findOneAndUpdate rnd
               {| User.direct := ∅;
                  User.dollar_set := {[ "password" := "plaintext-password" ]} |})
      with ({| User.direct := ∅;
               User.dollar_set := {[ "password" := "plaintext-password" ]} |},
            [@None User.error]) by reflexivity.
    cbn [User.first_next Model.connected negb Model.users List.find existsb].
    rewrite N.eqb_refl. reflexivity.
Qed.

(** ** Restoring a session *)

Lemma simulatedUsers_keys (k : string) :
  JS.has_truthy Client.simulatedUsers k = true <->
  k = "admin@example.com" \/ k = "user@example.com" \/ In k JS.Object_prototype.
Proof.
  unfold JS.has_truthy, JS.get, Client.simulatedUsers.
  destruct (decide (k = "admin@example.com")) as [-> | Hadmin]; [vm_compute; tauto|].
  destruct (decide (k = "user@example.com")) as [-> | Huser]; [vm_compute; tauto|].
  rewrite lookup_insert_ne, lookup_singleton_ne by congruence.
  destruct (existsb (String.eqb k) JS.Object_prototype) eqn:Hproto.
  - apply existsb_exists in Hproto as (x & Hx & Heq).
    apply String.eqb_eq in Heq. subst x. tauto.
  - split; [discriminate|]. intros [? | [? | Hin]]; try contradiction.
    assert (existsb (String.eqb k) JS.Object_prototype = true) as Hyes
      by (apply existsb_exists; exists k; split; [assumption | apply String.eqb_refl]).
    congruence.
Qed.

(** A complete stored session whose e-mail address is neither a key of
    the simulated users nor a name inherited from [Object.prototype] is
    cleared, and the provider ends signed out with the role [guest]. *)
Lemma startup_unknown_email (storage : Client.Storage.t) (u : Client.userData)
  (r i : string) :
  Client.Storage.currentUser storage = Some (Client.Json u) ->
  Client.Storage.userRole storage = Some r -> JS.truthy r = true ->
  Client.Storage.userId storage = Some i -> JS.truthy i = true ->
  Client.email u <> "admin@example.com" -> Client.email u <> "user@example.com" ->
  ~ In (Client.email u) JS.Object_prototype ->
  Client.startup storage
  = {| Client.currentUser := None; Client.userRole := "guest";
       Client.userId := None; Client.loading := false;
       Client.localStorage := Client.Storage.empty |}.
Proof.
  intros Hu Hr Htr Hi Hti Hadmin Huser Hproto.
  unfold Client.startup, Client.checkAuthStatus, Client.mount.
  cbn [Client.localStorage]. rewrite Hu, Hr, Hi.
  cbn [Client.item_truthy JS.truthy_opt]. rewrite Htr, Hti. cbn [andb].
  destruct (JS.has_truthy Client.simulatedUsers (Client.email u)) eqn:Hkey.
  - apply simulatedUsers_keys in Hkey. tauto.
  - reflexivity.
Qed.

(** C10, at the failing input. A stored session whose e-mail address is
    [constructor], which is not a key of the simulated users, is restored,
    with the stored role: the look-up finds the property the object
    inherits. *)
Theorem startup_restores_inherited_name :
  let storage :=
    {| Client.Storage.currentUser :=
         Some (Client.Json {| Client.email := "constructor"; Client.uid := "x" |});
       Client.Storage.userRole := Some "admin";
       Client.Storage.userId := Some "x" |} in
  Client.simulatedUsers !! "constructor" = None
  /\ Client.startup storage
     = {| Client.currentUser := Some {| Client.email := "constructor"; Client.uid := "x" |};
          Client.userRole := "admin";
          Client.userId := Some "x";
          Client.loading := false;
          Client.localStorage := storage |}.
Proof. split; vm_compute; reflexivity. Qed.

(** An address that [validateEmail] accepts holds an [@] and so is none of
    the inherited names. *)
Lemma validated_email_not_inherited (e : string) :
  Client.validateEmail e = true -> ~ In e JS.Object_prototype.
Proof.
  intros Hvalid Hin. unfold JS.Object_prototype in Hin. cbn [In] in Hin.
  repeat (destruct Hin as [<- | Hin]; [vm_compute in Hvalid; discriminate|]).
  exact Hin.
Qed.

(** A session that [register] has persisted under a non-empty role is
    cleared by the next start-up: the simulated users are built anew,
    without the account. *)
Lemma startup_after_register (stamp e p : string) (r : option string)
  (c : Client.client) (u : Client.userData) users' c' :
  Client.register Client.simulatedUsers stamp e p r c = (inr u, users', c') ->
  JS.truthy (default "user" r) = true ->
  Client.startup (Client.localStorage c')
  = {| Client.currentUser := None; Client.userRole := "guest";
       Client.userId := None; Client.loading := false;
       Client.localStorage := Client.Storage.empty |}.
Proof.
  unfold Client.register. intros Hreg Hrole.
  destruct (negb (Client.validateEmail e)) eqn:Hvalid; [discriminate|].
  destruct (negb (Client.validatePassword p)); [discriminate|].
  destruct (JS.has_truthy Client.simulatedUsers e) eqn:Hkey; [discriminate|].
  injection Hreg as <- <- <-.
  assert (~ (e = "admin@example.com" \/ e = "user@example.com"
             \/ In e JS.Object_prototype)) as Hnot.
  { intros Hyes. apply simulatedUsers_keys in Hyes. congruence. }
  apply (startup_unknown_email _ {| Client.email := e; Client.uid := "user-" ++ stamp |}
           (default "user" r) ("user-" ++ stamp)); try reflexivity; try assumption;
    cbn [Client.email]; tauto.
Qed.

(** X19: a session that [register] has persisted is never restored by the
    next start-up: the simulated users are built anew, without the
    account, so the provider ends signed out as a guest. The stored session
    is cleared, unless the role that was registered is the empty string:
    the session then counts as incomplete and is left in the storage. *)
Theorem startup_forgets_registration (stamp e p : string) (r : option string)
  (c : Client.client) (u : Client.userData)
  (users' : gmap string Client.simulatedUser) (c' : Client.client) :
  Client.register Client.simulatedUsers stamp e p r c = (inr u, users', c') ->
  Client.startup (Client.localStorage c')
  = {| Client.currentUser := None; Client.userRole := "guest";
       Client.userId := None; Client.loading := false;
       Client.localStorage :=
         if JS.truthy (default "user" r) then Client.Storage.empty
         else Client.localStorage c' |}.
Proof.
  intros Hreg.
  destruct (JS.truthy (default "user" r)) eqn:Hrole.
  - now apply (startup_after_register stamp e p r c u users' c').
  - unfold Client.register in Hreg.
    destruct (negb (Client.validateEmail e)); [discriminate|].
    destruct (negb (Client.validatePassword p)); [discriminate|].
    destruct (JS.has_truthy Client.simulatedUsers e); [discriminate|].
    injection Hreg as <- <- <-.
    unfold Client.startup, Client.checkAuthStatus, Client.mount, Client.signed_in.
    cbn [Client.localStorage Client.Storage.currentUser Client.Storage.userRole
         Client.Storage.userId Client.item_truthy JS.truthy_opt andb].
    rewrite Hrole. reflexivity.
Qed.

(** A registration under the empty role, which the next start-up leaves
    in the storage. *)
Lemma startup_forgets_registration_witness :
  let c' := snd (Client.register Client.simulatedUsers "1700000000000" "new@x.com"
                   "secret1" (Some "") (Client.startup Client.Storage.empty)) in
  Client.startup (Client.localStorage c')
  = {| Client.currentUser := None; Client.userRole := "guest";
       Client.userId := None; Client.loading := false;
       Client.localStorage := Client.localStorage c' |}.
Proof.
  refine (startup_forgets_registration "1700000000000" "new@x.com" "secret1"
            (Some "") (Client.startup Client.Storage.empty) _ _ _ _); reflexivity.
Defined.

(** X26: a successful [save] of a document whose password was assigned has
    checked its length and has written its cost-12 hash, never the
    password itself. *)
Lemma save_stores_hash `{User.Bcrypt} (now : Z) (rnd : string)
  (d d' : User.document) (p : string) (w w' : Model.db) :
  User.isModified "password" d = true ->
  User.password (User.data d) = Some p ->
  Model.save now rnd d w = (inr d', w') ->
  6 <= JS.strlen p
  /\ User.password (User.data d') = Some (User.hash p (User.genSalt 12 rnd))
  /\ (User.isNew d = true ->
      Model.users w'
      = (Model.users w
           ++ [User.with_password (Some (User.hash p (User.genSalt 12 rnd)))
                 (User.data (User.timestamps now d))])%list).
Proof.
  intros Hmod Hp Hsave.
  assert (User.isModified "password" (User.timestamps now d) = true) as Hmod'
    by (now rewrite timestamps_isModified).
  assert (User.password (User.data (User.timestamps now d)) = Some p) as Hp'
    by (now rewrite (proj1 (proj2 (proj2 (proj2 (timestamps_data now d)))))).
  pose proof (pre_save_modified rnd _ p Hmod' Hp') as Hpre.
  unfold Model.save in Hsave. rewrite Hpre in Hsave.
  destruct (Model.validate_document d); [|discriminate].
  destruct (JS.strlen p <? 6) eqn:Hlen; [discriminate|].
  apply Z.ltb_ge in Hlen. split; [assumption|].
  cbn [User.isNew User.data User.modifiedPaths fst snd] in Hsave.
  rewrite timestamps_isNew in Hsave.
  follow_branches.
Qed.

(** ** The matcher decides the language of the pattern *)

Lemma append_nil_l (s : string) : "" ++ s = s.
Proof. reflexivity. Qed.

Lemma append_cons (c : ascii) (s1 s2 : string) :
  String c s1 ++ s2 = String c (s1 ++ s2).
Proof. reflexivity. Qed.

Lemma append_nil_r (s : string) : s ++ "" = s.
Proof.
  induction s as [|c s IH]; [reflexivity|]. now rewrite append_cons, IH.
Qed.

Lemma append_assoc (s1 s2 s3 : string) : (s1 ++ s2) ++ s3 = s1 ++ (s2 ++ s3).
Proof.
  induction s1 as [|c s1 IH]; [reflexivity|]. now rewrite !append_cons, IH.
Qed.

Lemma append_eq_nil (s1 s2 : string) : s1 ++ s2 = "" -> s1 = "" /\ s2 = "".
Proof.
  destruct s1; [rewrite append_nil_l; tauto | rewrite append_cons; discriminate].
Qed.

Lemma nullable_matches (r : JS.regex) :
  JS.nullable r = true <-> Lang.matches r "".
Proof.
  split.
  - induction r as [| |p|r1 IH1 r2 IH2|r1 IH1 r2 IH2|r IH]; cbn; intros Hn;
      try discriminate.
    + constructor.
    + apply andb_true_iff in Hn as [H1 H2].
      change "" with ("" ++ ""). constructor; auto.
    + apply orb_true_iff in Hn as [H1 | H2];
        [apply Lang.MAltL | apply Lang.MAltR]; auto.
    + constructor.
  - intros Hm. remember "" as s eqn:Hs.
    induction Hm as [|p c Hp|r1 r2 s1 s2 H1 IH1 H2 IH2|r1 r2 s H1 IH1
                    |r1 r2 s H2 IH2|r|r s1 s2 H1 IH1 H2 IH2]; cbn;
      try reflexivity; try discriminate.
    + apply append_eq_nil in Hs as [-> ->]. now rewrite IH1, IH2.
    + now rewrite IH1.
    + rewrite IH2 by assumption. apply orb_true_r.
Qed.

Lemma deriv_sound (c : ascii) (r : JS.regex) (s : string) :
  Lang.matches (JS.deriv c r) s -> Lang.matches r (String c s).
Proof.
  revert s.
  induction r as [| |p|r1 IH1 r2 IH2|r1 IH1 r2 IH2|r IH]; cbn; intros s Hm.
  - inversion Hm.
  - inversion Hm.
  - destruct (p c) eqn:Hp; inversion Hm; subst. now constructor.
  - destruct (JS.nullable r1) eqn:Hn.
    + inversion Hm as [| | |? ? ? Hl|? ? ? Hr| |]; subst.
      * inversion Hl as [| |? ? s1 s2 Ha Hb| | | |]; subst.
        change (String c (s1 ++ s2)) with (String c s1 ++ s2).
        constructor; auto.
      * change (String c s) with ("" ++ String c s).
        constructor; [now apply nullable_matches | auto].
    + inversion Hm as [| |? ? s1 s2 Ha Hb| | | |]; subst.
      change (String c (s1 ++ s2)) with (String c s1 ++ s2).
      constructor; auto.
  - inversion Hm; subst; [apply Lang.MAltL | apply Lang.MAltR]; auto.
  - inversion Hm as [| |? ? s1 s2 Ha Hb| | | |]; subst.
    change (String c (s1 ++ s2)) with (String c s1 ++ s2).
    constructor; auto.
Qed.

Lemma deriv_complete (c : ascii) (r : JS.regex) (s : string) :
  Lang.matches r (String c s) -> Lang.matches (JS.deriv c r) s.
Proof.
  intros Hm. remember (String c s) as cs eqn:Hcs. revert c s Hcs.
  induction Hm as [|p a Hp|r1 r2 s1 s2 H1 IH1 H2 IH2|r1 r2 s0 H1 IH1
                  |r1 r2 s0 H2 IH2|r|r s1 s2 H1 IH1 H2 IH2]; intros c s Hcs; cbn.
  - discriminate.
  - injection Hcs as -> <-. rewrite Hp. constructor.
  - destruct s1 as [|a s1'].
    + rewrite append_nil_l in Hcs. subst s2.
      apply nullable_matches in H1. rewrite H1.
      apply Lang.MAltR. now apply IH2.
    + rewrite append_cons in Hcs. injection Hcs as -> <-.
      assert (Lang.matches (JS.Seq (JS.deriv c r1) r2) (s1' ++ s2)) as Hseq
        by (constructor; [now apply IH1 | assumption]).
      destruct (JS.nullable r1); [now apply Lang.MAltL | assumption].
  - apply Lang.MAltL. now apply IH1.
  - apply Lang.MAltR. now apply IH2.
  - discriminate.
  - destruct s1 as [|a s1'].
    + rewrite append_nil_l in Hcs. now apply IH2.
    + rewrite append_cons in Hcs. injection Hcs as -> <-.
      constructor; [now apply IH1 | assumption].
Qed.

(** [JS.test] accepts a string exactly when the pattern denotes it. *)
Lemma test_matches (r : JS.regex) (s : string) :
  JS.test r s = true <-> Lang.matches r s.
Proof.
  revert r. induction s as [|c s IH]; intros r; cbn.
  - apply nullable_matches.
  - rewrite IH. split; [apply deriv_sound | apply deriv_complete].
Qed.

(** ** The shape of an accepted e-mail address *)

Lemma all_app (p : ascii -> bool) (s1 s2 : string) :
  Lang.all p (s1 ++ s2) = Lang.all p s1 && Lang.all p s2.
Proof.
  induction s1 as [|c s1 IH]; [reflexivity|].
  rewrite append_cons. cbn [Lang.all]. now rewrite IH, andb_assoc.
Qed.

Lemma all_impl (p q : ascii -> bool) (s : string) :
  (forall c, p c = true -> q c = true) -> Lang.all p s = true -> Lang.all q s = true.
Proof.
  intros Hpq. induction s as [|c s IH]; cbn [Lang.all]; [reflexivity|].
  rewrite !andb_true_iff. intros [Hc Hs]. auto.
Qed.

Lemma matches_seq (r1 r2 : JS.regex) (s : string) :
  Lang.matches (JS.Seq r1 r2) s <->
  exists s1 s2, s = s1 ++ s2 /\ Lang.matches r1 s1 /\ Lang.matches r2 s2.
Proof.
  split.
  - intros Hm. inversion Hm; subst. eauto.
  - intros (s1 & s2 & -> & H1 & H2). now constructor.
Qed.

Lemma matches_class (p : ascii -> bool) (s : string) :
  Lang.matches (JS.Class p) s <-> exists c, s = String c "" /\ p c = true.
Proof.
  split.
  - intros Hm. inversion Hm; subst. eauto.
  - intros (c & -> & Hp). now constructor.
Qed.

Lemma matches_chr (a : ascii) (s : string) :
  Lang.matches (JS.chr a) s <-> s = String a "".
Proof.
  unfold JS.chr. rewrite matches_class. split.
  - intros (c & -> & Heq). apply Ascii.eqb_eq in Heq. now subst.
  - intros ->. exists a. split; [reflexivity | apply Ascii.eqb_refl].
Qed.

Lemma matches_star_class (p : ascii -> bool) (s : string) :
  Lang.matches (JS.Star (JS.Class p)) s <-> Lang.all p s = true.
Proof.
  split.
  - intros Hm. remember (JS.Star (JS.Class p)) as r eqn:Hr.
    induction Hm as [| | | | | |r s1 s2 H1 IH1 H2 IH2]; try discriminate.
    + reflexivity.
    + injection Hr as ->. apply matches_class in H1 as (c & -> & Hp).
      rewrite append_cons, append_nil_l. cbn [Lang.all].
      rewrite Hp. now apply IH2.
  - induction s as [|c s IH]; cbn [Lang.all]; intros Hall.
    + constructor.
    + apply andb_true_iff in Hall as [Hc Hs].
      change (String c s) with (String c "" ++ s).
      constructor; [now constructor | auto].
Qed.

Lemma matches_plus_class (p : ascii -> bool) (s : string) :
  Lang.matches (JS.Plus (JS.Class p)) s <-> s <> "" /\ Lang.all p s = true.
Proof.
  unfold JS.Plus. rewrite matches_seq. split.
  - intros (s1 & s2 & -> & H1 & H2).
    apply matches_class in H1 as (c & -> & Hp). apply matches_star_class in H2.
    rewrite append_cons, append_nil_l. cbn [Lang.all]. rewrite Hp, H2.
    split; [discriminate | reflexivity].
  - intros [Hne Hall]. destruct s as [|c s]; [contradiction|].
    cbn [Lang.all] in Hall. apply andb_true_iff in Hall as [Hc Hs].
    exists (String c ""), s. split; [reflexivity|].
    split; [now constructor | now apply matches_star_class].
Qed.

(** The pattern of the e-mail checks denotes the strings [l@d.t] whose
    three parts are non-empty and hold neither white space nor [@]. *)
Lemma emailRegex_shape (s : string) :
  JS.test User.emailRegex s = true <->
  exists l d t,
    s = l ++ "@" ++ d ++ "." ++ t
    /\ Lang.atoms l /\ Lang.atoms d /\ Lang.atoms t.
Proof.
  rewrite test_matches.
  change User.emailRegex with
    (JS.Seq (JS.Plus (JS.Class Lang.atom))
       (JS.Seq (JS.chr "@")
          (JS.Seq (JS.Plus (JS.Class Lang.atom))
             (JS.Seq (JS.chr ".") (JS.Plus (JS.Class Lang.atom)))))).
  unfold Lang.atoms. split.
  - intros Hm.
    apply matches_seq in Hm as (l & s1 & -> & Hl & Hm).
    apply matches_seq in Hm as (a & s2 & -> & Ha & Hm).
    apply matches_seq in Hm as (d & s3 & -> & Hd & Hm).
    apply matches_seq in Hm as (o & t & -> & Ho & Ht).
    apply matches_chr in Ha as ->. apply matches_chr in Ho as ->.
    apply matches_plus_class in Hl, Hd, Ht.
    exists l, d, t. split; [reflexivity | tauto].
  - intros (l & d & t & -> & Hl & Hd & Ht).
    apply matches_plus_class in Hl, Hd, Ht.
    repeat (constructor; [assumption || now apply matches_chr|]). assumption.
Qed.

Lemma atom_lower_char (c : ascii) :
  Lang.atom c = true -> Lang.atom (JS.lower_char c) = true.
Proof.
  destruct c as [[] [] [] [] [] [] [] []]; vm_compute; intros; congruence.
Qed.

Lemma atom_not_space (c : ascii) : Lang.atom c = true -> JS.is_space c = false.
Proof.
  unfold Lang.atom. rewrite negb_true_iff, orb_false_iff. tauto.
Qed.

Lemma toLowerCase_app (s1 s2 : string) :
  JS.toLowerCase (s1 ++ s2) = JS.toLowerCase s1 ++ JS.toLowerCase s2.
Proof.
  induction s1 as [|c s1 IH]; [reflexivity|].
  rewrite append_cons. cbn [JS.toLowerCase]. now rewrite IH, append_cons.
Qed.

Lemma atoms_toLowerCase (s : string) :
  Lang.atoms s -> Lang.atoms (JS.toLowerCase s).
Proof.
  intros [Hne Hall]. split.
  - destruct s; [contradiction | discriminate].
  - clear Hne. induction s as [|c s IH]; [reflexivity|].
    cbn [Lang.all JS.toLowerCase] in *. apply andb_true_iff in Hall as [Hc Hs].
    now rewrite atom_lower_char, IH.
Qed.

Lemma trimEnd_no_space (s : string) :
  Lang.all (fun c => negb (JS.is_space c)) s = true -> JS.trimEnd s = s.
Proof.
  induction s as [|c s IH]; [reflexivity|].
  cbn [Lang.all JS.trimEnd]. intros Hall. apply andb_true_iff in Hall as [Hc Hs].
  rewrite IH by assumption. apply negb_true_iff in Hc. rewrite Hc.
  now destruct s.
Qed.

Lemma trim_no_space (s : string) :
  Lang.all (fun c => negb (JS.is_space c)) s = true -> JS.trim s = s.
Proof.
  intros Hall. unfold JS.trim.
  assert (JS.trimStart s = s) as ->.
  { destruct s as [|c s]; [reflexivity|]. cbn [Lang.all JS.trimStart] in *.
    apply andb_true_iff in Hall as [Hc _]. apply negb_true_iff in Hc.
    now rewrite Hc. }
  now apply trimEnd_no_space.
Qed.

Lemma validateEmail_no_space (s : string) :
  Auth.validateEmail s = true ->
  Lang.all (fun c => negb (JS.is_space c)) s = true.
Proof.
  intros Hv. apply emailRegex_shape in Hv
    as (l & d & t & -> & [_ Hl] & [_ Hd] & [_ Ht]).
  assert (forall x, Lang.all Lang.atom x = true ->
                    Lang.all (fun c => negb (JS.is_space c)) x = true) as Hat.
  { intros x. apply all_impl. intros c Hc. now rewrite atom_not_space. }
  rewrite !all_app, (Hat l), (Hat d), (Hat t) by assumption. reflexivity.
Qed.

Lemma toLowerCase_valid (s : string) :
  Auth.validateEmail s = true -> Auth.validateEmail (JS.toLowerCase s) = true.
Proof.
  intros Hv. apply emailRegex_shape in Hv as (l & d & t & -> & Hl & Hd & Ht).
  apply emailRegex_shape.
  exists (JS.toLowerCase l), (JS.toLowerCase d), (JS.toLowerCase t).
  rewrite !toLowerCase_app. auto using atoms_toLowerCase.
Qed.

Lemma cast_email_valid (s : string) :
  Auth.validateEmail s = true -> Model.cast_email s = JS.toLowerCase s.
Proof.
  intros Hv. apply trim_no_space, validateEmail_no_space, toLowerCase_valid, Hv.
Qed.

(** X1: [validateEmail] accepts exactly the strings [l@d.t] whose three
    parts are non-empty and hold neither white space nor [@]. *)
Theorem validateEmail_shape (s : string) :
  Auth.validateEmail s = true <->
  exists l d t,
    s = l ++ "@" ++ d ++ "." ++ t
    /\ Lang.atoms l /\ Lang.atoms d /\ Lang.atoms t.
Proof. apply emailRegex_shape. Qed.

Lemma validateEmail_shape_witness :
  exists l d t,
    "Alice@X.com" = l ++ "@" ++ d ++ "." ++ t
    /\ Lang.atoms l /\ Lang.atoms d /\ Lang.atoms t.
Proof. apply (proj1 (validateEmail_shape "Alice@X.com")). reflexivity. Defined.

(** X2: an address the routes accept holds no white space, so trimming
    leaves it as it is and the setters of the schema only put it in lower
    case; the result is accepted again, so the validator of the schema
    never refuses an address that passed the check of a route. *)
Theorem validateEmail_normal_form (s : string) :
  Auth.validateEmail s = true ->
  JS.trim s = s
  /\ Model.cast_email s = JS.toLowerCase s
  /\ Auth.validateEmail (Model.cast_email s) = true.
Proof.
  intros Hv.
  split; [apply trim_no_space, validateEmail_no_space, Hv|].
  split; [now apply cast_email_valid|].
  rewrite cast_email_valid by assumption. now apply toLowerCase_valid.
Qed.

Lemma validateEmail_normal_form_witness :
  JS.trim "Alice@X.com" = "Alice@X.com"
  /\ Model.cast_email "Alice@X.com" = JS.toLowerCase "Alice@X.com"
  /\ Auth.validateEmail (Model.cast_email "Alice@X.com") = true.
Proof. apply validateEmail_normal_form. reflexivity. Defined.

(** ** What a route does to the collection *)

Lemma creation_failed_status (fallback : string) (err : User.error) :
  let s := Auth.status (Auth.creation_failed fallback err) in
  s = 400 \/ s = 409 \/ s = 500.
Proof.
  unfold Auth.creation_failed, Auth.failure.
  destruct err; cbn [Auth.status]; try tauto.
  repeat case_match; cbn [Auth.status]; tauto.
Qed.

Ltac decode_conditions :=
  repeat match goal with
         | Hx : negb _ = false |- _ => apply negb_false_iff in Hx
         | Hx : negb _ = true |- _ => apply negb_true_iff in Hx
         | Hx : bool_decide _ = false |- _ => apply bool_decide_eq_false in Hx
         | Hx : bool_decide _ = true |- _ => apply bool_decide_eq_true in Hx
         | Hx : existsb (fun _ => _ || _) _ = false |- _ =>
             apply existsb_orb_false in Hx as [? ?]
         | Hx : (_ <? _) = false |- _ => apply Z.ltb_ge in Hx
         | Hx : Auth.validatePassword _ = true |- _ =>
             apply validatePassword_length in Hx
         end.

Section SaveNew.

Context `{User.Bcrypt}.

(** [save] of a new document whose password was given. *)
Lemma save_new (now : Z) (rnd : string) (d : User.document) (pw : string)
  (w : Model.db) :
  User.isNew d = true -> User.isModified "password" d = true ->
  User.password (User.data d) = Some pw ->
  let stored := User.with_password (Some (User.hash pw (User.genSalt 12 rnd)))
                  (User.data (User.timestamps now d)) in
  Model.save now rnd d w
  = match User.validate true (User.data d) with
    | (_ :: _) as errors => (inl (User.ValidationError errors), w)
    | [] =>
        if JS.strlen pw <? 6
        then (inl (User.Error "Password must be at least 6 characters long"), w)
        else if negb (Model.connected w) then (inl User.MongoNetworkError, w)
        else if existsb (fun u => Model.has_id (User._id (User.data d)) u
                                  || Model.has_email (User.email (User.data d)) u)
                  (Model.users w)
        then (inl (User.MongoServerError 11000), w)
        else (inr {| User.data := stored; User.isNew := false;
                     User.modifiedPaths := [] |},
              Model.with_users (Model.users w ++ [stored]) w)
    end.
Proof.
  intros Hnew Hmod Hp. cbv zeta.
  unfold Model.save, Model.validate_document. rewrite Hnew. cbn [orb].
  destruct (User.validate true (User.data d)); [|reflexivity].
  assert (User.isModified "password" (User.timestamps now d) = true) as Hmod'
    by (now rewrite timestamps_isModified).
  assert (User.password (User.data (User.timestamps now d)) = Some pw) as Hp'
    by (now rewrite (proj1 (proj2 (proj2 (proj2 (timestamps_data now d)))))).
  rewrite (pre_save_modified rnd _ pw Hmod' Hp').
  destruct (JS.strlen pw <? 6); [reflexivity|].
  destruct (negb (Model.connected w)); [reflexivity|].
  cbn [User.isNew User.data]. rewrite timestamps_isNew, Hnew.
  replace (User._id (User.with_password _ _))
    with (User._id (User.data d)) by (symmetry; apply (timestamps_data now d)).
  replace (User.email (User.with_password _ _))
    with (User.email (User.data d)) by (symmetry; apply (timestamps_data now d)).
  reflexivity.
Qed.

End SaveNew.

Section Effects.

Context `{User.Bcrypt}.
Variables (e : Auth.env) (now : Z) (rnd : string).

(** Registration either answers something else than 201 and writes
    nothing, or appends the new document with its hashed password; the
    token is signed after the write, so that the answer is then 201, or
    500 when [JWT_EXPIRES_IN] is no timespan. *)
Lemma register_effect (oid : N) (b : Auth.body) (w : Model.db) :
  (Auth.status (fst (Auth.register e now rnd oid b w)) <> 201
   /\ snd (Auth.register e now rnd oid b w) = w)
  \/ exists nm em pw,
      b !! "name" = Some nm /\ b !! "email" = Some em /\ b !! "password" = Some pw
      /\ Auth.validateEmail em = true /\ 6 <= JS.strlen pw
      /\ Model.connected w = true
      /\ List.find (Model.has_email (Some (Model.cast_email em))) (Model.users w) = None
      /\ existsb (Model.has_id oid) (Model.users w) = false
      /\ let d := User.new_User oid
                    {| User.f_name := Some nm; User.f_email := Some em;
                       User.f_password := Some pw;
                       User.f_role := Some (JS.or_else (b !! "role") "user");
                       User.f_department := Auth.or_null (b !! "department");
                       User.f_position := Auth.or_null (b !! "position") |} in
         let stored := User.with_password
                         (Some (User.hash pw (User.genSalt 12 rnd)))
                         (User.data (User.timestamps now d)) in
         User.validate true (User.data d) = []
         /\ snd (Auth.register e now rnd oid b w)
            = Model.with_users (Model.users w ++ [stored]) w
         /\ fst (Auth.register e now rnd oid b w)
            = match Auth.expiresIn e with
              | Auth.Span ttl =>
                  {| Auth.status := 201; Auth.success := true;
                     Auth.message := "User registered successfully";
                     Auth.token :=
                       Some (Auth.signed {| Auth.id := oid;
                                            Auth.role := User.role stored;
                                            Auth.email := User.email stored |}
                               (Auth.secret e) ttl now);
                     Auth.user := Some (User.with_password None stored);
                     Auth.errors := [] |}
              | Auth.NoSpan => Auth.failure 500 "Server error during registration"
              end.
Proof.
  assert (forall err,
             Auth.status (Auth.creation_failed "Server error during registration" err)
             <> 201) as Hfail.
  { intros err.
    pose proof (creation_failed_status "Server error during registration" err).
    cbv zeta in *. lia. }
  unfold Auth.register, Model.findOne, Auth.sign_user, Auth.sign.
  unfold Auth.try_catch, Auth.bind, Auth.guard, Auth.respond, Auth.ret,
    Auth.await, Auth.lift.
  destruct (b !! "name") as [nm|], (b !! "email") as [em|],
    (b !! "password") as [pw|];
    cbn [JS.truthy_opt from_option id negb orb];
    try (left; split; [discriminate | reflexivity]);
    try (destruct (negb (JS.truthy nm)); left; split; (discriminate || reflexivity));
    try (destruct (negb (JS.truthy nm) || negb (JS.truthy em)); left; split;
         (discriminate || reflexivity)).
  destruct (negb (JS.truthy nm) || negb (JS.truthy em) || negb (JS.truthy pw));
    [left; split; [discriminate | reflexivity]|].
  destruct (negb (Auth.validateEmail em)) eqn:Hem;
    [left; split; [discriminate | reflexivity]|].
  destruct (negb (Auth.validatePassword pw)) eqn:Hpw;
    [left; split; [discriminate | reflexivity]|].
  destruct (Model.connected w) eqn:Hup; [|left; split; [apply Hfail | reflexivity]].
  destruct (List.find _ (Model.users w)) as [u|] eqn:Hfind;
    [left; split; [discriminate | reflexivity]|].
  cbn [fmap option_fmap option_map bool_decide decide_rel].
  rewrite bool_decide_eq_false_2 by (intros [? ?]; discriminate).
  rewrite (save_new now rnd _ pw) by (reflexivity || now apply isModified_new_User).
  destruct (User.validate true _) eqn:Hvalid; [|left; split; [apply Hfail | reflexivity]].
  decode_conditions.
  rewrite (proj2 (Z.ltb_ge _ _) Hpw), Hup. cbn [negb User.data User.new_User
    User._id User.email fmap option_fmap option_map].
  destruct (existsb _ (Model.users w)) eqn:Hclash; [left; split; [apply Hfail | reflexivity]|].
  apply existsb_orb_false in Hclash as [Hid _].
  right. exists nm, em, pw. do 8 (split; [assumption || reflexivity|]).
  cbv zeta. split; [assumption|].
  destruct (Auth.expiresIn e); split; reflexivity.
Qed.

End Effects.
Section LoginEffect.

Context `{User.Bcrypt}.
Variables (e : Auth.env) (now : Z) (rnd : string).

(** A login either answers something else than 200 and writes nothing, or
    has found the account by its address, verified the password, and has
    written the time of the login as lastLogin and updatedAt; the token is
    signed after the write, so that the answer is then 200, or 500 when
    [JWT_EXPIRES_IN] is no timespan. *)
Lemma login_effect (b : Auth.body) (w : Model.db) :
  (Auth.status (fst (Auth.login e now rnd b w)) <> 200
   /\ snd (Auth.login e now rnd b w) = w)
  \/ exists em pw u h u',
      b !! "email" = Some em /\ b !! "password" = Some pw
      /\ Auth.validateEmail em = true /\ 6 <= JS.strlen pw
      /\ Model.connected w = true
      /\ List.find (Model.has_email (Some (Model.cast_email em))) (Model.users w) = Some u
      /\ User.password u = Some h /\ User.compare pw h = true
      /\ fst (Auth.login e now rnd b w)
         = match Auth.expiresIn e with
           | Auth.Span ttl =>
               {| Auth.status := 200; Auth.success := true;
                  Auth.message := "Login successful";
                  Auth.token :=
                    Some (Auth.signed {| Auth.id := User._id u;
                                         Auth.role := User.role u;
                                         Auth.email := User.email u |}
                            (Auth.secret e) ttl now);
                  Auth.user := Some (User.with_password None u');
                  Auth.errors := [] |}
           | Auth.NoSpan => Auth.failure 500 "Server error during authentication"
           end
      /\ (User.lastLogin u = Some now /\ u' = u
          /\ snd (Auth.login e now rnd b w) = w
          \/ User.lastLogin u <> Some now /\ u' = Store.logged_in now u
             /\ snd (Auth.login e now rnd b w)
                = Model.with_users
                    (Model.replace_first (Model.has_id (User._id u))
                       (Store.logged_in now) (Model.users w)) w).
Proof.
  unfold Auth.login, Model.findOne, User.comparePassword, Model.hydrate,
    Auth.sign_user, Auth.sign.
  unfold_handler.
  destruct (b !! "email") as [em|], (b !! "password") as [pw|];
    cbn [JS.truthy_opt from_option id negb orb];
    try (left; split; [discriminate | reflexivity]);
    try (destruct (negb (JS.truthy em)); left; split; (discriminate || reflexivity)).
  destruct (negb (JS.truthy em) || negb (JS.truthy pw));
    [left; split; [discriminate | reflexivity]|].
  destruct (negb (Auth.validateEmail em)) eqn:Hem;
    [left; split; [discriminate | reflexivity]|].
  destruct (negb (Auth.validatePassword pw)) eqn:Hpw;
    [left; split; [discriminate | reflexivity]|].
  destruct (Model.connected w) eqn:Hup;
    [|left; split; [discriminate | reflexivity]].
  destruct (List.find _ (Model.users w)) as [u|] eqn:Hfind;
    [|left; split; [discriminate | reflexivity]].
  cbn [fmap option_fmap option_map User.data].
  destruct (User.password u) as [h|] eqn:Hh;
    [|left; split; [discriminate | reflexivity]].
  destruct (User.compare pw h) eqn:Hcmp;
    [|left; split; [discriminate | reflexivity]].
  cbn [negb].
  decode_conditions.
  unfold Model.save, User.set_lastLogin. cbn [User.data].
  destruct (bool_decide (User.lastLogin u = Some now)) eqn:Hsame.
  - (* the time is the one already stored: nothing is modified *)
    decode_conditions.
    unfold User.pre_save, Model.validate_document, User.timestamps.
    cbn [User.isModified User.modifiedPaths existsb negb User.isNew User.data orb].
    rewrite Hh, Hup.
    destruct (User.validate _ u);
      [|left; split; [discriminate | reflexivity]].
    right. exists em, pw, u, h, u. repeat split; auto.
    + cbn. now destruct (Auth.expiresIn e).
    + left. repeat split; auto. cbn. now destruct (Auth.expiresIn e).
  - decode_conditions.
    unfold User.timestamps. cbn [User.isNew User.modifiedPaths User.data].
    unfold User.pre_save, Model.validate_document, User.markModified.
    cbn [User.isModified User.modifiedPaths existsb negb User.isNew User.data orb
         app String.eqb Ascii.eqb Bool.eqb andb].
    replace (User.password (User.with_lastLogin (Some now) u)) with (Some h)
      by (now destruct u).
    rewrite Hup.
    destruct (User.validate _ _);
      [|left; split; [discriminate | reflexivity]].
    cbn [negb User.data User.isNew User.modifiedPaths].
    replace (User._id (User.with_updatedAt (Some now) (User.with_lastLogin (Some now) u)))
      with (User._id u) by (now destruct u).
    destruct (existsb (Model.has_id (User._id u)) (Model.users w)) eqn:Hid;
      [|left; split; [discriminate | reflexivity]].
    right. exists em, pw, u, h, (Store.logged_in now u). repeat split; auto.
    + cbn. now destruct (Auth.expiresIn e).
    + right. repeat split; auto. cbn. now destruct (Auth.expiresIn e).
Qed.
End LoginEffect.

Section WriteEffects.

Context `{User.Bcrypt}.
Variables (now : Z) (rnd : string).

(** A change of password either answers something else than 200 and
    writes nothing, or has verified the current password; it then writes
    the cost-12 hash of the new password and updatedAt, unless the new
    password is the very text that is stored, in which case nothing is
    modified and nothing is written. *)
Lemma change_password_effect (req_user : Auth.payload) (b : Auth.body)
  (w : Model.db) :
  (Auth.status (fst (Auth.change_password now rnd req_user b w)) <> 200
   /\ snd (Auth.change_password now rnd req_user b w) = w)
  \/ exists cur new u h,
      b !! "currentPassword" = Some cur /\ b !! "newPassword" = Some new
      /\ 6 <= JS.strlen new
      /\ Model.connected w = true
      /\ List.find (Model.has_id (Auth.id req_user)) (Model.users w) = Some u
      /\ User.password u = Some h /\ User.compare cur h = true
      /\ Auth.status (fst (Auth.change_password now rnd req_user b w)) = 200
      /\ (h = new /\ snd (Auth.change_password now rnd req_user b w) = w
          \/ h <> new
             /\ snd (Auth.change_password now rnd req_user b w)
                = Model.with_users
                    (Model.replace_first (Model.has_id (User._id u))
                       (Store.rehashed now (User.hash new (User.genSalt 12 rnd)))
                       (Model.users w)) w).
Proof.
  unfold Auth.change_password, Model.findById, User.comparePassword, Model.hydrate.
  unfold_handler.
  destruct (b !! "currentPassword") as [cur|], (b !! "newPassword") as [new|];
    cbn [JS.truthy_opt from_option id negb orb];
    try (left; split; [discriminate | reflexivity]);
    try (destruct (negb (JS.truthy cur)); left; split; (discriminate || reflexivity)).
  destruct (negb (JS.truthy cur) || negb (JS.truthy new));
    [left; split; [discriminate | reflexivity]|].
  destruct (negb (Auth.validatePassword new)) eqn:Hnew;
    [left; split; [discriminate | reflexivity]|].
  destruct (Model.connected w) eqn:Hup;
    [|left; split; [discriminate | reflexivity]].
  destruct (List.find _ (Model.users w)) as [u|] eqn:Hfind;
    [|left; split; [discriminate | reflexivity]].
  cbn [fmap option_fmap option_map User.data].
  destruct (User.password u) as [h|] eqn:Hh;
    [|left; split; [discriminate | reflexivity]].
  destruct (User.compare cur h) eqn:Hcmp;
    [|left; split; [discriminate | reflexivity]].
  cbn [negb].
  decode_conditions.
  unfold Model.save, User.set_password. cbn [User.data]. rewrite Hh.
  destruct (bool_decide (Some h = Some new)) eqn:Hsame; decode_conditions.
  - (* the new password is the stored text: the path is not modified *)
    injection Hsame as ->.
    unfold User.timestamps. cbn [User.isNew User.modifiedPaths User.data].
    unfold User.pre_save, Model.validate_document.
    cbn [User.isModified User.modifiedPaths existsb negb User.isNew User.data orb].
    rewrite Hh, Hup.
    destruct (User.validate _ u);
      [|left; split; [discriminate | reflexivity]].
    right. exists cur, new, u, new. repeat split; auto.
  - unfold User.timestamps. cbn [User.isNew User.modifiedPaths User.data].
    unfold User.pre_save, Model.validate_document, User.markModified.
    cbn [User.isModified User.modifiedPaths existsb negb User.isNew User.data orb
         app String.eqb Ascii.eqb Bool.eqb andb].
    replace (User.password (User.with_password (Some new) u)) with (Some new)
      by reflexivity.
    destruct (User.validate _ _);
      [|left; split; [discriminate | reflexivity]].
    replace (User.password (User.with_updatedAt (Some now)
                              (User.with_password (Some new) u)))
      with (Some new) by reflexivity.
    rewrite (proj2 (Z.ltb_ge _ _) Hnew), Hup.
    cbn [negb User.isNew User.modifiedPaths User.data].
    replace (User._id (User.with_password _ (User.with_updatedAt _
                         (User.with_password (Some new) u))))
      with (User._id u) by reflexivity.
    destruct (existsb (Model.has_id (User._id u)) (Model.users w)) eqn:Hid;
      [|left; split; [discriminate | reflexivity]].
    right. exists cur, new, u, h. repeat split; auto.
    right. split; [congruence|]. reflexivity.
Qed.

(** The creation of a user by an administrator either answers something
    else than 201 and writes nothing, or appends the new document with its
    hashed password and the role of the body. *)
Lemma create_user_effect (req_user : Auth.payload) (oid : N) (b : Auth.body)
  (w : Model.db) :
  (Auth.status (fst (Auth.create_user now rnd req_user oid b w)) <> 201
   /\ snd (Auth.create_user now rnd req_user oid b w) = w)
  \/ exists nm em pw r,
      Auth.role req_user = Some "admin"
      /\ b !! "name" = Some nm /\ b !! "email" = Some em
      /\ b !! "password" = Some pw /\ b !! "role" = Some r
      /\ Auth.validateEmail em = true /\ 6 <= JS.strlen pw
      /\ Model.connected w = true
      /\ List.find (Model.has_email (Some (Model.cast_email em))) (Model.users w) = None
      /\ existsb (Model.has_id oid) (Model.users w) = false
      /\ let d := User.new_User oid
                    {| User.f_name := Some nm; User.f_email := Some em;
                       User.f_password := Some pw;
                       User.f_role := Some r;
                       User.f_department := b !! "department";
                       User.f_position := b !! "position" |} in
         let stored := User.with_password
                         (Some (User.hash pw (User.genSalt 12 rnd)))
                         (User.data (User.timestamps now d)) in
         User.validate true (User.data d) = []
         /\ Auth.create_user now rnd req_user oid b w
            = ({| Auth.status := 201; Auth.success := true;
                  Auth.message := "User created successfully";
                  Auth.token := None;
                  Auth.user := Some (User.with_password None stored);
                  Auth.errors := [] |},
               Model.with_users (Model.users w ++ [stored]) w).
Proof.
  assert (forall err,
             Auth.status (Auth.creation_failed "Server error while creating user" err)
             <> 201) as Hfail.
  { intros err.
    pose proof (creation_failed_status "Server error while creating user" err).
    cbv zeta in *. lia. }
  unfold Auth.create_user, Model.findOne.
  unfold Auth.try_catch, Auth.bind, Auth.guard, Auth.respond, Auth.ret,
    Auth.await, Auth.lift.
  destruct (bool_decide (Auth.role req_user = Some "admin")) eqn:Hadmin;
    cbn [negb]; [|left; split; [discriminate | reflexivity]].
  destruct (b !! "name") as [nm|], (b !! "email") as [em|],
    (b !! "password") as [pw|], (b !! "role") as [r|];
    cbn [JS.truthy_opt from_option id negb orb];
    rewrite ?orb_true_r;
    try (left; split; [discriminate | reflexivity]).
  destruct (negb (JS.truthy nm) || negb (JS.truthy em) || negb (JS.truthy pw)
            || negb (JS.truthy r));
    [left; split; [discriminate | reflexivity]|].
  destruct (negb (Auth.validateEmail em)) eqn:Hem;
    [left; split; [discriminate | reflexivity]|].
  destruct (negb (Auth.validatePassword pw)) eqn:Hpw;
    [left; split; [discriminate | reflexivity]|].
  destruct (Model.connected w) eqn:Hup;
    [|left; split; [apply Hfail | reflexivity]].
  destruct (List.find _ (Model.users w)) as [u|] eqn:Hfind;
    [left; split; [discriminate | reflexivity]|].
  cbn [fmap option_fmap option_map bool_decide decide_rel].
  rewrite bool_decide_eq_false_2 by (intros [? ?]; discriminate).
  rewrite (save_new now rnd _ pw) by (reflexivity || now apply isModified_new_User).
  destruct (User.validate true _) eqn:Hvalid;
    [|left; split; [apply Hfail | reflexivity]].
  decode_conditions.
  rewrite (proj2 (Z.ltb_ge _ _) Hpw), Hup. cbn [negb User.data User.new_User
    User._id User.email fmap option_fmap option_map].
  destruct (existsb _ (Model.users w)) eqn:Hclash;
    [left; split; [apply Hfail | reflexivity]|].
  apply existsb_orb_false in Hclash as [Hid _].
  right. exists nm, em, pw, r. do 10 (split; [assumption || reflexivity|]).
  cbv zeta. split; [assumption|]. reflexivity.
Qed.

End WriteEffects.

(** ** The configuration of the tokens and what is written *)

Section AnyEnv.

Context `{User.Bcrypt}.
Variables (now : Z) (rnd : string).

(** A login writes the same whatever the configuration of the tokens is,
    and when [JWT_EXPIRES_IN] is no timespan it answers 500 where it would
    have answered 200. *)
Lemma login_any_env (e e' : Auth.env) (b : Auth.body) (w : Model.db) :
  snd (Auth.login e now rnd b w) = snd (Auth.login e' now rnd b w)
  /\ (Auth.expiresIn e = Auth.NoSpan -> Auth.expiresIn e' <> Auth.NoSpan ->
      fst (Auth.login e now rnd b w)
      = if Auth.status (fst (Auth.login e' now rnd b w)) =? 200
        then Auth.failure 500 "Server error during authentication"
        else fst (Auth.login e' now rnd b w)).
Proof.
  unfold Auth.login, Auth.sign_user, Auth.sign. unfold_handler.
  destruct (negb (JS.truthy_opt (b !! "email")) || negb (JS.truthy_opt (b !! "password")));
    [split; reflexivity|].
  destruct (negb (Auth.validateEmail (default "" (b !! "email"))));
    [split; reflexivity|].
  destruct (negb (Auth.validatePassword (default "" (b !! "password"))));
    [split; reflexivity|].
  destruct (Model.findOne (default "" (b !! "email")) true w) as [[err|[user|]] w1];
    [split; reflexivity| |split; reflexivity].
  destruct (User.comparePassword user (default "" (b !! "password"))) as [err|[]];
    cbn [negb]; [split; reflexivity| |split; reflexivity].
  destruct (Model.save now rnd (User.set_lastLogin now user) w1) as [[err|saved] w2];
    [split; reflexivity|].
  split.
  - now destruct (Auth.expiresIn e), (Auth.expiresIn e').
  - intros -> He'. now destruct (Auth.expiresIn e').
Qed.

Lemma register_any_env (e e' : Auth.env) (oid : N) (b : Auth.body) (w : Model.db) :
  snd (Auth.register e now rnd oid b w) = snd (Auth.register e' now rnd oid b w)
  /\ (Auth.expiresIn e = Auth.NoSpan -> Auth.expiresIn e' <> Auth.NoSpan ->
      fst (Auth.register e now rnd oid b w)
      = if Auth.status (fst (Auth.register e' now rnd oid b w)) =? 201
        then Auth.failure 500 "Server error during registration"
        else fst (Auth.register e' now rnd oid b w)).
Proof.
  assert (forall err,
             (Auth.status (Auth.creation_failed "Server error during registration" err)
              =? 201) = false) as Hfail.
  { intros err. apply Z.eqb_neq.
    pose proof (creation_failed_status "Server error during registration" err).
    cbv zeta in *. lia. }
  unfold Auth.register, Auth.sign_user, Auth.sign.
  unfold Auth.try_catch, Auth.bind, Auth.guard, Auth.respond, Auth.ret,
    Auth.await, Auth.lift.
  destruct (negb (JS.truthy_opt (b !! "name")) || negb (JS.truthy_opt (b !! "email"))
            || negb (JS.truthy_opt (b !! "password")));
    [split; reflexivity|].
  destruct (negb (Auth.validateEmail (default "" (b !! "email"))));
    [split; reflexivity|].
  destruct (negb (Auth.validatePassword (default "" (b !! "password"))));
    [split; reflexivity|].
  destruct (Model.findOne (default "" (b !! "email")) false w) as [[err|found] w1];
    [split; [reflexivity|]; intros _ _; cbn [fst]; now rewrite Hfail|].
  destruct (bool_decide (is_Some found)); [split; reflexivity|].
  destruct (Model.save now rnd _ w1) as [[err|saved] w2].
  - split; [reflexivity|]. intros _ _. cbn [fst]. now rewrite Hfail.
  - split.
    + now destruct (Auth.expiresIn e), (Auth.expiresIn e').
    + intros -> He'. destruct (Auth.expiresIn e'); [|contradiction].
      reflexivity.
Qed.

End AnyEnv.

(** ** Invariants of the collection under the routes *)

Lemma existsb_false_not_elem {A B} `{EqDecision B} (h : A -> B) (x : B) (l : list A) :
  existsb (fun a => bool_decide (h a = x)) l = false -> x ∉ h <$> l.
Proof.
  induction l as [|a l IH]; cbn.
  - intros _. apply not_elem_of_nil.
  - rewrite orb_false_iff. intros [Ha Hl].
    apply bool_decide_eq_false in Ha.
    rewrite not_elem_of_cons. split; [congruence | auto].
Qed.

Lemma has_id_not_elem (i : N) (l : list User.user) :
  existsb (Model.has_id i) l = false -> i ∉ User._id <$> l.
Proof.
  induction l as [|a l IH]; cbn.
  - intros _. apply not_elem_of_nil.
  - rewrite orb_false_iff. unfold Model.has_id at 1. intros [Ha Hl].
    apply N.eqb_neq in Ha.
    rewrite not_elem_of_cons. split; [congruence | auto].
Qed.

Lemma NoDup_snoc {A} (l : list A) (x : A) :
  NoDup l -> x ∉ l -> NoDup (l ++ [x]).
Proof.
  intros Hl Hx. apply NoDup_app. split; [assumption|]. split.
  - intros y Hy Hin. apply list_elem_of_singleton in Hin. now subst.
  - apply NoDup_singleton.
Qed.

Section Invariants.

Context `{User.Bcrypt}.
Variables (e : Auth.env) (now : Z) (rnd : string).

Lemma hashed_logged_in (t : Z) (u : User.user) :
  Store.hashed u -> Store.hashed (Store.logged_in t u).
Proof. intros (p & r & Hlen & Hp). exists p, r. now destruct u. Qed.

Lemma unique_append (w : Model.db) (stored : User.user) :
  Store.unique w ->
  existsb (Model.has_id (User._id stored)) (Model.users w) = false ->
  List.find (Model.has_email (User.email stored)) (Model.users w) = None ->
  Store.unique (Model.with_users (Model.users w ++ [stored]) w).
Proof.
  intros [Hids Hemails] Hid Hemail. unfold Store.unique. cbn [Model.users Model.with_users].
  rewrite !fmap_app. cbn [fmap list_fmap]. split; apply NoDup_snoc; try assumption.
  - now apply has_id_not_elem.
  - apply find_none_existsb in Hemail. now apply existsb_false_not_elem in Hemail.
Qed.

Lemma unique_replace (w : Model.db) (f : User.user -> bool)
  (g : User.user -> User.user) :
  (forall u, User._id (g u) = User._id u) ->
  (forall u, User.email (g u) = User.email u) ->
  Store.unique w ->
  Store.unique (Model.with_users (Model.replace_first f g (Model.users w)) w).
Proof.
  intros Hid Hemail [Hids Hemails]. unfold Store.unique.
  cbn [Model.users Model.with_users].
  now rewrite !fmap_replace_first by assumption.
Qed.

(** X3: every route that writes keeps the stored passwords hashed: if each
    document of the collection holds the cost-12 hash of a password of at
    least 6 characters, so does each document after a login, a
    registration, a creation by an administrator or a change of
    password. *)
Theorem routes_keep_passwords_hashed (w : Model.db) :
  Store.all_hashed w ->
  (forall b, Store.all_hashed (snd (Auth.login e now rnd b w)))
  /\ (forall oid b, Store.all_hashed (snd (Auth.register e now rnd oid b w)))
  /\ (forall req_user oid b,
        Store.all_hashed (snd (Auth.create_user now rnd req_user oid b w)))
  /\ (forall req_user b,
        Store.all_hashed (snd (Auth.change_password now rnd req_user b w))).
Proof.
  unfold Store.all_hashed. intros Hw. split; [|split; [|split]].
  - intros b. destruct (login_effect e now rnd b w)
      as [[_ ->] | (em & pw & u & h & u' & _ & _ & _ & _ & _ & _ & _ & _ & _
                    & [(_ & _ & ->) | (_ & _ & ->)])];
      try assumption.
    apply Forall_replace_first; [|assumption].
    intros u0. apply hashed_logged_in.
  - intros oid b. destruct (register_effect e now rnd oid b w)
      as [[_ ->] | (nm & em & pw & _ & _ & _ & _ & Hlen & _ & _ & _ & _ & -> & _)];
      try assumption.
    cbn [snd Model.with_users Model.users]. apply Forall_app. split; [assumption|].
    constructor; [|constructor]. exists pw, rnd. now split.
  - intros req_user oid b. destruct (create_user_effect now rnd req_user oid b w)
      as [[_ ->] | (nm & em & pw & r & _ & _ & _ & _ & _ & _ & Hlen & _ & _ & _ & _ & ->)];
      try assumption.
    cbn [snd Model.with_users Model.users]. apply Forall_app. split; [assumption|].
    constructor; [|constructor]. exists pw, rnd. now split.
  - intros req_user b. destruct (change_password_effect now rnd req_user b w)
      as [[_ ->] | (cur & new & u & h & _ & _ & Hlen & _ & _ & _ & _ & _
                    & [[_ ->] | [_ ->]])];
      try assumption.
    apply Forall_replace_first; [|assumption].
    intros u' _. exists new, rnd. now split.
Qed.

(** X4: every route that writes keeps identifiers and e-mail addresses
    unique in the collection. *)
Theorem routes_keep_accounts_unique (w : Model.db) :
  Store.unique w ->
  (forall b, Store.unique (snd (Auth.login e now rnd b w)))
  /\ (forall oid b, Store.unique (snd (Auth.register e now rnd oid b w)))
  /\ (forall req_user oid b,
        Store.unique (snd (Auth.create_user now rnd req_user oid b w)))
  /\ (forall req_user b,
        Store.unique (snd (Auth.change_password now rnd req_user b w))).
Proof.
  intros Hw. split; [|split; [|split]].
  - intros b. destruct (login_effect e now rnd b w)
      as [[_ ->] | (em & pw & u & h & u' & _ & _ & _ & _ & _ & _ & _ & _ & _
                    & [(_ & _ & ->) | (_ & _ & ->)])];
      try assumption.
    apply unique_replace; [reflexivity | reflexivity | assumption].
  - intros oid b. destruct (register_effect e now rnd oid b w)
      as [[_ ->] | (nm & em & pw & _ & _ & _ & _ & _ & _ & Hemail & Hid & _ & -> & _)];
      try assumption.
    now apply unique_append.
  - intros req_user oid b. destruct (create_user_effect now rnd req_user oid b w)
      as [[_ ->] | (nm & em & pw & r & _ & _ & _ & _ & _ & _ & _ & _ & Hemail & Hid & _ & ->)];
      try assumption.
    cbn [snd]. now apply unique_append.
  - intros req_user b. destruct (change_password_effect now rnd req_user b w)
      as [[_ ->] | (cur & new & u & h & _ & _ & _ & _ & _ & _ & _ & _
                    & [[_ ->] | [_ ->]])];
      try assumption.
    apply unique_replace; [reflexivity | reflexivity | assumption].
Qed.

(** X5: a request that is not answered with the status of success writes
    nothing, with one exception. A creation by an administrator not
    answered 201 and a change of password not answered 200 leave the
    collection as it was. So do a login not answered 200 and a
    registration not answered 201 when the answer is not 500 either, or
    when [JWT_EXPIRES_IN] is a timespan. But the token is signed after the
    document is saved: when [JWT_EXPIRES_IN] is no timespan, a login or a
    registration that any other configuration answers with success is
    answered 500 and has written what the successful request writes. *)
Theorem failed_requests_write_nothing (w : Model.db) :
  (forall b,
      Auth.status (fst (Auth.login e now rnd b w)) <> 200 ->
      Auth.status (fst (Auth.login e now rnd b w)) <> 500
      \/ Auth.expiresIn e <> Auth.NoSpan ->
      snd (Auth.login e now rnd b w) = w)
  /\ (forall oid b,
        Auth.status (fst (Auth.register e now rnd oid b w)) <> 201 ->
        Auth.status (fst (Auth.register e now rnd oid b w)) <> 500
        \/ Auth.expiresIn e <> Auth.NoSpan ->
        snd (Auth.register e now rnd oid b w) = w)
  /\ (forall req_user oid b,
        Auth.status (fst (Auth.create_user now rnd req_user oid b w)) <> 201 ->
        snd (Auth.create_user now rnd req_user oid b w) = w)
  /\ (forall req_user b,
        Auth.status (fst (Auth.change_password now rnd req_user b w)) <> 200 ->
        snd (Auth.change_password now rnd req_user b w) = w)
  /\ (Auth.expiresIn e = Auth.NoSpan ->
      forall e', Auth.expiresIn e' <> Auth.NoSpan ->
      (forall b,
          Auth.status (fst (Auth.login e' now rnd b w)) = 200 ->
          Auth.status (fst (Auth.login e now rnd b w)) = 500
          /\ snd (Auth.login e now rnd b w) = snd (Auth.login e' now rnd b w))
      /\ (forall oid b,
            Auth.status (fst (Auth.register e' now rnd oid b w)) = 201 ->
            Auth.status (fst (Auth.register e now rnd oid b w)) = 500
            /\ snd (Auth.register e now rnd oid b w)
               = snd (Auth.register e' now rnd oid b w))).
Proof.
  split; [|split; [|split; [|split]]].
  - intros b Hs Hor. destruct (login_effect e now rnd b w)
      as [[_ Hw] | (em & pw & u & h & u' & _ & _ & _ & _ & _ & _ & _ & _ & Hr & _)];
      [assumption|].
    rewrite Hr in Hs, Hor. destruct (Auth.expiresIn e); [now elim Hs|].
    destruct Hor as [Hor | Hor]; now elim Hor.
  - intros oid b Hs Hor. destruct (register_effect e now rnd oid b w)
      as [[_ Hw] | (nm & em & pw & _ & _ & _ & _ & _ & _ & _ & _ & _ & _ & Hr)];
      [assumption|].
    rewrite Hr in Hs, Hor. destruct (Auth.expiresIn e); [now elim Hs|].
    destruct Hor as [Hor | Hor]; now elim Hor.
  - intros req_user oid b Hs. destruct (create_user_effect now rnd req_user oid b w)
      as [[_ Hw] | (nm & em & pw & r & _ & _ & _ & _ & _ & _ & _ & _ & _ & _ & _ & Hr)];
      [assumption|]. rewrite Hr in Hs. now elim Hs.
  - intros req_user b. apply change_password_atomic.
  - intros He e' He'. split.
    + intros b Hok.
      destruct (login_any_env now rnd e e' b w) as [Hsnd Hfst].
      split; [|exact Hsnd]. rewrite (Hfst He He'), Hok. reflexivity.
    + intros oid b Hok.
      destruct (register_any_env now rnd e e' oid b w) as [Hsnd Hfst].
      split; [|exact Hsnd]. rewrite (Hfst He He'), Hok. reflexivity.
Qed.

End Invariants.

Lemma routes_keep_passwords_hashed_witness :
  Store.all_hashed (H := Stub.bcrypt) Stub.alice_db.
Proof.
  apply (proj1 (proj2 (routes_keep_passwords_hashed (H := Stub.bcrypt)
                         Stub.env 1000 "salt" Stub.empty_db (Forall_nil_2 _)))
           1%N Stub.alice_body).
Defined.

Lemma routes_keep_accounts_unique_witness : Store.unique Stub.alice_db.
Proof.
  apply (proj1 (proj2 (routes_keep_accounts_unique (H := Stub.bcrypt)
                         Stub.env 1000 "salt" Stub.empty_db
                         (conj (NoDup_nil_2) (NoDup_nil_2))))
           1%N Stub.alice_body).
Defined.

(** With [JWT_EXPIRES_IN] set to a text that is no timespan, Alice's login
    with her password is answered 500 and has written the time of the
    login. *)
Lemma failed_requests_write_nothing_witness :
  let misconfigured :=
    {| Auth.JWT_SECRET := None; Auth.JWT_EXPIRES_IN := Some Auth.NoSpan |} in
  let r := Auth.login (H := Stub.bcrypt) misconfigured 2000 "salt"
             {[ "email" := "a@x.com"; "password" := "secret1" ]} Stub.alice_db in
  Auth.status (fst r) = 500
  /\ snd r = snd (Auth.login (H := Stub.bcrypt) Stub.env 2000 "salt"
                    {[ "email" := "a@x.com"; "password" := "secret1" ]}
                    Stub.alice_db).
Proof.
  refine (proj1 (proj2 (proj2 (proj2 (proj2
            (failed_requests_write_nothing (H := Stub.bcrypt)
               {| Auth.JWT_SECRET := None; Auth.JWT_EXPIRES_IN := Some Auth.NoSpan |}
               2000 "salt" Stub.alice_db)))) eq_refl Stub.env _)
            {[ "email" := "a@x.com"; "password" := "secret1" ]} _).
  - discriminate.
  - vm_compute. reflexivity.
Defined.
(** ** What the responses carry *)

Section Responses.

Context `{User.Bcrypt}.
Variables (e : Auth.env) (now : Z) (rnd : string).

(** X6: no response carries a password: the user of a response of login,
    registration, creation by an administrator or [/me] has no password
    field, and the responses of change-password and refresh-token carry no
    user at all. *)
Theorem responses_carry_no_password (w : Model.db) :
  (forall b u, Auth.user (fst (Auth.login e now rnd b w)) = Some u ->
               User.password u = None)
  /\ (forall oid b u, Auth.user (fst (Auth.register e now rnd oid b w)) = Some u ->
                      User.password u = None)
  /\ (forall req_user oid b u,
        Auth.user (fst (Auth.create_user now rnd req_user oid b w)) = Some u ->
        User.password u = None)
  /\ (forall req_user u, Auth.user (fst (Session.me req_user w)) = Some u ->
                         User.password u = None)
  /\ (forall req_user b,
        Auth.user (fst (Auth.change_password now rnd req_user b w)) = None)
  /\ (forall req_user,
        Auth.user (fst (Session.refresh_token e now req_user w)) = None).
Proof.
  split; [|split; [|split; [|split; [|split]]]].
  - intros b u. unfold Auth.login. unfold_handler.
    follow_branches; intros [= <-]; reflexivity.
  - intros oid b u. unfold Auth.register. unfold_handler.
    follow_branches; intros [= <-]; reflexivity.
  - intros req_user oid b u. unfold Auth.create_user. unfold_handler.
    follow_branches; intros [= <-]; reflexivity.
  - intros req_user u. unfold Session.me. unfold_handler.
    follow_branches; intros [= <-]; reflexivity.
  - intros req_user b. unfold Auth.change_password. unfold_handler. follow_branches.
  - intros req_user. unfold Session.refresh_token. unfold_handler. follow_branches.
Qed.

End Responses.

Lemma responses_carry_no_password_witness :
  exists u,
    Auth.user (fst (Auth.login (H := Stub.bcrypt) Stub.env 2000 "salt"
                      {[ "email" := "a@x.com"; "password" := "secret1" ]}
                      Stub.alice_db)) = Some u
    /\ User.password u = None.
Proof.
  eexists. split; [vm_compute; reflexivity|].
  apply (proj1 (responses_carry_no_password (H := Stub.bcrypt)
                  Stub.env 2000 "salt" Stub.alice_db)
           {[ "email" := "a@x.com"; "password" := "secret1" ]}).
  vm_compute. reflexivity.
Defined.


(** ** How the routes compose *)

Lemma validate_ext (with_password : bool) (u u' : User.user) :
  User.name u = User.name u' -> User.email u = User.email u' ->
  User.password u = User.password u' -> User.role u = User.role u' ->
  User.department u = User.department u' -> User.position u = User.position u' ->
  User.phoneNumber u = User.phoneNumber u' -> User.language u = User.language u' ->
  User.validate with_password u = User.validate with_password u'.
Proof.
  unfold User.validate. intros -> -> -> -> -> -> -> ->. reflexivity.
Qed.


Lemma truthy_of_length (s : string) : 6 <= JS.strlen s -> JS.truthy s = true.
Proof.
  destruct s; [|reflexivity]. unfold JS.strlen. cbn [String.length]. lia.
Qed.

(** A document that was valid stays valid when its password is replaced
    by a text of at least 6 characters. *)
Lemma validate_rehashed (u : User.user) (h : string) :
  User.validate true u = [] -> 6 <= JS.strlen h ->
  User.validate true (User.with_password (Some h) u) = [].
Proof.
  unfold User.validate. intros Hvalid Hlen.
  cbn [User.name User.email User.password User.role User.department
       User.position User.phoneNumber User.language User.with_password].
  repeat (apply app_eq_nil in Hvalid; destruct Hvalid as [? Hvalid]).
  repeat match goal with Hx : _ = [] |- _ => rewrite Hx; clear Hx end.
  cbv [User.run User.required User.minlength JS.truthy_opt].
  rewrite (truthy_of_length h Hlen), (proj2 (Z.ltb_ge _ _) Hlen). reflexivity.
Qed.

Section SaveLogin.
Context `{User.Bcrypt}.

(** [save] of a stored document, loaded with its password, on which the
    time of a login was set. *)
Lemma save_login (now : Z) (rnd : string) (u : User.user) (w : Model.db) :
  is_Some (User.password u) -> User.lastLogin u <> Some now ->
  Model.save now rnd (User.set_lastLogin now (Model.hydrate true u)) w
  = match User.validate true (User.with_lastLogin (Some now) u) with
    | (_ :: _) as errors => (inl (User.ValidationError errors), w)
    | [] =>
        if negb (Model.connected w) then (inl User.MongoNetworkError, w)
        else if existsb (Model.has_id (User._id u)) (Model.users w)
        then (inr {| User.data := Store.logged_in now u; User.isNew := false;
                     User.modifiedPaths := [] |},
              Model.with_users
                (Model.replace_first (Model.has_id (User._id u))
                   (Store.logged_in now) (Model.users w)) w)
        else (inl User.DocumentNotFoundError, w)
    end.
Proof.
  intros [h Hh] Hne.
  unfold Model.save, User.set_lastLogin, Model.hydrate. cbn [User.data].
  rewrite bool_decide_eq_false_2 by assumption.
  unfold Model.validate_document.
  cbn [User.data User.isNew User.modifiedPaths orb].
  replace (User.password (User.with_lastLogin (Some now) u)) with (Some h)
    by (now destruct u).
  rewrite bool_decide_eq_true_2 by eauto. rewrite orb_true_r.
  destruct (User.validate true _); [|reflexivity].
  destruct (negb (Model.connected w)); [reflexivity|].
  cbn. reflexivity.
Qed.

End SaveLogin.

Section Composition.

Context `{User.Bcrypt}.
Variables (e : Auth.env) (rnd : string).

(** A registration answered 201: the configuration of the tokens holds a
    timespan, and the document was appended. *)
Lemma register_success (now : Z) (oid : N) (b : Auth.body) (w : Model.db) :
  Auth.status (fst (Auth.register e now rnd oid b w)) = 201 ->
  exists nm em pw ttl,
    b !! "name" = Some nm /\ b !! "email" = Some em /\ b !! "password" = Some pw
    /\ Auth.validateEmail em = true /\ 6 <= JS.strlen pw
    /\ Model.connected w = true
    /\ List.find (Model.has_email (Some (Model.cast_email em))) (Model.users w) = None
    /\ existsb (Model.has_id oid) (Model.users w) = false
    /\ Auth.expiresIn e = Auth.Span ttl
    /\ let d := User.new_User oid
                  {| User.f_name := Some nm; User.f_email := Some em;
                     User.f_password := Some pw;
                     User.f_role := Some (JS.or_else (b !! "role") "user");
                     User.f_department := Auth.or_null (b !! "department");
                     User.f_position := Auth.or_null (b !! "position") |} in
       let stored := User.with_password
                       (Some (User.hash pw (User.genSalt 12 rnd)))
                       (User.data (User.timestamps now d)) in
       User.validate true (User.data d) = []
       /\ Auth.register e now rnd oid b w
          = ({| Auth.status := 201; Auth.success := true;
                Auth.message := "User registered successfully";
                Auth.token :=
                  Some (Auth.signed {| Auth.id := oid;
                                       Auth.role := User.role stored;
                                       Auth.email := User.email stored |}
                          (Auth.secret e) ttl now);
                Auth.user := Some (User.with_password None stored);
                Auth.errors := [] |},
             Model.with_users (Model.users w ++ [stored]) w).
Proof.
  intros Hs. destruct (register_effect e now rnd oid b w)
    as [[Hne _] | (nm & em & pw & Hnm & Hem & Hpw & Hvem & Hlen & Hup & Hnone & Hid
                   & Hvalid & Hsnd & Hfst)];
    [contradiction|].
  cbv zeta in Hvalid, Hsnd, Hfst. rewrite Hfst in Hs.
  destruct (Auth.expiresIn e) as [ttl|] eqn:Hexp; [|discriminate].
  exists nm, em, pw, ttl. do 9 (split; [assumption || reflexivity|]).
  cbv zeta. split; [assumption|].
  rewrite (surjective_pairing (Auth.register e now rnd oid b w)).
  now rewrite Hfst, Hsnd.
Qed.

(** X7: an address that is registered cannot be registered again: after a
    registration answered 201, a second well-formed registration under the
    same address, in any casing, is answered 409 and writes nothing. *)
Theorem register_twice_conflicts (now now' : Z) (rnd' : string) (oid oid' : N)
  (b b' : Auth.body) (w : Model.db) (em nm' em' pw' : string) :
  Auth.status (fst (Auth.register e now rnd oid b w)) = 201 ->
  b !! "email" = Some em ->
  b' !! "name" = Some nm' -> JS.truthy nm' = true ->
  b' !! "email" = Some em' -> Auth.validateEmail em' = true ->
  JS.toLowerCase em' = JS.toLowerCase em ->
  b' !! "password" = Some pw' -> 6 <= JS.strlen pw' ->
  Auth.register e now' rnd' oid' b' (snd (Auth.register e now rnd oid b w))
  = (Auth.failure 409 "User already exists with this email",
     snd (Auth.register e now rnd oid b w)).
Proof.
  intros Hs Hem Hnm' Htnm' Hem' Hvem' Hlow Hpw' Hlen'.
  destruct (register_success now oid b w Hs)
    as (nm & em0 & pw & ttl & _ & Hem0 & _ & Hvem & _ & Hup & Hnone & _ & _ & _ & Hr).
  rewrite Hem in Hem0. injection Hem0 as <-.
  assert (Model.cast_email em' = Model.cast_email em) as Hcast.
  { rewrite (cast_email_valid em Hvem).
    rewrite (cast_email_valid em' Hvem').
    exact Hlow. }
  rewrite Hr. cbn [snd].
  unfold Auth.register at 1, Model.findOne. unfold_handler.
  rewrite Hnm', Hem', Hpw'. cbn [JS.truthy_opt from_option id].
  assert (JS.truthy em' = true) as -> by (now destruct em').
  rewrite Htnm', (truthy_of_length pw' Hlen'), Hvem'.
  rewrite (proj2 (validatePassword_length pw') Hlen').
  cbn [negb orb Model.connected Model.with_users Model.users]. rewrite Hup.
  rewrite Hcast.
  erewrite find_snoc; [reflexivity | exact Hnone |].
  unfold Model.has_email. apply bool_decide_eq_true. reflexivity.
Qed.

End Composition.

Lemma register_twice_conflicts_witness :
  Auth.register (H := Stub.bcrypt) Stub.env 3000 "salt2" 2%N
    {[ "name" := "Mallory"; "email" := "A@X.COM"; "password" := "hunter22" ]}
    Stub.alice_db
  = (Auth.failure 409 "User already exists with this email", Stub.alice_db).
Proof.
  apply (register_twice_conflicts (H := Stub.bcrypt) Stub.env "salt" 1000 3000 "salt2"
           1%N 2%N Stub.alice_body
           {[ "name" := "Mallory"; "email" := "A@X.COM"; "password" := "hunter22" ]}
           Stub.empty_db "a@x.com" "Mallory" "A@X.COM" "hunter22");
    try reflexivity.
  vm_compute. discriminate.
Defined.

Section LoginAfterRegister.

Context `{User.Bcrypt} {sound : User.BcryptSound H}.
Variables (e : Auth.env) (rnd : string).

(** X8: who has registered can log in: after a registration answered 201,
    a login with the same password and the same address, in any casing,
    is answered 200. The hash is taken to have at least 6 characters, as
    the stored password is validated again when the login is saved. *)
Theorem login_after_register (now now' : Z) (rnd' : string) (oid : N)
  (b b' : Auth.body) (w : Model.db) (em em' pw : string) :
  (forall p s, 6 <= JS.strlen (User.hash p s)) ->
  Auth.status (fst (Auth.register e now rnd oid b w)) = 201 ->
  b !! "email" = Some em -> b !! "password" = Some pw ->
  b' !! "email" = Some em' -> Auth.validateEmail em' = true ->
  JS.toLowerCase em' = JS.toLowerCase em ->
  b' !! "password" = Some pw ->
  Auth.status
    (fst (Auth.login e now' rnd' b' (snd (Auth.register e now rnd oid b w)))) = 200.
Proof.
  intros Hhash Hs Hem Hpw Hem' Hvem' Hlow Hpw'.
  destruct (register_success e rnd now oid b w Hs)
    as (nm & em0 & pw0 & ttl & _ & Hem0 & Hpw0 & Hvem & Hlen & Hup & Hnone & Hid
        & Hexp & Hvalid & Hr).
  rewrite Hem in Hem0. injection Hem0 as <-.
  rewrite Hpw in Hpw0. injection Hpw0 as <-.
  assert (Model.cast_email em' = Model.cast_email em) as Hcast.
  { rewrite (cast_email_valid em Hvem).
    rewrite (cast_email_valid em' Hvem').
    exact Hlow. }
  cbv zeta in Hvalid, Hr. rewrite Hr. cbn [snd].
  match goal with
  | |- context [Model.with_users (_ ++ [?s]) w] => set (stored := s)
  end.
  unfold Auth.login, Model.findOne, User.comparePassword, Auth.sign_user, Auth.sign.
  unfold_handler.
  rewrite Hem', Hpw'. cbn [JS.truthy_opt from_option id].
  assert (JS.truthy em' = true) as -> by (now destruct em').
  rewrite (truthy_of_length pw Hlen), Hvem'.
  rewrite (proj2 (validatePassword_length pw) Hlen).
  cbn [negb orb Model.connected Model.with_users Model.users]. rewrite Hup.
  rewrite Hcast.
  erewrite find_snoc;
    [|exact Hnone | unfold Model.has_email; apply bool_decide_eq_true; reflexivity].
  cbn [fmap option_fmap option_map].
  replace (User.password (User.data (Model.hydrate true stored)))
    with (Some (User.hash pw (User.genSalt 12 rnd))) by reflexivity.
  rewrite User.compare_hash. cbn [negb].
  rewrite save_login by (subst stored; cbn; (eauto || discriminate)).
  rewrite (validate_ext true _
             (User.with_password (Some (User.hash pw (User.genSalt 12 rnd)))
                (User.data (User.new_User oid
                   {| User.f_name := Some nm; User.f_email := Some em;
                      User.f_password := Some pw;
                      User.f_role := Some (JS.or_else (b !! "role") "user");
                      User.f_department := Auth.or_null (b !! "department");
                      User.f_position := Auth.or_null (b !! "position") |}))))
    by reflexivity.
  rewrite (validate_rehashed _ _ Hvalid (Hhash _ _)).
  cbn [Model.connected Model.with_users Model.users]. rewrite Hup. cbn [negb].
  rewrite existsb_app. cbn [existsb]. unfold Model.has_id at 2.
  rewrite N.eqb_refl, orb_true_r.
  rewrite Hexp. reflexivity.
Qed.

End LoginAfterRegister.

Lemma stub_hash_length (p : string) (s : User.salt) :
  6 <= JS.strlen (User.hash (Bcrypt := Stub.bcrypt) p s).
Proof.
  cbn [User.hash Stub.bcrypt]. unfold JS.strlen.
  rewrite !append_cons, append_nil_l. cbn [String.length]. lia.
Qed.

Lemma login_after_register_witness :
  Auth.status
    (fst (Auth.login (H := Stub.bcrypt) Stub.env 2000 "salt2"
            {[ "email" := "A@X.com"; "password" := "secret1" ]} Stub.alice_db)) = 200.
Proof.
  apply (login_after_register (H := Stub.bcrypt) (sound := stub_sound)
           Stub.env "salt" 1000 2000 "salt2" 1%N Stub.alice_body
           {[ "email" := "A@X.com"; "password" := "secret1" ]}
           Stub.empty_db "a@x.com" "A@X.com" "secret1" stub_hash_length);
    reflexivity.
Defined.

Section SessionAfterRegister.

Context `{User.Bcrypt}.
Variables (e : Auth.env) (rnd : string).


(** The read routes never write, whatever the token and the
    collection, and they answer 404 for a token whose account is not
    stored. *)
Theorem session_routes_read_only (now : Z) (req_user : Auth.payload) (w : Model.db) :
  snd (Session.me req_user w) = w
  /\ snd (Session.refresh_token e now req_user w) = w
  /\ (Model.connected w = true ->
      List.find (Model.has_id (Auth.id req_user)) (Model.users w) = None ->
      Session.me req_user w = (Auth.failure 404 "User not found", w)
      /\ Session.refresh_token e now req_user w
         = (Auth.failure 404 "User not found", w)).
Proof.
  unfold Session.me, Session.refresh_token, Model.findById. unfold_handler.
  split; [follow_branches|]. split; [follow_branches|].
  intros -> ->. split; reflexivity.
Qed.

End SessionAfterRegister.


Section ChangeThenVerify.

Context `{User.Bcrypt} {sound : User.BcryptSound H} {limit : User.BcryptTruncates H}.
Variables (now : Z) (rnd : string).

(** X10: after a change of password answered 200, the account read back by
    its identifier stores the cost-12 hash of the new password, with the
    time of the change as updatedAt, and verifies the new password, and
    with it every candidate of 72 bytes or more that agrees with it on the
    first 72 bytes, the only ones the library reads. Which other candidates
    are refused is left to the library. The one exception is a new password
    equal to the stored text itself, for which nothing is written. *)
Theorem change_password_then_verify (req_user : Auth.payload) (b : Auth.body)
  (w : Model.db) :
  Auth.status (fst (Auth.change_password now rnd req_user b w)) = 200 ->
  exists new h,
    b !! "newPassword" = Some new
    /\ (User.password <$> List.find (Model.has_id (Auth.id req_user)) (Model.users w))
       = Some (Some h)
    /\ (h = new -> snd (Auth.change_password now rnd req_user b w) = w)
    /\ (h <> new ->
        exists d,
          Model.findById (Auth.id req_user) true
            (snd (Auth.change_password now rnd req_user b w))
          = (inr (Some d), snd (Auth.change_password now rnd req_user b w))
          /\ User.password (User.data d)
             = Some (User.hash new (User.genSalt 12 rnd))
          /\ User.updatedAt (User.data d) = Some now
          /\ User.comparePassword d new = inr true
          /\ forall q,
              72 <= JS.strlen (User.utf8 new) -> 72 <= JS.strlen (User.utf8 q) ->
              User.key72 q = User.key72 new ->
              User.comparePassword d q = inr true).
Proof.
  intros Hs.
  destruct (change_password_effect now rnd req_user b w)
    as [[Hne _] | (cur & new & u & h & _ & Hnew & _ & Hup & Hfind & Hh & _ & _ & Heff)];
    [contradiction|].
  exists new, h. split; [assumption|]. split; [now rewrite Hfind; cbn; rewrite Hh|].
  assert (User._id u = Auth.id req_user) as Hid.
  { apply find_some in Hfind as [_ Hid]. now apply N.eqb_eq in Hid. }
  destruct Heff as [[-> Hw] | [Hneq Hw]].
  - split; [intros _; exact Hw | intros Hneq; now elim Hneq].
  - split; [intros Heq; contradiction|]. intros _.
    rewrite Hw. unfold Model.findById.
    cbn [Model.connected Model.with_users Model.users]. rewrite Hup, Hid.
    rewrite find_replace_first by (intros u' Hu'; exact Hu').
    rewrite Hfind. cbn [fmap option_fmap option_map].
    eexists. split; [reflexivity|]. split; [reflexivity|]. split; [reflexivity|].
    split.
    + now apply (comparePassword_own _ new (User.genSalt 12 rnd)).
    + intros q Hl Hq Hkey.
      now apply (comparePassword_key72 _ new q (User.genSalt 12 rnd)).
Qed.

End ChangeThenVerify.

Section LoginWrites.

Context `{User.Bcrypt}.
Variables (e : Auth.env) (now : Z) (rnd : string).


End LoginWrites.

Lemma change_password_then_verify_witness :
  exists d,
    Model.findById 1%N true
      (snd (Auth.change_password (H := Stub.bcrypt) 2000 "salt2"
              {| Auth.id := 1%N; Auth.role := Some "user"; Auth.email := Some "a@x.com" |}
              {[ "currentPassword" := "secret1"; "newPassword" := "secret2" ]}
              Stub.alice_db))
    = (inr (Some d),
       snd (Auth.change_password (H := Stub.bcrypt) 2000 "salt2"
              {| Auth.id := 1%N; Auth.role := Some "user"; Auth.email := Some "a@x.com" |}
              {[ "currentPassword" := "secret1"; "newPassword" := "secret2" ]}
              Stub.alice_db))
    /\ User.comparePassword (H := Stub.bcrypt) d "secret2" = inr true.
Proof.
  assert (Auth.status
            (fst (Auth.change_password (H := Stub.bcrypt) 2000 "salt2"
                    {| Auth.id := 1%N; Auth.role := Some "user";
                       Auth.email := Some "a@x.com" |}
                    {[ "currentPassword" := "secret1"; "newPassword" := "secret2" ]}
                    Stub.alice_db)) = 200) as Hs by (vm_compute; reflexivity).
  destruct (change_password_then_verify (H := Stub.bcrypt) (sound := stub_sound)
              (limit := stub_truncates) 2000 "salt2" _ _ _ Hs)
    as (new & h & Hnew & Hh & _ & Hread).
  vm_compute in Hnew, Hh. injection Hnew as <-. injection Hh as <-.
  destruct (Hread ltac:(discriminate)) as (d & Hfind & _ & _ & Hcmp & _).
  exists d. split; assumption.
Defined.


(** ** What a registration stores *)

Lemma validate_name (u : User.user) :
  User.validate true u = [] ->
  exists nm, User.name u = Some nm /\ 2 <= JS.strlen nm <= 50.
Proof.
  unfold User.validate. intros Hvalid.
  repeat (apply app_eq_nil in Hvalid; destruct Hvalid as [? Hvalid]).
  match goal with
  | Hn : User.run _ (User.name u) = [] |- _ => revert Hn
  end.
  cbv [User.run User.required User.minlength User.maxlength JS.truthy_opt].
  destruct (User.name u) as [nm|]; [|discriminate].
  destruct (JS.truthy nm); [|discriminate].
  destruct (JS.strlen nm <? 2) eqn:Hmin; [discriminate|].
  destruct (50 <? JS.strlen nm) eqn:Hmax; [discriminate|].
  intros _. exists nm. split; [reflexivity|].
  apply Z.ltb_ge in Hmin, Hmax. lia.
Qed.

Section Registered.

Context `{User.Bcrypt}.
Variables (e : Auth.env) (now : Z) (rnd : string).

(** X12: what a registration answered 201 has stored: one more document,
    under the identifier it was given, with the name trimmed and of 2 to
    50 characters, the address in lower case, the cost-12 hash of the
    password, and as a new account active, never logged in, with an
    unverified address, and created and updated at the time of the
    registration. *)
Theorem register_stores (oid : N) (b : Auth.body) (w : Model.db) :
  Auth.status (fst (Auth.register e now rnd oid b w)) = 201 ->
  exists nm em pw u,
    b !! "name" = Some nm /\ b !! "email" = Some em /\ b !! "password" = Some pw
    /\ Model.users (snd (Auth.register e now rnd oid b w)) = (Model.users w ++ [u])%list
    /\ User._id u = oid
    /\ User.name u = Some (JS.trim nm) /\ 2 <= JS.strlen (JS.trim nm) <= 50
    /\ User.email u = Some (JS.toLowerCase em)
    /\ User.password u = Some (User.hash pw (User.genSalt 12 rnd))
    /\ User.isActive u = true /\ User.lastLogin u = None
    /\ User.emailVerified u = false
    /\ User.createdAt u = Some now /\ User.updatedAt u = Some now.
Proof.
  intros Hs.
  destruct (register_success e rnd now oid b w Hs)
    as (nm & em & pw & ttl & Hnm & Hem & Hpw & Hvem & _ & _ & _ & _ & _ & Hvalid & Hr).
  cbv zeta in Hvalid, Hr.
  exists nm, em, pw. eexists. rewrite Hr. cbn [snd Model.users Model.with_users].
  do 3 (split; [assumption|]). do 2 (split; [reflexivity|]).
  destruct (validate_name _ Hvalid) as (nm' & Hname & Hbounds).
  cbn [User.name User.data User.new_User User.f_name fmap option_fmap option_map] in Hname.
  injection Hname as <-.
  split; [reflexivity|]. split; [exact Hbounds|].
  split; [|repeat split; reflexivity].
  cbn. f_equal. exact (cast_email_valid em Hvem).
Qed.

(** X13: a name made of white space only passes the check of the route, as
    it is a non-empty string, but is refused by the schema once trimmed:
    the registration is answered 400 with the message of the schema and
    writes nothing. *)
Theorem register_blank_name (oid : N) (b : Auth.body) (w : Model.db)
  (nm em pw : string) :
  b !! "name" = Some nm -> JS.truthy nm = true -> JS.trim nm = "" ->
  b !! "email" = Some em -> Auth.validateEmail em = true ->
  b !! "password" = Some pw -> 6 <= JS.strlen pw ->
  Model.connected w = true ->
  List.find (Model.has_email (Some (Model.cast_email em))) (Model.users w) = None ->
  Auth.status (fst (Auth.register e now rnd oid b w)) = 400
  /\ In "Name is required" (Auth.errors (fst (Auth.register e now rnd oid b w)))
  /\ snd (Auth.register e now rnd oid b w) = w.
Proof.
  intros Hnm Htnm Htrim Hem Hvem Hpw Hlen Hup Hnone.
  unfold Auth.register, Model.findOne, Model.save. unfold_handler.
  rewrite Hnm, Hem, Hpw. cbn [JS.truthy_opt from_option id].
  assert (JS.truthy em = true) as -> by (now destruct em).
  rewrite Htnm, (truthy_of_length pw Hlen), Hvem.
  rewrite (proj2 (validatePassword_length pw) Hlen).
  cbn [negb orb]. rewrite Hup, Hnone.
  cbn [fmap option_fmap option_map].
  rewrite bool_decide_eq_false_2 by (intros [? ?]; discriminate).
  unfold Model.validate_document, User.validate.
  cbn [User.data User.new_User User.name User.f_name fmap option_fmap option_map
       User.isNew orb].
  rewrite Htrim.
  cbv [User.run User.required JS.truthy_opt JS.truthy].
  cbn [app fst snd Auth.status Auth.errors In].
  repeat split; auto.
Qed.

End Registered.

Lemma register_stores_witness :
  exists nm em pw u,
    Stub.alice_body !! "name" = Some nm /\ Stub.alice_body !! "email" = Some em
    /\ Stub.alice_body !! "password" = Some pw
    /\ Model.users
         (snd (Auth.register (H := Stub.bcrypt) Stub.env 1000 "salt" 1%N
                 Stub.alice_body Stub.empty_db))
       = (Model.users Stub.empty_db ++ [u])%list
    /\ User._id u = 1%N
    /\ User.name u = Some (JS.trim nm) /\ 2 <= JS.strlen (JS.trim nm) <= 50
    /\ User.email u = Some (JS.toLowerCase em)
    /\ User.password u
       = Some (User.hash (Bcrypt := Stub.bcrypt) pw (User.genSalt 12 "salt"))
    /\ User.isActive u = true /\ User.lastLogin u = None
    /\ User.emailVerified u = false
    /\ User.createdAt u = Some 1000 /\ User.updatedAt u = Some 1000.
Proof.
  apply (register_stores (H := Stub.bcrypt) Stub.env 1000 "salt" 1%N
           Stub.alice_body Stub.empty_db).
  reflexivity.
Defined.

Lemma register_blank_name_witness :
  Auth.status
    (fst (Auth.register (H := Stub.bcrypt) Stub.env 3000 "salt2" 2%N
            {[ "name" := "   "; "email" := "b@x.com"; "password" := "secret1" ]}
            Stub.alice_db)) = 400
  /\ In "Name is required"
       (Auth.errors
          (fst (Auth.register (H := Stub.bcrypt) Stub.env 3000 "salt2" 2%N
                  {[ "name" := "   "; "email" := "b@x.com"; "password" := "secret1" ]}
                  Stub.alice_db)))
  /\ snd (Auth.register (H := Stub.bcrypt) Stub.env 3000 "salt2" 2%N
            {[ "name" := "   "; "email" := "b@x.com"; "password" := "secret1" ]}
            Stub.alice_db) = Stub.alice_db.
Proof.
  apply (register_blank_name (H := Stub.bcrypt) Stub.env 3000 "salt2" 2%N
           {[ "name" := "   "; "email" := "b@x.com"; "password" := "secret1" ]}
           Stub.alice_db "   " "b@x.com" "secret1"); try reflexivity.
  vm_compute. discriminate.
Defined.

(** ** An update that names a password *)

Section UpdatePassword.

Context `{User.Bcrypt}.

(** X14: an update through [findOneAndUpdate] that gives a non-empty
    password directly is refused with the error of the middleware when
    the password is shorter than 6 characters, and nothing is written;
    whenever such an update goes through, the password was of at least 6
    characters and what is written is its cost-12 hash. *)
Theorem findOneAndUpdate_direct_password (filter : User.user -> bool)
  (upd : User.update) (now : Z) (rnd : string) (w : Model.db) (p : string) :
  User.direct upd !! "password" = Some p -> JS.truthy p = true ->
  (JS.strlen p < 6 ->
     Model.findOneAndUpdate filter upd now rnd w
     = (inl (User.Error "Password must be at least 6 characters long"), w))
  /\ (forall d w',
        Model.findOneAndUpdate filter upd now rnd w = (inr (Some d), w') ->
        6 <= JS.strlen p
        /\ exists u written,
            List.find filter (Model.users w) = Some u
            /\ Model.users w'
               = Model.replace_first filter (fun _ => written) (Model.users w)
            /\ User.password written = Some (User.hash p (User.genSalt 12 rnd))).
Proof.
  intros Hp Ht.
  destruct (pre_findOneAndUpdate_direct rnd upd p Hp Ht) as [Hlong Hshort].
  split.
  - intros Hlen. specialize (Hshort Hlen). unfold Model.findOneAndUpdate.
    destruct (User.pre_findOneAndUpdate rnd upd) as [upd' calls].
    cbn [snd] in Hshort. now rewrite Hshort.
  - intros d w' Hres.
    destruct (Z.lt_ge_cases (JS.strlen p) 6) as [Hlt | Hge].
    + specialize (Hshort Hlt). unfold Model.findOneAndUpdate in Hres.
      destruct (User.pre_findOneAndUpdate rnd upd) as [upd' calls].
      cbn [snd] in Hshort. rewrite Hshort in Hres. discriminate.
    + split; [assumption|]. specialize (Hlong Hge).
      unfold Model.findOneAndUpdate in Hres. rewrite Hlong in Hres.
      cbn [User.first_next] in Hres.
      destruct (negb (Model.connected w)); [discriminate|].
      destruct (List.find filter (Model.users w)) as [u|]; [|discriminate].
      destruct (existsb _ (Model.users w)); [discriminate|].
      injection Hres as _ <-.
      eexists. eexists. split; [reflexivity|]. split; [reflexivity|].
      unfold Model.apply_update, Model.effective, Model.assign.
      cbn [User.password User.direct User.dollar_set User.with_updatedAt].
      erewrite lookup_union_Some_l; [reflexivity|]. apply lookup_insert_eq.
Qed.

End UpdatePassword.

Lemma findOneAndUpdate_direct_password_witness :
  Model.findOneAndUpdate (H := Stub.bcrypt) (Model.has_id 1%N)
    {| User.direct := {[ "password" := "abc" ]}; User.dollar_set := ∅ |}
    3000 "salt2" Stub.alice_db
  = (inl (User.Error "Password must be at least 6 characters long"), Stub.alice_db).
Proof.
  refine (proj1 (findOneAndUpdate_direct_password (H := Stub.bcrypt) (Model.has_id 1%N)
                   {| User.direct := {[ "password" := "abc" ]}; User.dollar_set := ∅ |}
                   3000 "salt2" Stub.alice_db "abc" _ _) _).
  - vm_compute. reflexivity.
  - reflexivity.
  - vm_compute. reflexivity.
Defined.

(** ** The order of the roles *)

Lemma lookup_rank_roleValues (r : string) :
  In r User.roleValues <-> is_Some (User.lookup_rank User.roleHierarchy r).
Proof.
  split.
  - cbn. intros [<- | [<- | [<- | [<- | []]]]]; cbn; eauto.
  - intros [n Hn]. unfold User.roleHierarchy in Hn. cbn [User.lookup_rank] in Hn.
    destruct (String.eqb "user" r) eqn:E1;
      [apply String.eqb_eq in E1; subst; cbn; tauto|].
    destruct (String.eqb "support" r) eqn:E2;
      [apply String.eqb_eq in E2; subst; cbn; tauto|].
    destruct (String.eqb "manager" r) eqn:E3;
      [apply String.eqb_eq in E3; subst; cbn; tauto|].
    destruct (String.eqb "admin" r) eqn:E4;
      [apply String.eqb_eq in E4; subst; cbn; tauto|].
    discriminate.
Qed.

Lemma leb_trans (s1 s2 s3 : string) :
  String.leb s1 s2 = true -> String.leb s2 s3 = true -> String.leb s1 s3 = true.
Proof.
  intros H12 H23. apply Is_true_true.
  apply (transitivity (R := String.le) (y := s2)); now apply Is_true_true.
Qed.

Lemma ge_trans (a b c : JS.value) :
  JS.ge a b = true -> JS.ge b c = true -> JS.ge a c = true.
Proof.
  destruct a as [x|s|], b as [y|t|], c as [z|u|]; cbn; try discriminate.
  - rewrite !Z.leb_le. lia.
  - intros Hts Hut. now apply (leb_trans u t s).
Qed.

(** What [roleHierarchy[r]] finds, by the kind of the name. *)
Lemma roleHierarchy_at_schema (r : string) :
  In r User.roleValues ->
  exists n, User.roleHierarchy_at (Some r) = JS.VNumber n.
Proof.
  intros Hin. apply lookup_rank_roleValues in Hin as [n Hn].
  exists n. unfold User.roleHierarchy_at. now rewrite Hn.
Qed.

Lemma roleHierarchy_at_inherited (r : string) :
  In r JS.Object_prototype ->
  User.roleHierarchy_at (Some r) = JS.VObject (JS.inherited_text r).
Proof.
  unfold JS.Object_prototype. cbn [In]. intros Hin.
  repeat (destruct Hin as [<- | Hin]; [reflexivity|]). contradiction.
Qed.

Lemma roleHierarchy_at_other (r : string) :
  ~ In r User.roleValues ->
  User.roleHierarchy_at (Some r) = JS.VUndefined
  \/ exists t, User.roleHierarchy_at (Some r) = JS.VObject t.
Proof.
  intros Hnot. unfold User.roleHierarchy_at.
  destruct (User.lookup_rank User.roleHierarchy r) as [n|] eqn:Hn.
  - elim Hnot. apply lookup_rank_roleValues. eauto.
  - destruct (existsb _ _); eauto.
Qed.

Lemma roleHierarchy_at_unknown (r : string) :
  ~ In r User.roleValues -> ~ In r JS.Object_prototype ->
  User.roleHierarchy_at (Some r) = JS.VUndefined.
Proof.
  intros Hnot Hproto. unfold User.roleHierarchy_at.
  destruct (User.lookup_rank User.roleHierarchy r) as [n|] eqn:Hn.
  - elim Hnot. apply lookup_rank_roleValues. eauto.
  - destruct (existsb (String.eqb r) JS.Object_prototype) eqn:Hin; [|reflexivity].
    apply existsb_exists in Hin as (x & Hx & Heq).
    apply String.eqb_eq in Heq. now subst.
Qed.

(** X15: [hasRole] orders the roles of the schema: every role of the schema
    has a rank; a document has its own role and, by transitivity, every
    role below one it has; an administrator has every role of the schema.
    A role of the schema never has, and is never had by, a name outside
    the schema, and a name that is neither of the schema nor inherited from
    [Object.prototype] is had by no document. But [roleHierarchy] is an
    object literal: two names inherited from [Object.prototype] are
    compared by the texts of what they inherit, so that a document whose
    role is such a name has that very name as a role. *)
Theorem hasRole_order :
  (forall r, In r User.roleValues <-> is_Some (User.lookup_rank User.roleHierarchy r))
  /\ (forall d r, User.role (User.data d) = Some r -> In r User.roleValues ->
                  User.hasRole d r = true)
  /\ (forall d1 d2 r2 r3,
        User.role (User.data d2) = Some r2 ->
        User.hasRole d1 r2 = true -> User.hasRole d2 r3 = true ->
        User.hasRole d1 r3 = true)
  /\ (forall d r, User.role (User.data d) = Some "admin" -> In r User.roleValues ->
                  User.hasRole d r = true)
  /\ (forall d r r', User.role (User.data d) = Some r -> In r User.roleValues ->
                     ~ In r' User.roleValues -> User.hasRole d r' = false)
  /\ (forall d r r', User.role (User.data d) = Some r -> ~ In r User.roleValues ->
                     In r' User.roleValues -> User.hasRole d r' = false)
  /\ (forall d r', User.role (User.data d) = None -> User.hasRole d r' = false)
  /\ (forall d r', ~ In r' User.roleValues -> ~ In r' JS.Object_prototype ->
                   User.hasRole d r' = false)
  /\ (forall d r r', User.role (User.data d) = Some r ->
                     In r JS.Object_prototype -> In r' JS.Object_prototype ->
                     User.hasRole d r'
                     = String.leb (JS.inherited_text r') (JS.inherited_text r))
  /\ (forall d r, User.role (User.data d) = Some r -> In r JS.Object_prototype ->
                  User.hasRole d r = true).
Proof.
  split; [exact lookup_rank_roleValues|].
  split; [|split; [|split; [|split; [|split; [|split; [|split; [|split]]]]]]].
  - intros d r Hr Hin. destruct (roleHierarchy_at_schema r Hin) as [n Hn].
    unfold User.hasRole. rewrite Hr, Hn. apply Z.leb_refl.
  - intros d1 d2 r2 r3 Hr2. unfold User.hasRole. rewrite Hr2. apply ge_trans.
  - intros d r Hr Hin. unfold User.hasRole. rewrite Hr.
    cbn in Hin. destruct Hin as [<- | [<- | [<- | [<- | []]]]]; reflexivity.
  - intros d r r' Hr Hin Hnot. unfold User.hasRole. rewrite Hr.
    destruct (roleHierarchy_at_schema r Hin) as [n ->].
    now destruct (roleHierarchy_at_other r' Hnot) as [-> | [t ->]].
  - intros d r r' Hr Hnot Hin. unfold User.hasRole. rewrite Hr.
    destruct (roleHierarchy_at_schema r' Hin) as [n ->].
    now destruct (roleHierarchy_at_other r Hnot) as [-> | [t ->]].
  - intros d r' Hr. unfold User.hasRole. now rewrite Hr.
  - intros d r' Hnot Hproto. unfold User.hasRole.
    rewrite (roleHierarchy_at_unknown r' Hnot Hproto).
    now destruct (User.roleHierarchy_at _).
  - intros d r r' Hr Hin Hin'. unfold User.hasRole.
    now rewrite Hr, !roleHierarchy_at_inherited.
  - intros d r Hr Hin. unfold User.hasRole.
    rewrite Hr, !roleHierarchy_at_inherited by assumption.
    cbn [JS.ge]. apply Is_true_true. apply (reflexivity (R := String.le)).
Qed.

(** A document whose role is [constructor], a name no validation has let
    through, asked for the role [constructor]. *)
Lemma hasRole_order_witness :
  User.hasRole
    (Model.hydrate true
       {| User._id := 9; User.name := Some "Eve"; User.email := Some "e@x.com";
          User.password := Some "h"; User.role := Some "constructor";
          User.department := None; User.position := None;
          User.phoneNumber := None; User.isActive := true; User.lastLogin := None;
          User.emailVerified := false; User.profilePicture := None;
          User.timezone := "UTC"; User.language := "fr";
          User.createdAt := None; User.updatedAt := None |})
    "constructor" = true.
Proof.
  apply (proj2 (proj2 (proj2 (proj2 (proj2 (proj2 (proj2 (proj2 (proj2
           hasRole_order))))))))  _ "constructor"); [reflexivity|].
  cbn. tauto.
Defined.
(** ** The simulated accounts of the client *)

Lemma simulatedUsers_own (k : string) (u : Client.simulatedUser) :
  Client.simulatedUsers !! k = Some u ->
  (k = "admin@example.com"
   /\ u = {| Client.sim_password := "password"; Client.sim_role := "admin";
             Client.sim_id := "admin-123"; Client.sim_email := "admin@example.com" |})
  \/ (k = "user@example.com"
      /\ u = {| Client.sim_password := "password"; Client.sim_role := "user";
                Client.sim_id := "user-456"; Client.sim_email := "user@example.com" |}).
Proof.
  unfold Client.simulatedUsers. intros Hk.
  destruct (decide (k = "admin@example.com")) as [-> | Hadmin].
  - left. split; [reflexivity|]. vm_compute in Hk. congruence.
  - rewrite lookup_insert_ne in Hk by congruence.
    destruct (decide (k = "user@example.com")) as [-> | Huser].
    + right. split; [reflexivity|]. vm_compute in Hk. congruence.
    + rewrite lookup_singleton_ne in Hk by congruence. discriminate.
Qed.

(** X16: on the client only the two simulated accounts can log in, each
    with the password [password]; a login that succeeds signs the user in
    with the role and identifier of the account and persists the session,
    which the next start-up restores as it is; a login that fails changes
    neither the state nor the storage. *)
Theorem client_login_round_trip (e p : string) (c : Client.client) :
  (forall u c',
      Client.login Client.simulatedUsers e p c = (inr u, c') ->
      p = "password"
      /\ (e = "admin@example.com" /\ Client.userRole c' = "admin"
          /\ Client.userId c' = Some "admin-123"
          \/ e = "user@example.com" /\ Client.userRole c' = "user"
             /\ Client.userId c' = Some "user-456")
      /\ Client.currentUser c' = Some u /\ Client.email u = e
      /\ Client.isAuthenticated c' = true
      /\ Client.startup (Client.localStorage c') = Client.setLoading false c')
  /\ (forall code c',
        Client.login Client.simulatedUsers e p c = (inl code, c') ->
        c' = c /\ (code = "auth/invalid-email" \/ code = "auth/invalid-credential")).
Proof.
  unfold Client.login, JS.get. split.
  - intros u c' Hlogin.
    destruct (negb (Client.validateEmail e)); [discriminate|].
    destruct (negb (Client.validatePassword p)); [discriminate|].
    destruct (Client.simulatedUsers !! e) as [acc|] eqn:Hacc;
      [|destruct (existsb _ _); discriminate].
    destruct (String.eqb (Client.sim_password acc) p) eqn:Hpw; [|discriminate].
    apply String.eqb_eq in Hpw. injection Hlogin as <- <-.
    destruct (simulatedUsers_own e acc Hacc) as [[-> ->] | [-> ->]];
      cbn in Hpw; subst p; (split; [reflexivity|]); (split; [tauto|]);
      repeat split; reflexivity.
  - intros code c' Hlogin.
    destruct (negb (Client.validateEmail e)); [injection Hlogin as <- <-; tauto|].
    destruct (negb (Client.validatePassword p)); [injection Hlogin as <- <-; tauto|].
    destruct (Client.simulatedUsers !! e) as [acc|].
    + destruct (String.eqb _ p); [discriminate | injection Hlogin as <- <-; tauto].
    + destruct (existsb _ _); injection Hlogin as <- <-; tauto.
Qed.

Lemma client_login_round_trip_witness :
  Client.startup
    (Client.localStorage
       (snd (Client.login Client.simulatedUsers "admin@example.com" "password"
               (Client.startup Client.Storage.empty))))
  = Client.setLoading false
      (snd (Client.login Client.simulatedUsers "admin@example.com" "password"
              (Client.startup Client.Storage.empty))).
Proof.
  refine (proj2 (proj2 (proj2 (proj2 (proj2
            (proj1 (client_login_round_trip "admin@example.com" "password"
                      (Client.startup Client.Storage.empty))
               {| Client.email := "admin@example.com"; Client.uid := "admin-123" |}
               _ _)))))).
  vm_compute. reflexivity.
Defined.

(** X17: an account registered on the client lives in the object of one
    render only: a login with its credentials over the object the
    registration left succeeds, but over the object every later render
    builds it is refused as an invalid credential. *)
Theorem client_register_then_login (stamp e p : string) (r : option string)
  (c c0 : Client.client) (u : Client.userData)
  (users' : gmap string Client.simulatedUser) (c' : Client.client) :
  Client.register Client.simulatedUsers stamp e p r c = (inr u, users', c') ->
  Client.login users' e p c0
  = (inr u, Client.signed_in u (default "user" r) ("user-" ++ stamp) c0)
  /\ Client.login Client.simulatedUsers e p c0 = (inl "auth/invalid-credential", c0).
Proof.
  unfold Client.register, Client.login, JS.has_truthy. intros Hreg.
  destruct (negb (Client.validateEmail e)); [discriminate|].
  destruct (negb (Client.validatePassword p)); [discriminate|].
  destruct (JS.get Client.simulatedUsers e) eqn:Hget; try discriminate.
  injection Hreg as <- <- <-. split; [|reflexivity].
  unfold JS.get. rewrite lookup_insert_eq. cbn [Client.sim_password].
  now rewrite String.eqb_refl.
Qed.

Lemma client_register_then_login_witness :
  Client.login Client.simulatedUsers "new@x.com" "secret1"
    (Client.startup Client.Storage.empty)
  = (inl "auth/invalid-credential", Client.startup Client.Storage.empty).
Proof.
  refine (proj2 (client_register_then_login "1700000000000" "new@x.com" "secret1"
                   (Some "admin") (Client.startup Client.Storage.empty)
                   (Client.startup Client.Storage.empty) _ _ _ _)).
  vm_compute. reflexivity.
Defined.

(** X18: a stored session that is incomplete is neither restored nor
    cleared: when one of the three keys is missing or empty the provider
    ends signed out as a guest and the storage is left as it is; a
    complete session whose user does not parse is cleared. *)
Theorem startup_incomplete_or_garbled (storage : Client.Storage.t) :
  (Client.item_truthy (Client.Storage.currentUser storage)
   && JS.truthy_opt (Client.Storage.userRole storage)
   && JS.truthy_opt (Client.Storage.userId storage) = false ->
   Client.startup storage
   = {| Client.currentUser := None; Client.userRole := "guest";
        Client.userId := None; Client.loading := false;
        Client.localStorage := storage |})
  /\ (forall raw,
        Client.Storage.currentUser storage = Some (Client.Text raw) ->
        JS.truthy raw = true ->
        JS.truthy_opt (Client.Storage.userRole storage) = true ->
        JS.truthy_opt (Client.Storage.userId storage) = true ->
        Client.startup storage
        = {| Client.currentUser := None; Client.userRole := "guest";
             Client.userId := None; Client.loading := false;
             Client.localStorage := Client.Storage.empty |}).
Proof.
  unfold Client.startup, Client.checkAuthStatus, Client.mount.
  cbn [Client.localStorage]. split.
  - intros ->. reflexivity.
  - intros raw -> Hraw -> ->. cbn [Client.item_truthy]. now rewrite Hraw.
Qed.

Lemma startup_incomplete_or_garbled_witness :
  Client.startup
    {| Client.Storage.currentUser :=
         Some (Client.Json {| Client.email := "admin@example.com"; Client.uid := "admin-123" |});
       Client.Storage.userRole := None;
       Client.Storage.userId := Some "admin-123" |}
  = {| Client.currentUser := None; Client.userRole := "guest";
       Client.userId := None; Client.loading := false;
       Client.localStorage :=
         {| Client.Storage.currentUser :=
              Some (Client.Json {| Client.email := "admin@example.com";
                                   Client.uid := "admin-123" |});
            Client.Storage.userRole := None;
            Client.Storage.userId := Some "admin-123" |} |}.
Proof.
  apply (proj1 (startup_incomplete_or_garbled _)). reflexivity.
Defined.

(** ** The pages and their guards *)

Lemma route_protected (path : string) (allowedRoles : list string) (pg : Pages.page) :
  Pages.route Pages.protectedRoutes path = Some (allowedRoles, pg) ->
  (path = "/" \/ path = "/users" \/ path = "/materials" \/ path = "/categories"
   \/ path = "/roles")
  /\ (allowedRoles = ["admin"] /\ (path = "/users" \/ path = "/roles")
      \/ allowedRoles = ["user"; "admin"; "manager"; "support"]
         /\ path <> "/users" /\ path <> "/roles").
Proof.
  unfold Pages.protectedRoutes. cbn [Pages.route]. intros Hr.
  destruct (String.eqb "/" path) eqn:E1.
  { apply String.eqb_eq in E1. subst. injection Hr as <- <-.
    split; [tauto|]. right. repeat split; discriminate. }
  destruct (String.eqb "/users" path) eqn:E2.
  { apply String.eqb_eq in E2. subst. injection Hr as <- <-.
    split; [tauto|]. left. tauto. }
  destruct (String.eqb "/materials" path) eqn:E3.
  { apply String.eqb_eq in E3. subst. injection Hr as <- <-.
    split; [tauto|]. right. repeat split; discriminate. }
  destruct (String.eqb "/categories" path) eqn:E4.
  { apply String.eqb_eq in E4. subst. injection Hr as <- <-.
    split; [tauto|]. right. repeat split; discriminate. }
  destruct (String.eqb "/roles" path) eqn:E5.
  { apply String.eqb_eq in E5. subst. injection Hr as <- <-.
    split; [tauto|]. left. tauto. }
  discriminate.
Qed.

Lemma AppContent_protected (c : Client.client) (loc : Pages.location)
  (allowedRoles : list string) (pg : Pages.page) :
  Client.loading c = false ->
  Pages.route Pages.protectedRoutes (Pages.pathname loc) = Some (allowedRoles, pg) ->
  Pages.AppContent c loc
  = Pages.of_protected
      (Client.ProtectedRoute c (Pages.pathname loc) allowedRoles pg).
Proof.
  intros Hload Hr. unfold Pages.AppContent. rewrite Hload, Hr.
  destruct (route_protected _ _ _ Hr) as [Hpath _].
  now destruct Hpath as [-> | [-> | [-> | [-> | ->]]]].
Qed.

Lemma client_login_signs_in (users : gmap string Client.simulatedUser)
  (e p : string) (c c' : Client.client) (u : Client.userData) :
  Client.login users e p c = (inr u, c') ->
  Client.currentUser c' = Some u /\ Client.loading c' = Client.loading c.
Proof.
  unfold Client.login. intros Hlogin.
  repeat (case_match; simplify_eq/=; try done).
Qed.

(** X20: a visitor who is not signed in and asks for a protected page is
    sent to the login page, and a login submitted there leads back to the
    page that was asked for, which is then shown or refused by the role of
    the account. *)
Theorem return_after_login (c : Client.client) (loc : Pages.location)
  (allowedRoles : list string) (pg : Pages.page)
  (f : Pages.LoginPage.form) (loc' : Pages.location) (c' : Client.client) :
  Client.loading c = false -> Client.currentUser c = None ->
  Pages.route Pages.protectedRoutes (Pages.pathname loc) = Some (allowedRoles, pg) ->
  Pages.AppContent c loc = Pages.GoTo (Pages.follow "/login" (Pages.pathname loc))
  /\ Pages.AppContent c (Pages.follow "/login" (Pages.pathname loc))
     = Pages.Show Pages.Login
  /\ (Pages.LoginPage.handleSubmit Client.simulatedUsers
        (Pages.follow "/login" (Pages.pathname loc)) f c = (Pages.Went loc', c') ->
      Pages.pathname loc' = Pages.pathname loc
      /\ Pages.AppContent c' loc'
         = if Client.includes (Client.userRole c') allowedRoles
           then Pages.Show pg else Pages.Denied allowedRoles).
Proof.
  intros Hload Hnone Hr.
  destruct (route_protected _ _ _ Hr) as [Hpath Hallowed].
  assert ((if JS.truthy (Pages.pathname loc) then Pages.pathname loc else "/")
          = Pages.pathname loc) as Hback
    by (now destruct Hpath as [-> | [-> | [-> | [-> | ->]]]]).
  split; [|split].
  - rewrite (AppContent_protected c loc allowedRoles pg Hload Hr).
    unfold Client.ProtectedRoute. now rewrite Hload, Hnone.
  - unfold Pages.AppContent, Pages.PublicRoute. rewrite Hload, Hnone. reflexivity.
  - unfold Pages.LoginPage.handleSubmit. intros Hsubmit.
    destruct (negb _ || negb _); [discriminate|].
    destruct (negb (JS.test _ _)); [discriminate|].
    destruct (JS.strlen _ <? 6); [discriminate|].
    destruct (Client.login _ _ _ c) as [[code | u] c1] eqn:Hlogin; [discriminate|].
    injection Hsubmit as <- <-.
    cbn [Pages.pathname Pages.follow Pages.from JS.or_else]. rewrite Hback.
    split; [reflexivity|].
    destruct (client_login_signs_in _ _ _ _ _ _ Hlogin) as [Hcur Hload1].
    rewrite Hload in Hload1.
    rewrite (AppContent_protected c1 {| Pages.pathname := Pages.pathname loc;
                                        Pages.from := None |} allowedRoles pg Hload1 Hr).
    cbn [Pages.pathname].
    rewrite ProtectedRoute_signed_in by (rewrite ?Hcur; eauto).
    destruct Hallowed as [[-> _] | [-> _]]; cbn [bool_decide decide_rel];
      rewrite bool_decide_eq_false_2 by discriminate; cbn [orb];
      now destruct (Client.includes _ _).
Qed.

Lemma return_after_login_witness :
  Pages.AppContent (Client.startup Client.Storage.empty)
    {| Pages.pathname := "/users"; Pages.from := None |}
  = Pages.GoTo (Pages.follow "/login" "/users").
Proof.
  refine (proj1 (return_after_login (Client.startup Client.Storage.empty)
                   {| Pages.pathname := "/users"; Pages.from := None |}
                   ["admin"] Pages.UserManagement
                   {| Pages.LoginPage.email := ""; Pages.LoginPage.password := "" |}
                   {| Pages.pathname := "/"; Pages.from := None |}
                   (Client.startup Client.Storage.empty) _ _ _));
    reflexivity.
Defined.

(** X21: what a signed-in user sees behind the protected routes: an
    administrator every page; a user, manager or support every page but
    the management of users and of roles, which are refused; and any other
    role, such as the initial [guest] or a role a registration stored
    verbatim, is refused everywhere. *)
Theorem pages_by_role (c : Client.client) (loc : Pages.location)
  (allowedRoles : list string) (pg : Pages.page) :
  Client.loading c = false -> is_Some (Client.currentUser c) ->
  Pages.route Pages.protectedRoutes (Pages.pathname loc) = Some (allowedRoles, pg) ->
  (Client.userRole c = "admin" -> Pages.AppContent c loc = Pages.Show pg)
  /\ (Client.userRole c = "user" \/ Client.userRole c = "manager"
      \/ Client.userRole c = "support" ->
      Pages.AppContent c loc
      = if String.eqb (Pages.pathname loc) "/users"
           || String.eqb (Pages.pathname loc) "/roles"
        then Pages.Denied ["admin"] else Pages.Show pg)
  /\ (~ In (Client.userRole c) ["user"; "admin"; "manager"; "support"] ->
      Pages.AppContent c loc = Pages.Denied allowedRoles).
Proof.
  intros Hload Huser Hr.
  rewrite (AppContent_protected c loc allowedRoles pg Hload Hr).
  rewrite ProtectedRoute_signed_in by assumption.
  destruct (route_protected _ _ _ Hr) as [Hpath Hallowed].
  split; [|split].
  - intros ->. now destruct Hallowed as [[-> _] | [-> _]].
  - intros Hrole.
    destruct Hallowed as [[-> Hp] | [-> [Hu Hro]]].
    + assert (String.eqb (Pages.pathname loc) "/users"
              || String.eqb (Pages.pathname loc) "/roles" = true) as ->
        by (destruct Hp as [-> | ->]; reflexivity).
      now destruct Hrole as [-> | [-> | ->]].
    + apply String.eqb_neq in Hu, Hro. rewrite Hu, Hro.
      now destruct Hrole as [-> | [-> | ->]].
  - intros Hnot.
    assert (Client.includes (Client.userRole c) allowedRoles = false) as Hinc.
    { apply includes_not_In. intros Hin. apply Hnot.
      destruct Hallowed as [[-> _] | [-> _]]; cbn in Hin |- *; tauto. }
    rewrite Hinc.
    now destruct Hallowed as [[-> _] | [-> _]].
Qed.

Lemma pages_by_role_witness :
  Pages.AppContent (Stub.signed_in_as "manager")
    {| Pages.pathname := "/roles"; Pages.from := None |}
  = Pages.Denied ["admin"].
Proof.
  refine (proj1 (proj2 (pages_by_role (Stub.signed_in_as "manager")
                          {| Pages.pathname := "/roles"; Pages.from := None |}
                          ["admin"] Pages.RoleManagement _ _ _)) _).
  - reflexivity.
  - cbn. eauto.
  - reflexivity.
  - cbn. tauto.
Defined.

(** ** The registration page *)

(** X22: what a submission of the registration form can do. A message
    leaves the client as it was and is never the unexpected one: the
    checks of the page run before the simulated registration, so of its
    rejections only the address already in use can occur. A submission
    that goes through has signed the user in under the role of the form
    and navigates to the login page, from where the guard of the public
    pages sends the signed-in user on to the dashboard. *)
Theorem register_page_submit (users : gmap string Client.simulatedUser)
  (stamp : string) (f : Pages.RegisterPage.form) (c : Client.client) :
  (forall n c',
      Pages.RegisterPage.handleSubmit users stamp f c = (Pages.Shown n, c') ->
      c' = c
      /\ n <> Pages.Unexpected
      /\ (n = Pages.EmailAlreadyUsed ->
          JS.has_truthy users (Pages.RegisterPage.email f) = true)
      /\ (n = Pages.InvalidEmailFormat ->
          Client.validateEmail (Pages.RegisterPage.email f) = false)
      /\ (n = Pages.PasswordTooShort ->
          JS.strlen (Pages.RegisterPage.password f) < 6))
  /\ (forall loc c',
        Pages.RegisterPage.handleSubmit users stamp f c = (Pages.Went loc, c') ->
        loc = {| Pages.pathname := "/login"; Pages.from := None |}
        /\ c' = Client.signed_in
                  {| Client.email := Pages.RegisterPage.email f;
                     Client.uid := "user-" ++ stamp |}
                  (Pages.RegisterPage.role f) ("user-" ++ stamp) c
        /\ JS.has_truthy users (Pages.RegisterPage.email f) = false
        /\ Pages.RegisterPage.password f = Pages.RegisterPage.confirmPassword f
        /\ 2 <= JS.strlen (Pages.RegisterPage.name f)
        /\ 6 <= JS.strlen (Pages.RegisterPage.password f)
        /\ (Client.loading c = false ->
            Pages.AppContent c' loc
            = Pages.GoTo {| Pages.pathname := "/"; Pages.from := None |})).
Proof.
  unfold Pages.RegisterPage.handleSubmit, Client.register, Client.validateEmail,
    Client.validatePassword.
  destruct (negb (JS.truthy (Pages.RegisterPage.name f))
            || negb (JS.truthy (Pages.RegisterPage.email f))
            || negb (JS.truthy (Pages.RegisterPage.password f))
            || negb (JS.truthy (Pages.RegisterPage.confirmPassword f))) eqn:Hfill.
  { split; [intros n c' [= <- <-] | intros loc c' [=]].
    repeat split; discriminate. }
  destruct (JS.strlen (Pages.RegisterPage.name f) <? 2) eqn:Hname.
  { split; [intros n c' [= <- <-] | intros loc c' [=]].
    repeat split; discriminate. }
  destruct (JS.test User.emailRegex (Pages.RegisterPage.email f)) eqn:Hemail;
    cbn [negb].
  2:{ split; [intros n c' [= <- <-] | intros loc c' [=]].
      repeat split; (discriminate || reflexivity). }
  destruct (JS.strlen (Pages.RegisterPage.password f) <? 6) eqn:Hpw.
  { split; [intros n c' [= <- <-] | intros loc c' [=]].
    apply Z.ltb_lt in Hpw. repeat split; (discriminate || auto). }
  destruct (String.eqb (Pages.RegisterPage.password f)
              (Pages.RegisterPage.confirmPassword f)) eqn:Hconfirm; cbn [negb].
  2:{ split; [intros n c' [= <- <-] | intros loc c' [=]].
      repeat split; discriminate. }
  apply Z.ltb_ge in Hname, Hpw. apply String.eqb_eq in Hconfirm.
  rewrite (truthy_of_length _ Hpw), (proj2 (Z.leb_le _ _) Hpw). cbn [andb negb].
  destruct (JS.has_truthy users (Pages.RegisterPage.email f)) eqn:Hkey.
  { split; [intros n c' [= <- <-] | intros loc c' [=]].
    repeat split; (discriminate || reflexivity). }
  split; [intros n c' [=] | intros loc c' [= <- <-]].
  cbn [default from_option id].
  repeat split; auto.
  intros Hload. unfold Pages.AppContent, Pages.PublicRoute.
  cbn [Client.loading Client.signed_in Client.currentUser Pages.pathname Pages.from].
  rewrite Hload. reflexivity.
Qed.

Lemma register_page_submit_witness :
  Pages.RegisterPage.handleSubmit Client.simulatedUsers "1700000000000"
    {| Pages.RegisterPage.name := "Eve"; Pages.RegisterPage.email := "admin@example.com";
       Pages.RegisterPage.password := "secret1";
       Pages.RegisterPage.confirmPassword := "secret1";
       Pages.RegisterPage.role := "admin" |}
    (Client.startup Client.Storage.empty)
  = (Pages.Shown Pages.EmailAlreadyUsed, Client.startup Client.Storage.empty)
  /\ JS.has_truthy Client.simulatedUsers "admin@example.com" = true.
Proof.
  split; [reflexivity|].
  refine (proj1 (proj2 (proj2 (proj1 (register_page_submit Client.simulatedUsers
            "1700000000000"
            {| Pages.RegisterPage.name := "Eve";
               Pages.RegisterPage.email := "admin@example.com";
               Pages.RegisterPage.password := "secret1";
               Pages.RegisterPage.confirmPassword := "secret1";
               Pages.RegisterPage.role := "admin" |}
            (Client.startup Client.Storage.empty))
            Pages.EmailAlreadyUsed (Client.startup Client.Storage.empty) _))) _);
    reflexivity.
Defined.

Lemma digit_atom (c : ascii) : JS.is_digit c = true -> Lang.atom c = true.
Proof.
  destruct c as [[] [] [] [] [] [] [] []]; vm_compute; intros; congruence.
Qed.

Lemma demo_email_valid (prefix stamp : string) :
  Lang.atoms prefix -> Lang.digits stamp ->
  Client.validateEmail (prefix ++ stamp ++ "@example.com") = true.
Proof.
  intros [Hne Hprefix] Hdigits.
  apply (proj2 (emailRegex_shape _)).
  exists (prefix ++ stamp), "example", "com".
  split; [now rewrite append_assoc|].
  split; [|split; split; (discriminate || reflexivity)].
  split.
  - destruct prefix; [contradiction | discriminate].
  - rewrite all_app, Hprefix. cbn [andb].
    revert Hdigits. apply all_impl, digit_atom.
Qed.

(** X23: the demonstration data of the registration page always registers:
    for any user type and any time stamp made of digits, submitting the
    filled form signs a new user in under exactly that user type as role,
    with the address [admin-demo-<stamp>@example.com] for [admin] and
    [user-demo-<stamp>@example.com] otherwise. *)
Theorem demo_data_registers (userType stamp stamp' : string) (c : Client.client) :
  Lang.digits stamp ->
  let f := Pages.RegisterPage.fillDemoData userType stamp in
  Pages.RegisterPage.email f
  = (if String.eqb userType "admin" then "admin-demo-" else "user-demo-")
      ++ stamp ++ "@example.com"
  /\ Pages.RegisterPage.handleSubmit Client.simulatedUsers stamp' f c
     = (Pages.Went {| Pages.pathname := "/login"; Pages.from := None |},
        Client.signed_in
          {| Client.email := Pages.RegisterPage.email f; Client.uid := "user-" ++ stamp' |}
          userType ("user-" ++ stamp') c).
Proof.
  intros Hdigits f.
  assert (Pages.RegisterPage.email f
          = (if String.eqb userType "admin" then "admin-demo-" else "user-demo-")
              ++ stamp ++ "@example.com") as Hemail
    by (unfold f, Pages.RegisterPage.fillDemoData;
        now destruct (String.eqb userType "admin")).
  split; [exact Hemail|].
  assert (Client.validateEmail (Pages.RegisterPage.email f) = true) as Hvalid.
  { rewrite Hemail. apply demo_email_valid; [|assumption].
    destruct (String.eqb userType "admin"); split; (discriminate || reflexivity). }
  assert (JS.has_truthy Client.simulatedUsers (Pages.RegisterPage.email f) = false)
    as Hfree.
  { destruct (JS.has_truthy _ _) eqn:Hkey; [|reflexivity].
    apply simulatedUsers_keys in Hkey as [Hk | [Hk | Hk]].
    - rewrite Hemail in Hk. destruct (String.eqb userType "admin");
        rewrite !append_cons in Hk; discriminate.
    - rewrite Hemail in Hk. destruct (String.eqb userType "admin");
        rewrite !append_cons in Hk; discriminate.
    - now apply validated_email_not_inherited in Hk. }
  unfold Pages.RegisterPage.handleSubmit, Client.register.
  rewrite Hvalid, Hfree.
  unfold Client.validateEmail in Hvalid. rewrite Hvalid.
  assert (JS.truthy (Pages.RegisterPage.email f) = true) as ->.
  { rewrite Hemail. now destruct (String.eqb userType "admin"). }
  unfold f, Pages.RegisterPage.fillDemoData.
  cbn [Pages.RegisterPage.name Pages.RegisterPage.password
       Pages.RegisterPage.confirmPassword Pages.RegisterPage.role
       Pages.RegisterPage.email].
  destruct (String.eqb userType "admin"); reflexivity.
Qed.

Lemma demo_data_registers_witness :
  Pages.RegisterPage.email (Pages.RegisterPage.fillDemoData "admin" "1700000000000")
  = "admin-demo-1700000000000@example.com"
  /\ Pages.RegisterPage.handleSubmit Client.simulatedUsers "1700000000001"
       (Pages.RegisterPage.fillDemoData "admin" "1700000000000")
       (Client.startup Client.Storage.empty)
     = (Pages.Went {| Pages.pathname := "/login"; Pages.from := None |},
        Client.signed_in
          {| Client.email := "admin-demo-1700000000000@example.com";
             Client.uid := "user-1700000000001" |}
          "admin" "user-1700000000001" (Client.startup Client.Storage.empty)).
Proof.
  apply (demo_data_registers "admin" "1700000000000" "1700000000001"
           (Client.startup Client.Storage.empty)).
  reflexivity.
Defined.

(** ** Leaving and the demonstration accounts *)

(** X24: [logout] ends the session whatever the state was: the user is no
    longer authenticated, every protected page sends to the login page and
    remembers the page asked for, and the next start-up finds nothing to
    restore. *)
Theorem logout_ends_session (c : Client.client) (loc : Pages.location)
  (allowedRoles : list string) (pg : Pages.page) :
  Client.loading c = false ->
  Pages.route Pages.protectedRoutes (Pages.pathname loc) = Some (allowedRoles, pg) ->
  Client.isAuthenticated (Client.logout c) = false
  /\ Pages.AppContent (Client.logout c) loc
     = Pages.GoTo (Pages.follow "/login" (Pages.pathname loc))
  /\ Client.startup (Client.localStorage (Client.logout c)) = Client.logout c.
Proof.
  intros Hload Hr. split; [reflexivity|]. split.
  - assert (Client.loading (Client.logout c) = false) as Hout by exact Hload.
    rewrite (AppContent_protected _ loc allowedRoles pg Hout Hr).
    unfold Client.ProtectedRoute. rewrite Hout. reflexivity.
  - unfold Client.logout, Client.clearAuthStorage. rewrite Hload. reflexivity.
Qed.

Lemma logout_ends_session_witness :
  Pages.AppContent (Client.logout (Stub.signed_in_as "admin"))
    {| Pages.pathname := "/users"; Pages.from := None |}
  = Pages.GoTo (Pages.follow "/login" "/users").
Proof.
  refine (proj1 (proj2 (logout_ends_session (Stub.signed_in_as "admin")
            {| Pages.pathname := "/users"; Pages.from := None |}
            ["admin"] Pages.UserManagement _ _))); reflexivity.
Defined.

(** X25: the demonstration credentials of the login page always log in:
    whatever the argument, the filled form passes the checks of the page
    and of the context, signs in the administrator for [admin] and the
    plain user for anything else, and leads to the page asked for before,
    or to the dashboard. *)
Theorem demo_credentials_log_in (role : string) (loc : Pages.location)
  (c : Client.client) :
  exists c',
    Pages.LoginPage.handleSubmit Client.simulatedUsers loc
      (Pages.LoginPage.fillDemoCredentials role) c
    = (Pages.Went {| Pages.pathname := JS.or_else (Pages.from loc) "/";
                     Pages.from := None |}, c')
    /\ Client.userRole c' = (if String.eqb role "admin" then "admin" else "user")
    /\ Client.isAuthenticated c' = true
    /\ Client.loading c' = Client.loading c.
Proof.
  unfold Pages.LoginPage.fillDemoCredentials.
  destruct (String.eqb role "admin"); eexists; (split; [reflexivity|]);
    repeat split; reflexivity.
Qed.


(** ** Saved passwords, at a concrete input *)

Lemma save_stores_hash_witness :
  6 <= JS.strlen "secret1"
  /\ Model.users (snd (Model.save (H := Stub.bcrypt) 1000 "salt" Stub.alice_new
                         Stub.empty_db))
     = [Stub.alice].
Proof.
  destruct (Model.save (H := Stub.bcrypt) 1000 "salt" Stub.alice_new Stub.empty_db)
    as [[err | d'] w'] eqn:Hsave; [vm_compute in Hsave; discriminate|].
  destruct (save_stores_hash (H := Stub.bcrypt) 1000 "salt" Stub.alice_new d'
              "secret1" Stub.empty_db w' eq_refl eq_refl Hsave) as (Hlen & _ & Hnew).
  split; [exact Hlen|]. cbn [snd]. rewrite (Hnew eq_refl). reflexivity.
Defined.
